(** * overtime: sessions, access gates, invites and the permission policy

    A shallow embedding of the Go packages [models], [config], [middleware]
    and of the [Register] and [DeleteUser] handlers, together with the
    properties of the authentication core that are stated about them.

    Conventions.
    - [time.Time] is the number of nanoseconds since the Unix epoch, as a [Z];
      [time.Duration] is a number of nanoseconds, as a [Z].
    - Go's [uint] is an [N]; the code only compares and copies identifiers.
    - Go strings are [string]s; [len] is [String.length].
    - The process-wide variables ([database.DB], [jwtSecret]), the wall clock
      and the failures of the database driver live in a [World] that every
      effectful function threads through. *)

From Stdlib Require Import ZArith NArith List String Ascii Bool Lia.
Import ListNotations.

Open Scope Z_scope.
Open Scope string_scope.

(** ** package time *)

Definition Time := Z.
Definition Duration := Z.

Definition Nanosecond : Duration := 1.
Definition Second : Duration := 1000000000 * Nanosecond.
Definition Minute : Duration := 60 * Second.
Definition Hour : Duration := 60 * Minute.

(** The zero value of [time.Time]: January 1, year 1, 00:00:00 UTC. *)
Definition zeroTime : Time := -62135596800 * Second.

Definition time_Add (t : Time) (d : Duration) : Time := t + d.
Definition time_Before (t u : Time) : bool := Z.ltb t u.

(** [Duration.Seconds()] converted back with [int(...)]: whole seconds,
    rounded toward zero. *)
Definition Duration_Seconds_int (d : Duration) : Z := Z.quot d Second.

(** ** Results of fallible calls *)

Inductive error : Type :=
| ErrRecordNotFound        (* gorm.ErrRecordNotFound *)
| ErrDuplicatedKey         (* unique index violated *)
| ErrDatabase              (* the driver reported a failure *)
| ErrTokenExpired          (* jwt.ErrTokenExpired *)
| ErrTokenNotValidYet      (* jwt.ErrTokenNotValidYet *)
| ErrTokenRejected         (* malformed token or signature mismatch *)
| ErrSignatureInvalid      (* jwt.ErrSignatureInvalid *)
| ErrSigning               (* SignedString failed *)
| ErrSyntax                (* strconv.ErrSyntax *)
| ErrRange                 (* strconv.ErrRange *)
| ErrHash                  (* bcrypt failed *)
| ErrForm.                 (* ParseForm failed *)

Inductive result (A : Type) : Type :=
| Ok (a : A)
| Err (e : error).
Arguments Ok {A} a.
Arguments Err {A} e.

(** ** package models *)

Definition Role := string.

Definition RoleAdmin : Role := "ADMIN".
Definition RoleHR : Role := "HR".
Definition RoleEmployee : Role := "EMPLOYEE".

Module User.
Record t : Type := mk {
  ID : N;
  CreatedAt : Time;
  UpdatedAt : Time;
  DeletedAt : option Time;
  Username : string;
  FullName : string;
  PasswordHash : string;
  Role : Role;
  MustChangePassword : bool
}.
End User.

Module Invite.
Record t : Type := mk {
  ID : N;
  CreatedAt : Time;
  UpdatedAt : Time;
  DeletedAt : option Time;
  Code : string;
  FullName : string;
  Role : Role;
  Used : bool;
  CreatedBy : N;
  ExpiresAt : Time;
  TeamID : option N;
  ProjectID : option N
}.

Definition with_Used (b : bool) (i : t) : t :=
  mk (ID i) (CreatedAt i) (UpdatedAt i) (DeletedAt i) (Code i) (FullName i)
     (Role i) b (CreatedBy i) (ExpiresAt i) (TeamID i) (ProjectID i).

Definition with_UpdatedAt (u : Time) (i : t) : t :=
  mk (ID i) (CreatedAt i) u (DeletedAt i) (Code i) (FullName i)
     (Role i) (Used i) (CreatedBy i) (ExpiresAt i) (TeamID i) (ProjectID i).
End Invite.

(** The columns of [OvertimeEntry] that the modelled operations read or
    write; [Hours] is a float64 the authentication core never looks at, so
    the row carries it as an opaque numeral. *)
Module OvertimeEntry.
Record t : Type := mk {
  ID : N;
  CreatedAt : Time;
  UpdatedAt : Time;
  DeletedAt : option Time;
  UserID : N;
  Date : Time;
  Hours : Z;
  Description : string
}.

Definition with_DeletedAt (d : option Time) (e : t) : t :=
  mk (ID e) (CreatedAt e) (UpdatedAt e) d (UserID e) (Date e) (Hours e)
     (Description e).
End OvertimeEntry.

Definition DisplayName (u : User.t) : string :=
  if negb (User.FullName u =? EmptyString) then User.FullName u else User.Username u.

Definition IsAdmin (u : User.t) : bool := User.Role u =? RoleAdmin.
Definition IsHR (u : User.t) : bool := User.Role u =? RoleHR.
Definition IsEmployee (u : User.t) : bool := User.Role u =? RoleEmployee.

Definition CanManageOvertimeFor (u : User.t) (userID : N) : bool :=
  if IsAdmin u then true else N.eqb (User.ID u) userID.

Definition CanViewAllOvertime (u : User.t) : bool := IsAdmin u || IsHR u.
Definition CanExport (u : User.t) : bool := IsAdmin u || IsHR u.
Definition CanCreateInvites (u : User.t) : bool := IsAdmin u.

(** ** package config *)

Module Config.
Record t : Type := mk {
  DatabaseURL : string;
  JWTSecret : string;
  JWTExpiration : Duration;
  ServerPort : string;
  InviteExpiration : Duration
}.
End Config.

(** [os.Getenv] is the parameter [env]. *)
Definition getEnv (env : string -> string) (key defaultValue : string) : string :=
  let value := env key in
  if negb (value =? EmptyString) then value else defaultValue.

Definition Load (env : string -> string) : Config.t :=
  Config.mk
    (getEnv env "DATABASE_URL" "postgresql://postgres@localhost:5432/overtime")
    (getEnv env "JWT_SECRET" "your-super-secret-key-change-in-production")
    (24 * Hour)
    (getEnv env "SERVER_PORT" "8080")
    (7 * 24 * Hour).

(** ** The world: database, secret, clock and driver failures *)

(** The tables, each in insertion (primary key) order, which is the order
    in which GORM's [First] looks at the rows. *)
Record DB : Type := mkDB {
  users : list User.t;
  invites : list Invite.t;
  overtime_entries : list OvertimeEntry.t
}.

(** The database statements issued by the modelled code, one label per
    statement. *)
Inductive DBCall : Type :=
| OpFirstInviteByCode
| OpFirstUserByUsername
| OpFirstUserByID
| OpCreateUser
| OpUpdateMustChangePassword
| OpSaveInvite
| OpDeleteOvertimeEntries
| OpDeleteUser.

(** [clock n] is what the [n]-th call of [time.Now()] returns and [reads]
    counts the calls made so far; [fails c] tells whether the driver fails
    statement [c]; [jwtSecret] is the package variable of [middleware]. *)
Record World : Type := mkWorld {
  db : DB;
  jwtSecret : string;
  clock : nat -> Time;
  reads : nat;
  fails : DBCall -> bool
}.

Definition with_db (d : DB) (w : World) : World :=
  mkWorld d (jwtSecret w) (clock w) (reads w) (fails w).

Definition tick (w : World) : World :=
  mkWorld (db w) (jwtSecret w) (clock w) (S (reads w)) (fails w).

(** The reading the next [time.Now()] returns. *)
Definition now (w : World) : Time := clock w (reads w).

Definition M (A : Type) : Type := World -> A * World.

Definition ret {A : Type} (a : A) : M A := fun w => (a, w).

Definition bind {A B : Type} (m : M A) (k : A -> M B) : M B :=
  fun w => let (a, w') := m w in k a w'.

Notation "x <- m ;; k" := (bind m (fun x => k))
  (at level 100, m at next level, right associativity).

Definition time_Now : M Time := fun w => (now w, tick w).

Definition SetJWTSecret (secret : string) : M unit :=
  fun w => (tt, mkWorld (db w) secret (clock w) (reads w) (fails w)).

Definition get_jwtSecret : M string := fun w => (jwtSecret w, w).

(** [(i *Invite) IsValid()]: [!i.Used && time.Now().Before(i.ExpiresAt)];
    the conjunction short-circuits, so the clock is read only for an invite
    that is not used. *)
Definition IsValid (i : Invite.t) : M bool :=
  if negb (Invite.Used i) then
    t <- time_Now ;;
    ret (time_Before t (Invite.ExpiresAt i))
  else ret false.

(** ** package database: the GORM statements the handlers issue *)

Definition live (d : option Time) : bool :=
  match d with None => true | Some _ => false end.

(** [Where("code = ?", code).First(&invite)] *)
Definition First_Invite_by_code (code : string) : M (result Invite.t) :=
  fun w =>
    if fails w OpFirstInviteByCode then (Err ErrDatabase, w)
    else match find (fun i => live (Invite.DeletedAt i) && (Invite.Code i =? code))
                    (invites (db w)) with
         | Some i => (Ok i, w)
         | None => (Err ErrRecordNotFound, w)
         end.

(** [Where("username = ?", username).First(&existingUser)] *)
Definition First_User_by_username (username : string) : M (result User.t) :=
  fun w =>
    if fails w OpFirstUserByUsername then (Err ErrDatabase, w)
    else match find (fun u => live (User.DeletedAt u) && (User.Username u =? username))
                    (users (db w)) with
         | Some u => (Ok u, w)
         | None => (Err ErrRecordNotFound, w)
         end.

(** [First(&user, id)] *)
Definition First_User_by_ID (id : N) : M (result User.t) :=
  fun w =>
    if fails w OpFirstUserByID then (Err ErrDatabase, w)
    else match find (fun u => live (User.DeletedAt u) && N.eqb (User.ID u) id)
                    (users (db w)) with
         | Some u => (Ok u, w)
         | None => (Err ErrRecordNotFound, w)
         end.

Definition next_user_id (l : list User.t) : N :=
  N.succ (fold_right (fun u m => N.max (User.ID u) m) 0%N l).

(** A bool column declared [gorm:"default:d"]: on [Create], GORM writes
    the declared default in place of the zero value [false]. *)
Definition gorm_default (d : bool) (v : bool) : bool := if v then v else d.

(** [Create(&user)] for a value whose primary key is zero.  The row gets the
    next identifier and its timestamps.  [MustChangePassword] is declared
    [gorm:"default:true"], so a [false] in the struct is stored (and
    written back) as [true].  The unique index on [username] also covers
    soft-deleted rows. *)
Definition Create_User (u : User.t) : M (result User.t) :=
  t <- time_Now ;;
  fun w =>
    if fails w OpCreateUser then (Err ErrDatabase, w)
    else if existsb (fun x => User.Username x =? User.Username u) (users (db w))
    then (Err ErrDuplicatedKey, w)
    else
      let row :=
        User.mk (next_user_id (users (db w)))
                (if Z.eqb (User.CreatedAt u) zeroTime then t else User.CreatedAt u)
                (if Z.eqb (User.UpdatedAt u) zeroTime then t else User.UpdatedAt u)
                (User.DeletedAt u) (User.Username u) (User.FullName u)
                (User.PasswordHash u) (User.Role u)
                (gorm_default true (User.MustChangePassword u)) in
      (Ok row,
       with_db (mkDB (users (db w) ++ [row])%list (invites (db w))
                     (overtime_entries (db w))) w).

(** [Model(&user).Update("must_change_password", v)]: one column (and
    [updated_at]) of the live row with the user's primary key. *)
Definition Update_must_change_password (user : User.t) (v : bool) : M (result unit) :=
  t <- time_Now ;;
  fun w =>
    if fails w OpUpdateMustChangePassword then (Err ErrDatabase, w)
    else
      let upd (x : User.t) :=
        if N.eqb (User.ID x) (User.ID user) && live (User.DeletedAt x)
        then User.mk (User.ID x) (User.CreatedAt x) t (User.DeletedAt x)
                     (User.Username x) (User.FullName x) (User.PasswordHash x)
                     (User.Role x) v
        else x in
      (Ok tt,
       with_db (mkDB (map upd (users (db w))) (invites (db w))
                     (overtime_entries (db w))) w).

(** [Save(&invite)] for a value whose primary key is set: every column of
    the row with that key is overwritten; when no row has the key the value
    is inserted. *)
Definition Save_Invite (i : Invite.t) : M (result unit) :=
  t <- time_Now ;;
  fun w =>
    if fails w OpSaveInvite then (Err ErrDatabase, w)
    else
      let i' := Invite.with_UpdatedAt t i in
      let rows := invites (db w) in
      let rows' :=
        if existsb (fun x => N.eqb (Invite.ID x) (Invite.ID i)) rows
        then map (fun x => if N.eqb (Invite.ID x) (Invite.ID i) then i' else x) rows
        else (rows ++ [i'])%list in
      (Ok tt, with_db (mkDB (users (db w)) rows' (overtime_entries (db w))) w).

(** [Where("user_id = ?", id).Delete(&models.OvertimeEntry{})]: a soft
    delete, the live entries of that user get [deleted_at]. *)
Definition Delete_OvertimeEntries_of (id : N) : M (result unit) :=
  t <- time_Now ;;
  fun w =>
    if fails w OpDeleteOvertimeEntries then (Err ErrDatabase, w)
    else
      let del (e : OvertimeEntry.t) :=
        if N.eqb (OvertimeEntry.UserID e) id && live (OvertimeEntry.DeletedAt e)
        then OvertimeEntry.with_DeletedAt (Some t) e else e in
      (Ok tt,
       with_db (mkDB (users (db w)) (invites (db w))
                     (map del (overtime_entries (db w)))) w).

(** [Delete(&models.User{}, id)]: a soft delete by primary key. *)
Definition Delete_User (id : N) : M (result unit) :=
  t <- time_Now ;;
  fun w =>
    if fails w OpDeleteUser then (Err ErrDatabase, w)
    else
      let del (x : User.t) :=
        if N.eqb (User.ID x) id && live (User.DeletedAt x)
        then User.mk (User.ID x) (User.CreatedAt x) (User.UpdatedAt x) (Some t)
                     (User.Username x) (User.FullName x) (User.PasswordHash x)
                     (User.Role x) (User.MustChangePassword x)
        else x in
      (Ok tt,
       with_db (mkDB (map del (users (db w))) (invites (db w))
                     (overtime_entries (db w))) w).

(** ** package strings, package strconv *)

(** [strings.Split(s, " ")] *)
Fixpoint Split_space (s : string) : list string :=
  match s with
  | EmptyString => [EmptyString]
  | String c r =>
      if Ascii.eqb c " "%char then EmptyString :: Split_space r
      else match Split_space r with
           | h :: t => String c h :: t
           | [] => [String c EmptyString]
           end
  end.

Definition digit_of (c : ascii) : option N :=
  let n := N_of_ascii c in
  if (N.leb 48 n && N.leb n 57)%bool then Some (n - 48)%N else None.

Fixpoint ParseUint_loop (maxVal : N) (s : string) (n : N) : result N :=
  match s with
  | EmptyString => Ok n
  | String c r =>
      match digit_of c with
      | None => Err ErrSyntax
      | Some d =>
          let n1 := (n * 10 + d)%N in
          if N.ltb maxVal n1 then Err ErrRange else ParseUint_loop maxVal r n1
      end
  end.

(** [strconv.ParseUint(s, 10, bitSize)] *)
Definition ParseUint10 (s : string) (bitSize : N) : result N :=
  match s with
  | EmptyString => Err ErrSyntax
  | _ => ParseUint_loop (2 ^ bitSize - 1)%N s 0%N
  end.

(** ** package net/http *)

Inductive SameSite : Type :=
| SameSiteUnset | SameSiteDefaultMode | SameSiteLaxMode
| SameSiteStrictMode | SameSiteNoneMode.

Module Cookie.
Record t : Type := mk {
  Name : string;
  Value : string;
  Path : string;
  MaxAge : Z;
  HttpOnly : bool;
  SameSite_ : SameSite
}.
End Cookie.

Definition StatusSeeOther : Z := 303.
Definition StatusBadRequest : Z := 400.
Definition StatusUnauthorized : Z := 401.
Definition StatusForbidden : Z := 403.

(** What a request carries: the path, the cookies and header lines in the
    order received, the outcome of [ParseForm] and the user stored in the
    request context under [UserContextKey]. *)
Record Request : Type := mkRequest {
  URL_Path : string;
  Cookies : list (string * string);
  Header : list (string * string);
  ParseForm : result (list (string * string));
  ctx_user : option User.t
}.

Definition lookup_first (key : string) (l : list (string * string)) : option string :=
  match find (fun kv => fst kv =? key) l with
  | Some kv => Some (snd kv)
  | None => None
  end.

(** [r.Cookie(name)]: the first cookie of that name, [None] for
    [http.ErrNoCookie]. *)
Definition Request_Cookie (r : Request) (name : string) : option string :=
  lookup_first name (Cookies r).

(** [r.Header.Get(key)] *)
Definition Header_Get (r : Request) (key : string) : string :=
  match lookup_first key (Header r) with Some v => v | None => EmptyString end.

(** [r.FormValue(key)] once the form is parsed. *)
Definition FormValue (form : list (string * string)) (key : string) : string :=
  match lookup_first key form with Some v => v | None => EmptyString end.

(** [r.WithContext(context.WithValue(r.Context(), UserContextKey, &user))] *)
Definition WithUser (r : Request) (u : User.t) : Request :=
  mkRequest (URL_Path r) (Cookies r) (Header r) (ParseForm r) (Some u).

(** What has been written to an [http.ResponseWriter]. *)
Record ResponseWriter : Type := mkRW {
  Status : option Z;
  Location : option string;
  SetCookies : list Cookie.t;
  Body : string
}.

Definition emptyRW : ResponseWriter := mkRW None None [] EmptyString.

Definition http_SetCookie (rw : ResponseWriter) (c : Cookie.t) : ResponseWriter :=
  mkRW (Status rw) (Location rw) (SetCookies rw ++ [c])%list (Body rw).

(** [http.Redirect] to a rooted path: the [Location] header and the status. *)
Definition http_Redirect (rw : ResponseWriter) (url : string) (code : Z) : ResponseWriter :=
  mkRW (Some code) (Some url) (SetCookies rw) (Body rw).

Definition http_Error (rw : ResponseWriter) (msg : string) (code : Z) : ResponseWriter :=
  mkRW (Some code) (Location rw) (SetCookies rw) (Body rw ++ msg ++ String "010"%char EmptyString).

(** A handler either answers or panics (a nil dereference). *)
Inductive Outcome : Type :=
| Responded (rw : ResponseWriter)
| Panic.

Definition Handler : Type := ResponseWriter -> Request -> M Outcome.

Definition Outcome_Status (o : Outcome) : option Z :=
  match o with Responded rw => Status rw | Panic => None end.

Definition Outcome_Location (o : Outcome) : option string :=
  match o with Responded rw => Location rw | Panic => None end.

(** ** package middleware: claims *)

(** [jwt.NumericDate]: a time truncated to whole seconds. *)
Definition NumericDate := Z.

Definition NewNumericDate (t : Time) : NumericDate := t / Second.
Definition NumericDate_Time (d : NumericDate) : Time := d * Second.

Module Claims.
Record t : Type := mk {
  UserID : N;
  Username : string;
  Role : Role;
  ExpiresAt : option NumericDate;
  NotBefore : option NumericDate;
  IssuedAt : option NumericDate
}.
End Claims.

(** [jwt.Token], as far as [ValidateToken] looks at it. *)
Record Token : Type := mkToken {
  Token_Claims : Claims.t;
  Token_Valid : bool
}.

Definition GetUserFromContext (r : Request) : option User.t := ctx_user r.

(** ** The code that calls the external libraries

    [github.com/golang-jwt/jwt/v5] and [golang.org/x/crypto/bcrypt] are not
    part of the repository.  The code is modelled over their entry points:
    - [jwt_SignedString key claims] is
      [jwt.NewWithClaims(jwt.SigningMethodHS256, claims).SignedString(key)];
    - [jwt_parse_verified key s] is the first half of [jwt.ParseWithClaims]:
      it decodes the three segments of [s] and checks the signature under
      [key], and yields the decoded claims without looking at the dates;
    - [bcrypt_GenerateFromPassword] is the hash function. *)
Section Core.

Variable jwt_SignedString : string -> Claims.t -> result string.
Variable jwt_parse_verified : string -> string -> result Claims.t.
Variable bcrypt_GenerateFromPassword : string -> result string.

(** The second half of [jwt.ParseWithClaims]: the library's validator
    reads the clock once; [exp] must lie strictly after it and [nbf] must
    not; [iat] is not checked under the default options. *)
Definition jwt_Validate (c : Claims.t) : M (result unit) :=
  t <- time_Now ;;
  let exp_ok :=
    match Claims.ExpiresAt c with
    | Some e => time_Before t (NumericDate_Time e)
    | None => true
    end in
  let nbf_ok :=
    match Claims.NotBefore c with
    | Some n => negb (time_Before t (NumericDate_Time n))
    | None => true
    end in
  ret (if negb exp_ok then Err ErrTokenExpired
       else if negb nbf_ok then Err ErrTokenNotValidYet
       else Ok tt).

Definition jwt_ParseWithClaims (tokenString key : string) : M (result Token) :=
  match jwt_parse_verified key tokenString with
  | Err e => ret (Err e)
  | Ok c =>
      v <- jwt_Validate c ;;
      match v with
      | Err e => ret (Err e)
      | Ok _ => ret (Ok (mkToken c true))
      end
  end.

Definition GenerateToken (user : User.t) (expiration : Duration) : M (result string) :=
  t_exp <- time_Now ;;
  t_iat <- time_Now ;;
  let claims :=
    Claims.mk (User.ID user) (User.Username user) (User.Role user)
              (Some (NewNumericDate (time_Add t_exp expiration)))
              None
              (Some (NewNumericDate t_iat)) in
  secret <- get_jwtSecret ;;
  ret (jwt_SignedString secret claims).

Definition ValidateToken (tokenString : string) : M (result Claims.t) :=
  secret <- get_jwtSecret ;;
  parsed <- jwt_ParseWithClaims tokenString secret ;;
  match parsed with
  | Err e => ret (Err e)
  | Ok token =>
      if Token_Valid token then ret (Ok (Token_Claims token))
      else ret (Err ErrSignatureInvalid)
  end.

(** The token string [AuthMiddleware] settles on: the cookie first, the
    [Authorization] header when that left it empty. *)
Definition request_token (r : Request) : string :=
  let tokenString :=
    match Request_Cookie r "token" with
    | Some value => value
    | None => EmptyString
    end in
  if tokenString =? EmptyString then
    let authHeader := Header_Get r "Authorization" in
    if negb (authHeader =? EmptyString) then
      match Split_space authHeader with
      | [p0; p1] => if p0 =? "Bearer" then p1 else tokenString
      | _ => tokenString
      end
    else tokenString
  else tokenString.

Definition clear_token_cookie : Cookie.t :=
  Cookie.mk "token" EmptyString "/" (-1) true SameSiteUnset.

Definition AuthMiddleware (next : Handler) : Handler :=
  fun rw r =>
    let tokenString := request_token r in
    if tokenString =? EmptyString then
      ret (Responded (http_Redirect rw "/login" StatusSeeOther))
    else
      validated <- ValidateToken tokenString ;;
      match validated with
      | Err _ =>
          ret (Responded
                 (http_Redirect (http_SetCookie rw clear_token_cookie)
                                "/login" StatusSeeOther))
      | Ok claims =>
          found <- First_User_by_ID (Claims.UserID claims) ;;
          match found with
          | Err _ => ret (Responded (http_Redirect rw "/login" StatusSeeOther))
          | Ok user => next rw (WithUser r user)
          end
      end.

Definition RequirePasswordChange (next : Handler) : Handler :=
  fun rw r =>
    match GetUserFromContext r with
    | Some user =>
        if User.MustChangePassword user then
          if URL_Path r =? "/change-password" then next rw r
          else ret (Responded (http_Redirect rw "/change-password" StatusSeeOther))
        else next rw r
    | None => next rw r
    end.

(** The loop of [RequireRole] over the allow-list. *)
Fixpoint RequireRole_loop (user : User.t) (roles : list Role)
         (next : Handler) (rw : ResponseWriter) (r : Request) : M Outcome :=
  match roles with
  | [] => ret (Responded (http_Error rw "Forbidden" StatusForbidden))
  | role :: rest =>
      if User.Role user =? role then next rw r
      else RequireRole_loop user rest next rw r
  end.

Definition RequireRole (roles : list Role) (next : Handler) : Handler :=
  fun rw r =>
    match GetUserFromContext r with
    | None => ret (Responded (http_Error rw "Unauthorized" StatusUnauthorized))
    | Some user => RequireRole_loop user roles next rw r
    end.

(** A role-gated route as [main] mounts it: the three groups nest. *)
Definition role_gated_route (roles : list Role) (h : Handler) : Handler :=
  AuthMiddleware (RequirePasswordChange (RequireRole roles h)).

(** ** package handlers *)

Definition session_cookie (cfg : Config.t) (token : string) : Cookie.t :=
  Cookie.mk "token" token "/" (Duration_Seconds_int (Config.JWTExpiration cfg))
            true SameSiteStrictMode.

Definition Register (cfg : Config.t) : Handler :=
  fun rw r =>
    match ParseForm r with
    | Err _ => ret (Responded (http_Error rw "Invalid form data" StatusBadRequest))
    | Ok form =>
      let code := FormValue form "code" in
      let username := FormValue form "username" in
      let password := FormValue form "password" in
      let confirmPassword := FormValue form "confirm_password" in
      looked <- First_Invite_by_code code ;;
      match looked with
      | Err _ => ret (Responded (http_Error rw "Invalid invite link" StatusBadRequest))
      | Ok invite =>
        valid <- IsValid invite ;;
        if negb valid then
          ret (Responded (http_Error rw "Invite link has expired or already been used"
                                     StatusBadRequest))
        else if Nat.ltb (String.length username) 3 then
          ret (Responded (http_Redirect rw
            ("/register?code=" ++ code ++ "&error=Username+must+be+at+least+3+characters")
            StatusSeeOther))
        else if negb (password =? confirmPassword) then
          ret (Responded (http_Redirect rw
            ("/register?code=" ++ code ++ "&error=Passwords+do+not+match")
            StatusSeeOther))
        else if Nat.ltb (String.length password) 5 then
          ret (Responded (http_Redirect rw
            ("/register?code=" ++ code ++ "&error=Password+must+be+at+least+5+characters")
            StatusSeeOther))
        else
          existing <- First_User_by_username username ;;
          match existing with
          | Ok _ =>
              ret (Responded (http_Redirect rw
                ("/register?code=" ++ code ++ "&error=Username+already+exists")
                StatusSeeOther))
          | Err _ =>
            match bcrypt_GenerateFromPassword password with
            | Err _ =>
                ret (Responded (http_Redirect rw
                  ("/register?code=" ++ code ++ "&error=Failed+to+create+account")
                  StatusSeeOther))
            | Ok hashedPassword =>
              let user :=
                User.mk 0%N zeroTime zeroTime None username EmptyString
                        hashedPassword (Invite.Role invite) false in
              created <- Create_User user ;;
              match created with
              | Err _ =>
                  ret (Responded (http_Redirect rw
                    ("/register?code=" ++ code ++ "&error=Failed+to+create+account")
                    StatusSeeOther))
              | Ok user =>
                _ <- Update_must_change_password user false ;;
                let invite := Invite.with_Used true invite in
                _ <- Save_Invite invite ;;
                generated <- GenerateToken user (Config.JWTExpiration cfg) ;;
                match generated with
                | Err _ => ret (Responded (http_Redirect rw "/login" StatusSeeOther))
                | Ok token =>
                    ret (Responded
                           (http_Redirect (http_SetCookie rw (session_cookie cfg token))
                                          "/dashboard" StatusSeeOther))
                end
              end
            end
          end
      end
    end.

Definition DeleteUser : Handler :=
  fun rw r =>
    match GetUserFromContext r with
    | None => ret Panic
    | Some user =>
      if negb (IsAdmin user) then
        ret (Responded (http_Error rw "Forbidden" StatusForbidden))
      else
        match ParseForm r with
        | Err _ =>
            ret (Responded (http_Redirect rw "/users?error=Invalid+form+data"
                                          StatusSeeOther))
        | Ok form =>
          let idStr := FormValue form "id" in
          match ParseUint10 idStr 32 with
          | Err _ =>
              ret (Responded (http_Redirect rw "/users?error=Invalid+user+ID"
                                            StatusSeeOther))
          | Ok id =>
            if N.eqb id (User.ID user) then
              ret (Responded (http_Redirect rw
                "/users?error=Cannot+delete+your+own+account" StatusSeeOther))
            else
              entries <- Delete_OvertimeEntries_of id ;;
              match entries with
              | Err _ =>
                  ret (Responded (http_Redirect rw
                    "/users?error=Failed+to+delete+user+entries" StatusSeeOther))
              | Ok _ =>
                deleted <- Delete_User id ;;
                match deleted with
                | Err _ =>
                    ret (Responded (http_Redirect rw
                      "/users?error=Failed+to+delete+user" StatusSeeOther))
                | Ok _ =>
                    ret (Responded (http_Redirect rw
                      "/users?success=User+deleted+successfully" StatusSeeOther))
                end
              end
          end
        end
    end.

End Core.

(** ** A reference instance of the libraries

    A small self-contained token format and hash with which the model can be
    run: numbers are written in unary, strings are length-prefixed, and the
    "signature" is the key itself.  It has none of HS256's security; it only
    has the interface and the sign-then-parse behaviour of the library. *)
Module Toy.

Fixpoint ones (n : nat) : string :=
  match n with
  | O => EmptyString
  | S k => String "1"%char (ones k)
  end.

Definition enc_nat (n : nat) : string := ones n ++ ".".

Fixpoint dec_nat (s : string) : option (nat * string) :=
  match s with
  | EmptyString => None
  | String c r =>
      if Ascii.eqb c "."%char then Some (O, r)
      else if Ascii.eqb c "1"%char then
        match dec_nat r with
        | Some (n, t) => Some (S n, t)
        | None => None
        end
      else None
  end.

Definition enc_Z (z : Z) : string :=
  (if Z.ltb z 0 then "-" else "+") ++ enc_nat (Z.abs_nat z).

Definition dec_Z (s : string) : option (Z * string) :=
  match s with
  | EmptyString => None
  | String c r =>
      match dec_nat r with
      | None => None
      | Some (n, t) =>
          if Ascii.eqb c "-"%char then Some (- Z.of_nat n, t)
          else if Ascii.eqb c "+"%char then Some (Z.of_nat n, t)
          else None
      end
  end.

Definition enc_date (o : option NumericDate) : string :=
  match o with
  | None => "N"
  | Some z => "S" ++ enc_Z z
  end.

Definition dec_date (s : string) : option (option NumericDate * string) :=
  match s with
  | EmptyString => None
  | String c r =>
      if Ascii.eqb c "N"%char then Some (None, r)
      else if Ascii.eqb c "S"%char then
        match dec_Z r with
        | Some (z, t) => Some (Some z, t)
        | None => None
        end
      else None
  end.

Fixpoint take (n : nat) (s : string) : option (string * string) :=
  match n with
  | O => Some (EmptyString, s)
  | S k =>
      match s with
      | EmptyString => None
      | String c r =>
          match take k r with
          | Some (h, t) => Some (String c h, t)
          | None => None
          end
      end
  end.

Definition enc_str (s : string) : string := enc_nat (String.length s) ++ s.

Definition dec_str (s : string) : option (string * string) :=
  match dec_nat s with
  | Some (n, r) => take n r
  | None => None
  end.

Definition SignedString (key : string) (c : Claims.t) : result string :=
  Ok (enc_str key
      ++ enc_nat (N.to_nat (Claims.UserID c))
      ++ enc_str (Claims.Username c)
      ++ enc_str (Claims.Role c)
      ++ enc_date (Claims.ExpiresAt c)
      ++ enc_date (Claims.NotBefore c)
      ++ enc_date (Claims.IssuedAt c)).

Definition decode (s : string) : option (string * Claims.t) :=
  match dec_str s with
  | None => None
  | Some (key, s1) =>
  match dec_nat s1 with
  | None => None
  | Some (uid, s2) =>
  match dec_str s2 with
  | None => None
  | Some (username, s3) =>
  match dec_str s3 with
  | None => None
  | Some (role, s4) =>
  match dec_date s4 with
  | None => None
  | Some (exp, s5) =>
  match dec_date s5 with
  | None => None
  | Some (nbf, s6) =>
  match dec_date s6 with
  | Some (iat, EmptyString) =>
      Some (key, Claims.mk (N.of_nat uid) username role exp nbf iat)
  | _ => None
  end end end end end end end.

Definition parse_verified (key s : string) : result Claims.t :=
  match decode s with
  | Some (k, c) => if k =? key then Ok c else Err ErrTokenRejected
  | None => Err ErrTokenRejected
  end.

(** Like bcrypt, the hash refuses passwords longer than 72 bytes. *)
Definition GenerateFromPassword (password : string) : result string :=
  if Nat.ltb 72 (String.length password) then Err ErrHash
  else Ok ("$toy$" ++ password).

End Toy.

(** ** Sample data on which the model is run *)

Definition admin0 : User.t :=
  User.mk 1 0 0 None "admin" "Administrator" "$toy$admin" RoleAdmin true.

(** An Employee who still has to change the password. *)
Definition bob : User.t :=
  User.mk 2 0 0 None "bob" EmptyString "$toy$hunter2" RoleEmployee true.

(** An Employee whose password is in order. *)
Definition carol : User.t :=
  User.mk 3 0 0 None "carol" EmptyString "$toy$s3cret" RoleEmployee false.

Definition no_faults : DBCall -> bool := fun _ => false.

Definition sample_db : DB := mkDB [admin0; bob; carol] [] [].

(** A world whose clock stands at the epoch. *)
Definition sample_world : World :=
  mkWorld sample_db "k" (fun _ => 0) 0%nat no_faults.

Definition token_for (u : User.t) (exp iat : NumericDate) : string :=
  match Toy.SignedString "k"
          (Claims.mk (User.ID u) (User.Username u) (User.Role u)
                     (Some exp) None (Some iat)) with
  | Ok s => s
  | Err _ => EmptyString
  end.

Definition request_with_cookie (path token : string) : Request :=
  mkRequest path [("token", token)] [] (Ok []) None.

(** A request that carries an empty [token] cookie and a Bearer header. *)
Definition request_empty_cookie : Request :=
  mkRequest "/dashboard" [("token", EmptyString)] [("Authorization", "Bearer abc")]
            (Ok []) None.

(** A request that carries a [token] cookie and a Bearer header. *)
Definition request_both : Request :=
  mkRequest "/dashboard" [("token", "xyz")] [("Authorization", "Bearer abc")]
            (Ok []) None.

Definition request_bearer_only : Request :=
  mkRequest "/dashboard" [] [("Authorization", "Bearer abc")] (Ok []) None.

Definition request_anonymous : Request :=
  mkRequest "/invites" [] [] (Ok []) None.

(** A business handler that answers 200. *)
Definition ok_handler : Handler :=
  fun rw r => ret (Responded (mkRW (Some 200) (Location rw) (SetCookies rw) "ok")).

(** A world in which the two clock readings of one [GenerateToken] call
    fall on either side of a second boundary: the clock advances by one
    nanosecond per reading and starts one nanosecond before second 1. *)
Definition boundary_world : World :=
  mkWorld sample_db "k" (fun n => 999999999 + Z.of_nat n) 0%nat no_faults.

(** A world whose clock advances by one second per reading. *)
Definition ticking_world : World :=
  mkWorld sample_db "k" (fun n => Z.of_nat n * Second) 0%nat no_faults.

(** An open invite for an Employee, created by the admin, good for 7 days. *)
Definition invite0 : Invite.t :=
  Invite.mk 1 0 0 None "c0de" "Dave" RoleEmployee false 1 (7 * 24 * Hour) None None.

Definition invite_db : DB := mkDB [admin0] [invite0] [].

Definition registration_form : list (string * string) :=
  [("code", "c0de"); ("username", "dave"); ("password", "hunter2");
   ("confirm_password", "hunter2")].

Definition register_request : Request :=
  mkRequest "/register" [] [] (Ok registration_form) None.

Definition reference_config : Config.t := Load (fun _ => EmptyString).

(** A world with the open invite, whose clock advances by one second per
    reading, in which the driver fails the statements [failing] says. *)
Definition invite_world (failing : DBCall -> bool) : World :=
  mkWorld invite_db "k" (fun n => Z.of_nat n * Second) 0%nat failing.

Definition only_create_fails (c : DBCall) : bool :=
  match c with OpCreateUser => true | _ => false end.

Definition only_update_fails (c : DBCall) : bool :=
  match c with OpUpdateMustChangePassword => true | _ => false end.

(** The user record [Register] hands to [Create] for the sample form. *)
Definition dave_literal : User.t :=
  User.mk 0 zeroTime zeroTime None "dave" EmptyString "$toy$hunter2" RoleEmployee false.

(** The row [Create] stores for it at clock reading 1. *)
Definition dave_created : User.t :=
  User.mk 2 Second Second None "dave" EmptyString "$toy$hunter2" RoleEmployee true.

(** The admin asks for the deletion of user 1, the admin's own id. *)
Definition delete_self_request : Request :=
  mkRequest "/users/delete" [] [] (Ok [("id", "1")]) (Some admin0).


(** ** Further statements, helpers and handlers of the repository *)

(** The statements the handlers below issue beyond those above.  Whether
    the driver fails one of them is a parameter of the code that issues
    it. *)
Inductive MoreDBCall : Type :=
| OpSaveUser
| OpCreateInvite
| OpFirstOvertimeEntryByID
| OpDeleteOvertimeEntry
| OpCountUsersByUsername.

Definition Driver : Type := MoreDBCall -> bool.

Definition with_password (hashed : string) (u : User.t) : User.t :=
  User.mk (User.ID u) (User.CreatedAt u) (User.UpdatedAt u) (User.DeletedAt u)
          (User.Username u) (User.FullName u) hashed (User.Role u) false.

Definition User_with_UpdatedAt (t : Time) (u : User.t) : User.t :=
  User.mk (User.ID u) (User.CreatedAt u) t (User.DeletedAt u)
          (User.Username u) (User.FullName u) (User.PasswordHash u) (User.Role u)
          (User.MustChangePassword u).

(** [Save(user)] for a value whose primary key is set: every column of the
    row with that key is overwritten (zero values included); when no row
    has the key the value is inserted.  The unique index on [username]
    refuses a name another row holds. *)
Definition Save_User (drv : Driver) (u : User.t) : M (result unit) :=
  t <- time_Now ;;
  fun w =>
    if drv OpSaveUser then (Err ErrDatabase, w)
    else if existsb (fun x => negb (N.eqb (User.ID x) (User.ID u))
                              && (User.Username x =? User.Username u))
                    (users (db w))
    then (Err ErrDuplicatedKey, w)
    else
      let u' := User_with_UpdatedAt t u in
      let rows := users (db w) in
      let rows' :=
        if existsb (fun x => N.eqb (User.ID x) (User.ID u)) rows
        then map (fun x => if N.eqb (User.ID x) (User.ID u) then u' else x) rows
        else (rows ++ [u'])%list in
      (Ok tt, with_db (mkDB rows' (invites (db w)) (overtime_entries (db w))) w).

Definition next_invite_id (l : list Invite.t) : N :=
  N.succ (fold_right (fun i m => N.max (Invite.ID i) m) 0%N l).

(** [Create(&invite)] for a value whose primary key is zero.  [Used] is
    declared [gorm:"default:false"], which is also its zero value.  The
    unique index on [code] also covers soft-deleted rows. *)
Definition Create_Invite (drv : Driver) (i : Invite.t) : M (result Invite.t) :=
  t <- time_Now ;;
  fun w =>
    if drv OpCreateInvite then (Err ErrDatabase, w)
    else if existsb (fun x => Invite.Code x =? Invite.Code i) (invites (db w))
    then (Err ErrDuplicatedKey, w)
    else
      let row :=
        Invite.mk (next_invite_id (invites (db w)))
                  (if Z.eqb (Invite.CreatedAt i) zeroTime then t else Invite.CreatedAt i)
                  (if Z.eqb (Invite.UpdatedAt i) zeroTime then t else Invite.UpdatedAt i)
                  (Invite.DeletedAt i) (Invite.Code i) (Invite.FullName i)
                  (Invite.Role i) (gorm_default false (Invite.Used i))
                  (Invite.CreatedBy i) (Invite.ExpiresAt i) (Invite.TeamID i)
                  (Invite.ProjectID i) in
      (Ok row,
       with_db (mkDB (users (db w)) (invites (db w) ++ [row])%list
                     (overtime_entries (db w))) w).

(** [First(&entry, id)] *)
Definition First_OvertimeEntry_by_ID (drv : Driver) (id : N)
  : M (result OvertimeEntry.t) :=
  fun w =>
    if drv OpFirstOvertimeEntryByID then (Err ErrDatabase, w)
    else match find (fun e => live (OvertimeEntry.DeletedAt e)
                              && N.eqb (OvertimeEntry.ID e) id)
                    (overtime_entries (db w)) with
         | Some e => (Ok e, w)
         | None => (Err ErrRecordNotFound, w)
         end.

(** [Delete(&entry)]: a soft delete of the live row with the entry's
    primary key.  GORM refuses the statement when that key is zero (it
    would have no condition); the handlers only look at whether an error
    came back. *)
Definition Delete_OvertimeEntry (drv : Driver) (entry : OvertimeEntry.t)
  : M (result unit) :=
  t <- time_Now ;;
  fun w =>
    if drv OpDeleteOvertimeEntry then (Err ErrDatabase, w)
    else if N.eqb (OvertimeEntry.ID entry) 0 then (Err ErrDatabase, w)
    else
      let del (e : OvertimeEntry.t) :=
        if N.eqb (OvertimeEntry.ID e) (OvertimeEntry.ID entry)
           && live (OvertimeEntry.DeletedAt e)
        then OvertimeEntry.with_DeletedAt (Some t) e else e in
      (Ok tt,
       with_db (mkDB (users (db w)) (invites (db w))
                     (map del (overtime_entries (db w)))) w).

(** [Model(&models.User{}).Where("username = ?", name).Count(&count)]: the
    number of live rows of that name. *)
Definition Count_Users_by_username (drv : Driver) (name : string) : M (result N) :=
  fun w =>
    if drv OpCountUsersByUsername then (Err ErrDatabase, w)
    else (Ok (N.of_nat (List.length
                (filter (fun u => live (User.DeletedAt u) && (User.Username u =? name))
                        (users (db w))))), w).

(** *** package encoding/hex *)

Definition hextable : string := "0123456789abcdef".

Definition hex_digit (n : N) : ascii :=
  match String.get (N.to_nat n) hextable with
  | Some c => c
  | None => "0"%char
  end.

(** [hex.EncodeToString]: two digits per byte, [hextable[v>>4]] then
    [hextable[v&0x0f]]. *)
Fixpoint hex_EncodeToString (src : list Byte.byte) : string :=
  match src with
  | [] => EmptyString
  | v :: rest =>
      String (hex_digit (N.shiftr (Byte.to_N v) 4))
             (String (hex_digit (N.land (Byte.to_N v) 15))
                     (hex_EncodeToString rest))
  end.

(** [fromHexChar] *)
Definition fromHexChar (c : ascii) : option N :=
  let n := N_of_ascii c in
  if (N.leb 48 n && N.leb n 57)%bool then Some (n - 48)%N
  else if (N.leb 97 n && N.leb n 102)%bool then Some (n - 97 + 10)%N
  else if (N.leb 65 n && N.leb n 70)%bool then Some (n - 65 + 10)%N
  else None.

(** [hex.DecodeString] *)
Fixpoint hex_DecodeString (s : string) : option (list Byte.byte) :=
  match s with
  | EmptyString => Some []
  | String _ EmptyString => None
  | String a (String b rest) =>
      match fromHexChar a, fromHexChar b, hex_DecodeString rest with
      | Some hi, Some lo, Some bytes =>
          match Byte.of_N (N.lor (N.shiftl hi 4) lo) with
          | Some v => Some (v :: bytes)
          | None => None
          end
      | _, _, _ => None
      end
  end.

Definition is_lower_hex (c : ascii) : bool :=
  let n := N_of_ascii c in
  (N.leb 48 n && N.leb n 57) || (N.leb 97 n && N.leb n 102).

Fixpoint string_forallb (p : ascii -> bool) (s : string) : bool :=
  match s with
  | EmptyString => true
  | String c rest => p c && string_forallb p rest
  end.

(** *** package models: invite codes; package handlers; package database *)

Section MoreHandlers.

(** [bcrypt.CompareHashAndPassword], [crypto/rand.Read] on a buffer of the
    given length, and the libraries already named. *)
Variable jwt_SignedString : string -> Claims.t -> result string.
Variable bcrypt_GenerateFromPassword : string -> result string.
Variable bcrypt_CompareHashAndPassword : string -> string -> result unit.
Variable rand_Read : nat -> result (list Byte.byte).
Variable drv : Driver.

Definition GenerateInviteCode : result string :=
  match rand_Read 32 with
  | Err e => Err e
  | Ok bytes => Ok (hex_EncodeToString bytes)
  end.

Definition Login (cfg : Config.t) : Handler :=
  fun rw r =>
    match ParseForm r with
    | Err _ =>
        ret (Responded (http_Redirect rw "/login?error=Invalid+form+data" StatusSeeOther))
    | Ok form =>
      let username := FormValue form "username" in
      let password := FormValue form "password" in
      looked <- First_User_by_username username ;;
      match looked with
      | Err _ =>
          ret (Responded (http_Redirect rw "/login?error=Invalid+credentials"
                                        StatusSeeOther))
      | Ok user =>
        match bcrypt_CompareHashAndPassword (User.PasswordHash user) password with
        | Err _ =>
            ret (Responded (http_Redirect rw "/login?error=Invalid+credentials"
                                          StatusSeeOther))
        | Ok _ =>
          generated <- GenerateToken jwt_SignedString user (Config.JWTExpiration cfg) ;;
          match generated with
          | Err _ =>
              ret (Responded (http_Redirect rw "/login?error=Failed+to+generate+token"
                                            StatusSeeOther))
          | Ok token =>
            let rw := http_SetCookie rw (session_cookie cfg token) in
            if User.MustChangePassword user then
              ret (Responded (http_Redirect rw "/change-password" StatusSeeOther))
            else
              ret (Responded (http_Redirect rw "/dashboard" StatusSeeOther))
          end
        end
      end
    end.

Definition Logout : Handler :=
  fun rw r =>
    ret (Responded
           (http_Redirect
              (http_SetCookie rw (Cookie.mk "token" EmptyString "/" (-1) true SameSiteUnset))
              "/login" StatusSeeOther)).

Definition ChangePassword (cfg : Config.t) : Handler :=
  fun rw r =>
    match GetUserFromContext r with
    | None => ret (Responded (http_Redirect rw "/login" StatusSeeOther))
    | Some user =>
      match ParseForm r with
      | Err _ =>
          ret (Responded (http_Redirect rw "/change-password?error=Invalid+form+data"
                                        StatusSeeOther))
      | Ok form =>
        let currentPassword := FormValue form "current_password" in
        let newPassword := FormValue form "new_password" in
        let confirmPassword := FormValue form "confirm_password" in
        match bcrypt_CompareHashAndPassword (User.PasswordHash user) currentPassword with
        | Err _ =>
            ret (Responded (http_Redirect rw
              "/change-password?error=Current+password+is+incorrect" StatusSeeOther))
        | Ok _ =>
          if negb (newPassword =? confirmPassword) then
            ret (Responded (http_Redirect rw
              "/change-password?error=Passwords+do+not+match" StatusSeeOther))
          else if Nat.ltb (String.length newPassword) 5 then
            ret (Responded (http_Redirect rw
              "/change-password?error=Password+must+be+at+least+5+characters"
              StatusSeeOther))
          else
            match bcrypt_GenerateFromPassword newPassword with
            | Err _ =>
                ret (Responded (http_Redirect rw
                  "/change-password?error=Failed+to+hash+password" StatusSeeOther))
            | Ok hashedPassword =>
              let user := with_password hashedPassword user in
              saved <- Save_User drv user ;;
              match saved with
              | Err _ =>
                  ret (Responded (http_Redirect rw
                    "/change-password?error=Failed+to+update+password" StatusSeeOther))
              | Ok _ =>
                generated <- GenerateToken jwt_SignedString user
                                           (Config.JWTExpiration cfg) ;;
                match generated with
                | Err _ => ret (Responded (http_Redirect rw "/login" StatusSeeOther))
                | Ok token =>
                    ret (Responded
                           (http_Redirect (http_SetCookie rw (session_cookie cfg token))
                                          "/dashboard" StatusSeeOther))
                end
              end
            end
        end
      end
    end.

(** The [switch] of [CreateInvite] on the submitted role. *)
Definition invite_role_of (roleStr : string) : option Role :=
  if roleStr =? "EMPLOYEE" then Some RoleEmployee
  else if roleStr =? "HR" then Some RoleHR
  else if roleStr =? "ADMIN" then Some RoleAdmin
  else None.

(** The optional team or project id of [CreateInvite]: set only for a
    number of at most 32 bits that is greater than zero. *)
Definition optional_id (s : string) : option N :=
  if negb (s =? EmptyString) then
    match ParseUint10 s 32 with
    | Ok n => if N.ltb 0 n then Some n else None
    | Err _ => None
    end
  else None.

Definition CreateInvite (cfg : Config.t) : Handler :=
  fun rw r =>
    match GetUserFromContext r with
    | None => ret Panic
    | Some user =>
      if negb (CanCreateInvites user) then
        ret (Responded (http_Error rw "Forbidden" StatusForbidden))
      else
        match ParseForm r with
        | Err _ =>
            ret (Responded (http_Redirect rw "/invites?error=Invalid+form+data"
                                          StatusSeeOther))
        | Ok form =>
          let fullName := FormValue form "full_name" in
          if fullName =? EmptyString then
            ret (Responded (http_Redirect rw "/invites?error=Full+name+is+required"
                                          StatusSeeOther))
          else
            match invite_role_of (FormValue form "role") with
            | None =>
                ret (Responded (http_Redirect rw "/invites?error=Invalid+role"
                                              StatusSeeOther))
            | Some role =>
              match GenerateInviteCode with
              | Err _ =>
                  ret (Responded (http_Redirect rw
                    "/invites?error=Failed+to+generate+invite+code" StatusSeeOther))
              | Ok code =>
                t <- time_Now ;;
                let invite :=
                  Invite.mk 0%N zeroTime zeroTime None code fullName role false
                            (User.ID user)
                            (time_Add t (Config.InviteExpiration cfg))
                            (optional_id (FormValue form "team_id"))
                            (optional_id (FormValue form "project_id")) in
                created <- Create_Invite drv invite ;;
                match created with
                | Err _ =>
                    ret (Responded (http_Redirect rw
                      "/invites?error=Failed+to+create+invite" StatusSeeOther))
                | Ok _ =>
                    ret (Responded (http_Redirect rw
                      "/invites?success=Invite+created+successfully" StatusSeeOther))
                end
              end
            end
        end
    end.

Definition DeleteEntry : Handler :=
  fun rw r =>
    match GetUserFromContext r with
    | None => ret (Responded (http_Redirect rw "/login" StatusSeeOther))
    | Some user =>
      match ParseForm r with
      | Err _ =>
          ret (Responded (http_Redirect rw "/dashboard?error=Invalid+form+data"
                                        StatusSeeOther))
      | Ok form =>
        match ParseUint10 (FormValue form "id") 32 with
        | Err _ =>
            ret (Responded (http_Redirect rw "/dashboard?error=Invalid+entry+ID"
                                          StatusSeeOther))
        | Ok id =>
          found <- First_OvertimeEntry_by_ID drv id ;;
          match found with
          | Err _ =>
              ret (Responded (http_Redirect rw "/dashboard?error=Entry+not+found"
                                            StatusSeeOther))
          | Ok entry =>
            if negb (CanManageOvertimeFor user (OvertimeEntry.UserID entry)) then
              ret (Responded (http_Error rw "Forbidden" StatusForbidden))
            else
              deleted <- Delete_OvertimeEntry drv entry ;;
              match deleted with
              | Err _ =>
                  ret (Responded (http_Redirect rw
                    "/dashboard?error=Failed+to+delete+entry" StatusSeeOther))
              | Ok _ =>
                  ret (Responded (http_Redirect rw
                    "/dashboard?success=Overtime+entry+deleted" StatusSeeOther))
              end
          end
        end
      end
    end.

(** [seedDefaultAdmin]: the error of [Count] is not looked at, so a failed
    count reads as zero. *)
Definition seedDefaultAdmin : M (result unit) :=
  counted <- Count_Users_by_username drv "admin" ;;
  let count := match counted with Ok n => n | Err _ => 0%N end in
  if N.ltb 0 count then ret (Ok tt)
  else
    match bcrypt_GenerateFromPassword "admin" with
    | Err e => ret (Err e)
    | Ok hashedPassword =>
      let admin :=
        User.mk 0%N zeroTime zeroTime None "admin" "Administrator" hashedPassword
                RoleAdmin true in
      created <- Create_User admin ;;
      match created with
      | Err e => ret (Err e)
      | Ok _ => ret (Ok tt)
      end
    end.

End MoreHandlers.

(** [/logout] as [main] mounts it: in the group that uses
    [AuthMiddleware], outside the nested group that adds
    [RequirePasswordChange]. *)
Definition logout_route (parse : string -> string -> result Claims.t) : Handler :=
  AuthMiddleware parse Logout.

(** The reference instance of [bcrypt.CompareHashAndPassword]. *)
Definition Toy_CompareHashAndPassword (hashed password : string) : result unit :=
  if hashed =? ("$toy$" ++ password) then Ok tt else Err ErrHash.

Definition healthy : Driver := fun _ => false.

Definition login_form : list (string * string) :=
  [("username", "bob"); ("password", "hunter2")].

Definition login_request : Request :=
  mkRequest "/login" [] [] (Ok login_form) None.

(** Thirty-two bytes of (poor) entropy. *)
Definition fixed_entropy (n : nat) : result (list Byte.byte) :=
  Ok (List.repeat Byte.x2a n).

Definition login_request_wrong_password : Request :=
  mkRequest "/login" [] [] (Ok [("username", "bob"); ("password", "wrong")]) None.

Definition login_request_unknown_user : Request :=
  mkRequest "/login" [] [] (Ok [("username", "nobody"); ("password", "hunter2")]) None.

(** A configuration with five-second sessions. *)
Definition short_config : Config.t :=
  Config.mk "postgresql://db" "k" (5 * Second) "8080" (7 * 24 * Hour).

Definition change_password_form : list (string * string) :=
  [("current_password", "hunter2"); ("new_password", "correct horse");
   ("confirm_password", "correct horse")].

(** Bob, authenticated, submits the change-password form. *)
Definition change_password_request : Request :=
  mkRequest "/change-password" [] [] (Ok change_password_form) (Some bob).

Definition change_password_wrong_current : Request :=
  mkRequest "/change-password" [] []
            (Ok [("current_password", "guess"); ("new_password", "correct horse");
                 ("confirm_password", "correct horse")]) (Some bob).

Definition create_invite_form : list (string * string) :=
  [("full_name", "Erin"); ("role", "HR"); ("team_id", "7"); ("project_id", "")].

(** The admin, authenticated, submits the invite form. *)
Definition create_invite_request : Request :=
  mkRequest "/invites" [] [] (Ok create_invite_form) (Some admin0).

(** Two overtime entries: one of bob's, one of carol's. *)
Definition entry_of_bob : OvertimeEntry.t :=
  OvertimeEntry.mk 1 0 0 None 2 0 3 "late shift".

Definition entry_of_carol : OvertimeEntry.t :=
  OvertimeEntry.mk 2 0 0 None 3 0 2 "release".

Definition entries_db : DB :=
  mkDB [admin0; bob; carol] [] [entry_of_bob; entry_of_carol].

Definition entries_world : World :=
  mkWorld entries_db "k" (fun n => Z.of_nat n * Second) 0%nat no_faults.

Definition delete_entry_request (user : User.t) (id : string) : Request :=
  mkRequest "/overtime/delete" [] [] (Ok [("id", id)]) (Some user).

Definition delete_user_request (id : string) : Request :=
  mkRequest "/users/delete" [] [] (Ok [("id", id)]) (Some admin0).

Definition only_entries_delete_fails (c : DBCall) : bool :=
  match c with OpDeleteOvertimeEntries => true | _ => false end.

(** A database that has just been migrated: no rows. *)
Definition fresh_world : World :=
  mkWorld (mkDB [] [] []) "k" (fun _ => 0) 0%nat no_faults.

(** A database whose only user, the seeded admin, has been soft-deleted. *)
Definition deleted_admin_world : World :=
  mkWorld (mkDB [User.mk 1 0 0 (Some 5) "admin" "Administrator" "$toy$admin"
                         RoleAdmin true] [] [])
          "k" (fun _ => 0) 0%nat no_faults.

Definition admin_login_request : Request :=
  mkRequest "/login" [] [] (Ok [("username", "admin"); ("password", "admin")]) None.

Definition register_short_username : Request :=
  mkRequest "/register" [] []
            (Ok [("code", "c0de"); ("username", "al"); ("password", "hunter2");
                 ("confirm_password", "hunter2")]) None.

(** The world of the open invite once it has been consumed. *)
Definition used_invite_world : World :=
  mkWorld (mkDB [admin0] [Invite.with_Used true invite0] []) "k"
          (fun n => Z.of_nat n * Second) 0%nat no_faults.

(** The world of the open invite on the eighth day after its creation. *)
Definition eighth_day_world : World :=
  mkWorld invite_db "k" (fun _ => 8 * 24 * Hour) 0%nat no_faults.

Definition register_unknown_code : Request :=
  mkRequest "/register" [] []
            (Ok [("code", "nope"); ("username", "dave"); ("password", "hunter2");
                 ("confirm_password", "hunter2")]) None.


(** * Properties *)

(** ** Basic facts about the monad and the strings *)

Lemma string_eqb_true : forall a b : string, (a =? b) = true <-> a = b.
Proof. intros a b. apply String.eqb_eq. Qed.

Lemma string_eqb_false : forall a b : string, (a =? b) = false <-> a <> b.
Proof. intros a b. apply String.eqb_neq. Qed.

Lemma IsValid_run : forall (i : Invite.t) (w : World),
  IsValid i w =
  if Invite.Used i then (false, w)
  else (time_Before (now w) (Invite.ExpiresAt i), tick w).
Proof. intros i w. unfold IsValid. now destruct (Invite.Used i). Qed.

Lemma IsValid_valid : forall (i : Invite.t) (w : World),
  fst (IsValid i w) = true ->
  IsValid i w = (true, tick w) /\ Invite.Used i = false.
Proof.
  intros i w H. rewrite IsValid_run in *.
  destruct (Invite.Used i); [discriminate H |].
  cbn [fst] in H. now rewrite H.
Qed.

Lemma IsValid_invalid : forall (i : Invite.t) (w : World),
  fst (IsValid i w) = false -> IsValid i w = (false, snd (IsValid i w)).
Proof.
  intros i w H. destruct (IsValid i w) as [b w1]. cbn [fst snd] in *. now subst b.
Qed.

(** ** Permission policy *)

(** C3: [CanManageOvertimeFor] answers true exactly when the actor is an
    Admin (whatever the owner) or the actor's id is the owner's id (whatever
    the role); in every other case it answers false. *)
Theorem CanManageOvertimeFor_policy : forall (actor : User.t) (ownerId : N),
  (User.Role actor = RoleAdmin -> CanManageOvertimeFor actor ownerId = true) /\
  (User.ID actor = ownerId -> CanManageOvertimeFor actor ownerId = true) /\
  (User.Role actor <> RoleAdmin -> User.ID actor <> ownerId ->
   CanManageOvertimeFor actor ownerId = false).
Proof.
  intros actor ownerId. unfold CanManageOvertimeFor, IsAdmin.
  repeat split.
  - intros H. apply string_eqb_true in H. now rewrite H.
  - intros H. apply N.eqb_eq in H. rewrite H. now destruct (User.Role actor =? RoleAdmin).
  - intros Hr Hi. apply string_eqb_false in Hr. apply N.eqb_neq in Hi.
    now rewrite Hr, Hi.
Qed.

(** ** Access gate chain *)

Section Gates.

Variable jwt_parse_verified : string -> string -> result Claims.t.

Lemma request_token_cookie : forall (r : Request) (v : string),
  Request_Cookie r "token" = Some v -> v <> EmptyString -> request_token r = v.
Proof.
  intros r v Hc Hv. unfold request_token. rewrite Hc.
  apply string_eqb_false in Hv. now rewrite Hv.
Qed.

Lemma request_token_bearer : forall (r : Request) (t : string),
  Request_Cookie r "token" = None \/ Request_Cookie r "token" = Some EmptyString ->
  Split_space (Header_Get r "Authorization") = ["Bearer"; t] ->
  request_token r = t.
Proof.
  intros r t Hc Hs. unfold request_token.
  assert (Hne : (Header_Get r "Authorization" =? EmptyString) = false).
  { apply string_eqb_false. intros E. rewrite E in Hs. discriminate Hs. }
  destruct Hc as [Hc | Hc]; rewrite Hc; cbn [String.eqb]; rewrite Hne; cbn [negb];
    rewrite Hs; reflexivity.
Qed.

Lemma request_token_none : forall r : Request,
  Request_Cookie r "token" = None -> Header_Get r "Authorization" = EmptyString ->
  request_token r = EmptyString.
Proof.
  intros r Hc Hh. unfold request_token. rewrite Hc, Hh. reflexivity.
Qed.

(** What [AuthMiddleware] does once a token is found: it verifies exactly
    [request_token r]. *)
Lemma AuthMiddleware_token : forall (next : Handler) rw r,
  request_token r <> EmptyString ->
  AuthMiddleware jwt_parse_verified next rw r =
  (validated <- ValidateToken jwt_parse_verified (request_token r) ;;
   match validated with
   | Err _ =>
       ret (Responded (http_Redirect (http_SetCookie rw clear_token_cookie)
                                     "/login" StatusSeeOther))
   | Ok claims =>
       found <- First_User_by_ID (Claims.UserID claims) ;;
       match found with
       | Err _ => ret (Responded (http_Redirect rw "/login" StatusSeeOther))
       | Ok user => next rw (WithUser r user)
       end
   end).
Proof.
  intros next rw r H. unfold AuthMiddleware.
  apply string_eqb_false in H. now rewrite H.
Qed.

Lemma AuthMiddleware_no_token : forall (next : Handler) rw r w,
  request_token r = EmptyString ->
  AuthMiddleware jwt_parse_verified next rw r w =
  (Responded (http_Redirect rw "/login" StatusSeeOther), w).
Proof.
  intros next rw r w H. unfold AuthMiddleware. rewrite H. reflexivity.
Qed.

Lemma AuthMiddleware_authenticated :
  forall (next : Handler) rw r w claims w1 user w2,
    request_token r <> EmptyString ->
    ValidateToken jwt_parse_verified (request_token r) w = (Ok claims, w1) ->
    First_User_by_ID (Claims.UserID claims) w1 = (Ok user, w2) ->
    AuthMiddleware jwt_parse_verified next rw r w = next rw (WithUser r user) w2.
Proof.
  intros next rw r w claims w1 user w2 Ht Hv Hu.
  rewrite AuthMiddleware_token by assumption.
  unfold bind at 1. rewrite Hv. unfold bind. rewrite Hu. reflexivity.
Qed.

Lemma RequirePasswordChange_gate : forall (next : Handler) rw r user,
  GetUserFromContext r = Some user ->
  User.MustChangePassword user = true ->
  RequirePasswordChange next rw r =
  if URL_Path r =? "/change-password" then next rw r
  else ret (Responded (http_Redirect rw "/change-password" StatusSeeOther)).
Proof.
  intros next rw r user Hu Hm. unfold RequirePasswordChange.
  now rewrite Hu, Hm.
Qed.

Lemma RequirePasswordChange_pass : forall (next : Handler) rw r user,
  GetUserFromContext r = Some user ->
  User.MustChangePassword user = false \/ URL_Path r = "/change-password" ->
  RequirePasswordChange next rw r = next rw r.
Proof.
  intros next rw r user Hu [Hm | Hp]; unfold RequirePasswordChange; rewrite Hu.
  - now rewrite Hm.
  - apply string_eqb_true in Hp. rewrite Hp. now destruct (User.MustChangePassword user).
Qed.

Lemma RequireRole_loop_denied : forall user roles (next : Handler) rw r,
  ~ In (User.Role user) roles ->
  RequireRole_loop user roles next rw r =
  ret (Responded (http_Error rw "Forbidden" StatusForbidden)).
Proof.
  intros user roles next rw r. induction roles as [| role rest IH]; intros Hn.
  - reflexivity.
  - cbn [RequireRole_loop].
    assert (Hne : (User.Role user =? role) = false).
    { apply string_eqb_false. intros E. apply Hn. left. now symmetry. }
    rewrite Hne. apply IH. intros Hin. apply Hn. now right.
Qed.

Lemma RequireRole_loop_allowed : forall user roles (next : Handler) rw r,
  In (User.Role user) roles ->
  RequireRole_loop user roles next rw r = next rw r.
Proof.
  intros user roles next rw r. induction roles as [| role rest IH]; intros Hin.
  - destruct Hin.
  - cbn [RequireRole_loop]. destruct (User.Role user =? role) eqn:E.
    + reflexivity.
    + apply IH. destruct Hin as [Hin | Hin]; [| assumption].
      apply string_eqb_false in E. congruence.
Qed.

(** C8 (amended): a [token] cookie with a non-empty value is the token
    that is verified, whatever the headers say; the Bearer header supplies
    the token when there is no [token] cookie or when its value is empty. *)
Theorem cookie_takes_precedence : forall r : Request,
  (forall v, Request_Cookie r "token" = Some v -> v <> EmptyString ->
             request_token r = v) /\
  (forall t, Request_Cookie r "token" = None \/ Request_Cookie r "token" = Some EmptyString ->
             Split_space (Header_Get r "Authorization") = ["Bearer"; t] ->
             request_token r = t).
Proof.
  intros r. split.
  - apply request_token_cookie.
  - apply request_token_bearer.
Qed.

(** C5 (amended): for an authenticated request whose resolved identity has
    [must_change_password] set, on a route mounted behind
    [RequirePasswordChange] any path other than [/change-password] ends in a
    redirect to [/change-password] and [/change-password] itself is handed
    to the next handler; on a route mounted behind [AuthMiddleware] alone
    the request reaches the handler whatever the path. *)
Theorem password_change_gate :
  forall (next : Handler) rw r w claims w1 user w2,
    request_token r <> EmptyString ->
    ValidateToken jwt_parse_verified (request_token r) w = (Ok claims, w1) ->
    First_User_by_ID (Claims.UserID claims) w1 = (Ok user, w2) ->
    User.MustChangePassword user = true ->
    (URL_Path r <> "/change-password" ->
     AuthMiddleware jwt_parse_verified (RequirePasswordChange next) rw r w =
     (Responded (http_Redirect rw "/change-password" StatusSeeOther), w2)) /\
    (URL_Path r = "/change-password" ->
     AuthMiddleware jwt_parse_verified (RequirePasswordChange next) rw r w =
     next rw (WithUser r user) w2) /\
    AuthMiddleware jwt_parse_verified next rw r w = next rw (WithUser r user) w2.
Proof.
  intros next rw r w claims w1 user w2 Ht Hv Hu Hm.
  rewrite !(AuthMiddleware_authenticated _ rw r w claims w1 user w2 Ht Hv Hu).
  rewrite (RequirePasswordChange_gate next rw (WithUser r user) user eq_refl Hm).
  cbn [WithUser URL_Path]. split; [| split]; [intros Hp | intros Hp | reflexivity].
  - apply string_eqb_false in Hp. now rewrite Hp.
  - apply string_eqb_true in Hp. now rewrite Hp.
Qed.

(** C4 (amended): on a role-gated route a request without any token is
    redirected to [/login]; an authenticated request whose identity passes
    the password gate (the flag is clear, or the path is the
    change-password page) and whose role is not in the allow-list is
    answered 403 Forbidden, with no redirect. *)
Theorem role_gate_denial :
  forall (roles : list Role) (h : Handler) rw r w,
    (Request_Cookie r "token" = None -> Header_Get r "Authorization" = EmptyString ->
     role_gated_route jwt_parse_verified roles h rw r w =
     (Responded (http_Redirect rw "/login" StatusSeeOther), w)) /\
    (forall claims w1 user w2,
       request_token r <> EmptyString ->
       ValidateToken jwt_parse_verified (request_token r) w = (Ok claims, w1) ->
       First_User_by_ID (Claims.UserID claims) w1 = (Ok user, w2) ->
       User.MustChangePassword user = false \/ URL_Path r = "/change-password" ->
       ~ In (User.Role user) roles ->
       role_gated_route jwt_parse_verified roles h rw r w =
       (Responded (http_Error rw "Forbidden" StatusForbidden), w2)).
Proof.
  intros roles h rw r w. unfold role_gated_route. split.
  - intros Hc Hh. apply AuthMiddleware_no_token. now apply request_token_none.
  - intros claims w1 user w2 Ht Hv Hu Hpw Hrole.
    rewrite (AuthMiddleware_authenticated _ rw r w claims w1 user w2 Ht Hv Hu).
    rewrite (RequirePasswordChange_pass _ rw (WithUser r user) user eq_refl Hpw).
    unfold RequireRole. cbn [GetUserFromContext WithUser ctx_user].
    now rewrite RequireRole_loop_denied.
Qed.

End Gates.

(** C4, as first stated, fails: the password gate stands before the role
    gate.  Bob is authenticated, his role is not in the Admin-only
    allow-list, and the answer is the redirect to [/change-password], not a
    403. *)
Lemma pending_password_redirect_precedes_denial :
  let r := request_with_cookie "/invites" (token_for bob 5 0) in
  request_token r <> EmptyString /\
  ValidateToken Toy.parse_verified (request_token r) sample_world =
    (Ok (Claims.mk 2 "bob" RoleEmployee (Some 5) None (Some 0)), tick sample_world) /\
  First_User_by_ID 2 (tick sample_world) = (Ok bob, tick sample_world) /\
  ~ In (User.Role bob) [RoleAdmin] /\
  role_gated_route Toy.parse_verified [RoleAdmin] ok_handler emptyRW r sample_world =
    (Responded (http_Redirect emptyRW "/change-password" StatusSeeOther),
     tick sample_world) /\
  Responded (http_Redirect emptyRW "/change-password" StatusSeeOther) <>
  Responded (http_Error emptyRW "Forbidden" StatusForbidden).
Proof.
  cbv zeta. repeat split.
  - vm_compute. discriminate.
  - vm_compute. intros [H | []]. discriminate H.
  - vm_compute. discriminate.
Qed.

(** C5, as first stated, fails: not every authenticated route stands behind
    the password gate.  Bob is authenticated, his flag is set, the path is
    not [/change-password], and [/logout] answers with [Logout]'s redirect
    to [/login], not with a redirect to [/change-password]. *)
Lemma pending_password_user_reaches_logout :
  let r := request_with_cookie "/logout" (token_for bob 5 0) in
  request_token r <> EmptyString /\
  ValidateToken Toy.parse_verified (request_token r) sample_world =
    (Ok (Claims.mk 2 "bob" RoleEmployee (Some 5) None (Some 0)), tick sample_world) /\
  First_User_by_ID 2 (tick sample_world) = (Ok bob, tick sample_world) /\
  User.MustChangePassword bob = true /\
  URL_Path r <> "/change-password" /\
  logout_route Toy.parse_verified emptyRW r sample_world =
    (Responded
       (http_Redirect
          (http_SetCookie emptyRW
             (Cookie.mk "token" EmptyString "/" (-1) true SameSiteUnset))
          "/login" StatusSeeOther),
     tick sample_world) /\
  fst (logout_route Toy.parse_verified emptyRW r sample_world) <>
  Responded (http_Redirect emptyRW "/change-password" StatusSeeOther).
Proof.
  cbv zeta. repeat split.
  - vm_compute. discriminate.
  - vm_compute. discriminate.
  - vm_compute. discriminate.
Qed.

(** C8, as first stated, fails: a request that carries a [token] cookie
    with the empty value and a Bearer header is verified with the header's
    token, not with the cookie's value. *)
Lemma empty_cookie_falls_back_to_bearer :
  Request_Cookie request_empty_cookie "token" = Some EmptyString /\
  Header_Get request_empty_cookie "Authorization" = "Bearer abc" /\
  request_token request_empty_cookie = "abc" /\
  request_token request_empty_cookie <> EmptyString.
Proof.
  repeat split. vm_compute. discriminate.
Qed.

Lemma CanManageOvertimeFor_policy_witness :
  CanManageOvertimeFor admin0 3 = true /\
  CanManageOvertimeFor carol 3 = true /\
  CanManageOvertimeFor bob 3 = false.
Proof.
  split; [| split].
  - apply (proj1 (CanManageOvertimeFor_policy admin0 3)). reflexivity.
  - apply (proj1 (proj2 (CanManageOvertimeFor_policy carol 3))). reflexivity.
  - apply (proj2 (proj2 (CanManageOvertimeFor_policy bob 3))).
    + vm_compute. discriminate.
    + vm_compute. discriminate.
Defined.

Lemma cookie_takes_precedence_witness :
  request_token request_both = "xyz" /\
  request_token request_bearer_only = "abc".
Proof.
  split.
  - apply (proj1 (cookie_takes_precedence request_both) "xyz").
    + reflexivity.
    + discriminate.
  - apply (proj2 (cookie_takes_precedence request_bearer_only) "abc").
    + left. reflexivity.
    + reflexivity.
Defined.

Lemma password_change_gate_witness :
  AuthMiddleware Toy.parse_verified (RequirePasswordChange ok_handler) emptyRW
    (request_with_cookie "/dashboard" (token_for bob 5 0)) sample_world =
  (Responded (http_Redirect emptyRW "/change-password" StatusSeeOther),
   tick sample_world) /\
  AuthMiddleware Toy.parse_verified (RequirePasswordChange ok_handler) emptyRW
    (request_with_cookie "/change-password" (token_for bob 5 0)) sample_world =
  ok_handler emptyRW
    (WithUser (request_with_cookie "/change-password" (token_for bob 5 0)) bob)
    (tick sample_world) /\
  logout_route Toy.parse_verified emptyRW
    (request_with_cookie "/logout" (token_for bob 5 0)) sample_world =
  Logout emptyRW
    (WithUser (request_with_cookie "/logout" (token_for bob 5 0)) bob)
    (tick sample_world).
Proof.
  split; [| split].
  - apply (proj1 (password_change_gate Toy.parse_verified ok_handler emptyRW
                    (request_with_cookie "/dashboard" (token_for bob 5 0))
                    sample_world
                    (Claims.mk 2 "bob" RoleEmployee (Some 5) None (Some 0))
                    (tick sample_world) bob (tick sample_world)
                    ltac:(vm_compute; discriminate)
                    ltac:(vm_compute; reflexivity)
                    ltac:(vm_compute; reflexivity)
                    ltac:(reflexivity))).
    vm_compute. discriminate.
  - apply (proj1 (proj2 (password_change_gate Toy.parse_verified ok_handler emptyRW
                    (request_with_cookie "/change-password" (token_for bob 5 0))
                    sample_world
                    (Claims.mk 2 "bob" RoleEmployee (Some 5) None (Some 0))
                    (tick sample_world) bob (tick sample_world)
                    ltac:(vm_compute; discriminate)
                    ltac:(vm_compute; reflexivity)
                    ltac:(vm_compute; reflexivity)
                    ltac:(reflexivity)))).
    reflexivity.
  - exact (proj2 (proj2 (password_change_gate Toy.parse_verified Logout emptyRW
                    (request_with_cookie "/logout" (token_for bob 5 0))
                    sample_world
                    (Claims.mk 2 "bob" RoleEmployee (Some 5) None (Some 0))
                    (tick sample_world) bob (tick sample_world)
                    ltac:(vm_compute; discriminate)
                    ltac:(vm_compute; reflexivity)
                    ltac:(vm_compute; reflexivity)
                    ltac:(reflexivity)))).
Defined.

Lemma role_gate_denial_witness :
  role_gated_route Toy.parse_verified [RoleAdmin] ok_handler emptyRW
    request_anonymous sample_world =
  (Responded (http_Redirect emptyRW "/login" StatusSeeOther), sample_world) /\
  role_gated_route Toy.parse_verified [RoleAdmin] ok_handler emptyRW
    (request_with_cookie "/invites" (token_for carol 5 0)) sample_world =
  (Responded (http_Error emptyRW "Forbidden" StatusForbidden), tick sample_world).
Proof.
  split.
  - apply (proj1 (role_gate_denial Toy.parse_verified [RoleAdmin] ok_handler
                    emptyRW request_anonymous sample_world)).
    + reflexivity.
    + reflexivity.
  - apply (proj2 (role_gate_denial Toy.parse_verified [RoleAdmin] ok_handler
                    emptyRW (request_with_cookie "/invites" (token_for carol 5 0))
                    sample_world)
             (Claims.mk 3 "carol" RoleEmployee (Some 5) None (Some 0))
             (tick sample_world) carol (tick sample_world)).
    + vm_compute. discriminate.
    + vm_compute. reflexivity.
    + vm_compute. reflexivity.
    + left. reflexivity.
    + vm_compute. intros [H | []]. discriminate H.
Defined.

(** ** Token service *)

Lemma GenerateToken_run :
  forall (sign : string -> Claims.t -> result string) (user : User.t)
         (expiration : Duration) (w : World),
    GenerateToken sign user expiration w =
    (sign (jwtSecret w)
          (Claims.mk (User.ID user) (User.Username user) (User.Role user)
                     (Some (NewNumericDate (time_Add (now w) expiration)))
                     None
                     (Some (NewNumericDate (now (tick w))))),
     tick (tick w)).
Proof. reflexivity. Qed.

Lemma jwt_Validate_run : forall (c : Claims.t) (w : World),
  Claims.NotBefore c = None ->
  jwt_Validate c w =
  (match Claims.ExpiresAt c with
   | Some e => if time_Before (now w) (NumericDate_Time e)
               then Ok tt else Err ErrTokenExpired
   | None => Ok tt
   end, tick w).
Proof.
  intros c w Hn. unfold jwt_Validate, bind, time_Now, ret. rewrite Hn.
  destruct (Claims.ExpiresAt c) as [e |]; [| reflexivity].
  now destruct (time_Before (now w) (NumericDate_Time e)).
Qed.

(** C1: a token issued for a user verifies, under the same secret and at
    any reading of the clock strictly before its expiry, and the claims
    that come back carry the user's id, username and role. *)
Theorem verify_issue_roundtrip :
  forall (sign : string -> Claims.t -> result string)
         (parse : string -> string -> result Claims.t),
    (forall key c s, sign key c = Ok s -> parse key s = Ok c) ->
    forall (user : User.t) (expiration : Duration) (w w1 w2 : World) (token : string),
      GenerateToken sign user expiration w = (Ok token, w1) ->
      jwtSecret w2 = jwtSecret w ->
      (now w2 < NumericDate_Time (NewNumericDate (time_Add (now w) expiration)))%Z ->
      exists claims,
        ValidateToken parse token w2 = (Ok claims, tick w2) /\
        Claims.UserID claims = User.ID user /\
        Claims.Username claims = User.Username user /\
        Claims.Role claims = User.Role user /\
        Claims.ExpiresAt claims =
          Some (NewNumericDate (time_Add (now w) expiration)).
Proof.
  intros sign parse Hlaw user expiration w w1 w2 token Hgen Hsecret Hnow.
  rewrite GenerateToken_run in Hgen. injection Hgen as Hsig _.
  apply Hlaw in Hsig. rewrite <- Hsecret in Hsig.
  eexists. split.
  - unfold ValidateToken, bind, get_jwtSecret, jwt_ParseWithClaims.
    rewrite Hsig. unfold bind. rewrite jwt_Validate_run by reflexivity.
    cbn [Claims.ExpiresAt]. unfold time_Before.
    apply Z.ltb_lt in Hnow. rewrite Hnow. reflexivity.
  - repeat split.
Qed.

(** When both clock readings of [GenerateToken] fall within one second and
    the duration is a whole number of seconds, expiry is issue time plus
    the duration. *)
Lemma GenerateToken_expiry_same_second :
  forall (sign : string -> Claims.t -> result string) (user : User.t)
         (seconds : Z) (w : World),
    NewNumericDate (now w) = NewNumericDate (now (tick w)) ->
    exists e i,
      fst (GenerateToken sign user (seconds * Second) w) =
        sign (jwtSecret w)
             (Claims.mk (User.ID user) (User.Username user) (User.Role user)
                        (Some e) None (Some i)) /\
      e = (i + seconds)%Z.
Proof.
  intros sign user seconds w Hsame. rewrite GenerateToken_run. cbn [fst].
  do 2 eexists. split; [reflexivity |].
  rewrite <- Hsame. unfold NewNumericDate, time_Add.
  apply Z.div_add. vm_compute. discriminate.
Qed.

(** C6: the code reads the clock twice.  With the session duration of
    [config.Load] (24 hours) and the two readings on either side of a second
    boundary, the token's expires-at is 86400 and its issued-at is 1: the
    expiry is one second short of issued-at plus the duration. *)
Theorem GenerateToken_expiry_across_second_boundary :
  forall (sign : string -> Claims.t -> result string) (env : string -> string)
         (user : User.t),
    exists e i,
      fst (GenerateToken sign user (Config.JWTExpiration (Load env)) boundary_world) =
        sign (jwtSecret boundary_world)
             (Claims.mk (User.ID user) (User.Username user) (User.Role user)
                        (Some e) None (Some i)) /\
      e = 86400%Z /\ i = 1%Z /\
      NumericDate_Time e <>
      time_Add (NumericDate_Time i) (Config.JWTExpiration (Load env)).
Proof.
  intros sign env user. exists 86400%Z, 1%Z.
  split; [| split; [| split]]; try reflexivity.
  vm_compute. discriminate.
Qed.

(** ** The reference instance signs and parses back *)

Lemma append_assoc' : forall a b c : string, (a ++ b) ++ c = a ++ (b ++ c).
Proof.
  induction a as [| ch a IH]; intros b c; cbn; [reflexivity | now rewrite IH].
Qed.

Lemma append_nil_r : forall a : string, a ++ EmptyString = a.
Proof.
  induction a as [| ch a IH]; cbn; [reflexivity | now rewrite IH].
Qed.

Lemma Toy_dec_enc_nat : forall (n : nat) (rest : string),
  Toy.dec_nat (Toy.enc_nat n ++ rest) = Some (n, rest).
Proof.
  unfold Toy.enc_nat. induction n as [| n IH]; intros rest.
  - reflexivity.
  - cbn. cbn in IH. now rewrite IH.
Qed.

Lemma Toy_take_append : forall (s rest : string),
  Toy.take (String.length s) (s ++ rest) = Some (s, rest).
Proof.
  induction s as [| ch s IH]; intros rest; cbn; [reflexivity | now rewrite IH].
Qed.

Lemma Toy_dec_enc_str : forall (s rest : string),
  Toy.dec_str (Toy.enc_str s ++ rest) = Some (s, rest).
Proof.
  intros s rest. unfold Toy.dec_str, Toy.enc_str.
  rewrite append_assoc', Toy_dec_enc_nat. apply Toy_take_append.
Qed.

Lemma Toy_dec_enc_Z : forall (z : Z) (rest : string),
  Toy.dec_Z (Toy.enc_Z z ++ rest) = Some (z, rest).
Proof.
  intros z rest. unfold Toy.enc_Z, Toy.dec_Z.
  destruct (Z.ltb z 0) eqn:E; cbn [append]; rewrite Toy_dec_enc_nat; cbn.
  - apply Z.ltb_lt in E. do 2 f_equal. lia.
  - apply Z.ltb_ge in E. do 2 f_equal. lia.
Qed.

Lemma Toy_dec_enc_date : forall (o : option NumericDate) (rest : string),
  Toy.dec_date (Toy.enc_date o ++ rest) = Some (o, rest).
Proof.
  intros [z |] rest; unfold Toy.enc_date, Toy.dec_date; cbn [append].
  - cbn. now rewrite Toy_dec_enc_Z.
  - reflexivity.
Qed.

Lemma Toy_parse_signed : forall (key : string) (c : Claims.t) (s : string),
  Toy.SignedString key c = Ok s -> Toy.parse_verified key s = Ok c.
Proof.
  intros key c s H. unfold Toy.SignedString in H. injection H as <-.
  unfold Toy.parse_verified, Toy.decode.
  rewrite Toy_dec_enc_str, Toy_dec_enc_nat, !Toy_dec_enc_str, !Toy_dec_enc_date.
  rewrite <- (append_nil_r (Toy.enc_date (Claims.IssuedAt c))).
  rewrite Toy_dec_enc_date. rewrite N2Nat.id, String.eqb_refl.
  now destruct c.
Qed.

Lemma verify_issue_roundtrip_witness :
  exists claims,
    ValidateToken Toy.parse_verified (token_for bob 2 1) sample_world =
      (Ok claims, tick sample_world) /\
    Claims.UserID claims = User.ID bob /\
    Claims.Username claims = User.Username bob /\
    Claims.Role claims = User.Role bob /\
    Claims.ExpiresAt claims = Some 2%Z.
Proof.
  apply (verify_issue_roundtrip Toy.SignedString Toy.parse_verified
           Toy_parse_signed bob (2 * Second) ticking_world
           (tick (tick ticking_world)) sample_world (token_for bob 2 1)).
  - vm_compute. reflexivity.
  - reflexivity.
  - vm_compute. reflexivity.
Defined.

(** ** Invite ledger *)

Lemma First_Invite_by_code_world : forall code w,
  snd (First_Invite_by_code code w) = w.
Proof.
  intros code w. unfold First_Invite_by_code.
  destruct (fails w OpFirstInviteByCode); [reflexivity |].
  now destruct (find _ _).
Qed.

Lemma First_User_by_username_world : forall name w,
  snd (First_User_by_username name w) = w.
Proof.
  intros name w. unfold First_User_by_username.
  destruct (fails w OpFirstUserByUsername); [reflexivity |].
  now destruct (find _ _).
Qed.

Lemma Create_User_Err : forall u w e w',
  Create_User u w = (Err e, w') -> w' = tick w.
Proof.
  intros u w e w'. unfold Create_User, bind, time_Now. cbn [fails tick].
  destruct (fails w OpCreateUser); [intros H; now injection H |].
  destruct (existsb _ _); intros H; [now injection H | discriminate H].
Qed.

Lemma Create_User_Ok : forall u w row w',
  Create_User u w = (Ok row, w') ->
  fails w OpCreateUser = false /\
  row = User.mk (next_user_id (users (db w)))
                (if Z.eqb (User.CreatedAt u) zeroTime then now w else User.CreatedAt u)
                (if Z.eqb (User.UpdatedAt u) zeroTime then now w else User.UpdatedAt u)
                (User.DeletedAt u) (User.Username u) (User.FullName u)
                (User.PasswordHash u) (User.Role u)
                (gorm_default true (User.MustChangePassword u)) /\
  w' = with_db (mkDB (users (db w) ++ [row])%list (invites (db w))
                     (overtime_entries (db w))) (tick w).
Proof.
  intros u w row w'. unfold Create_User, bind, time_Now. cbn [fails tick db].
  destruct (fails w OpCreateUser); [discriminate |].
  destruct (existsb _ _); [discriminate |].
  intros H. injection H as <- <-. repeat split.
Qed.

(** Consuming the invite that a lookup by code found makes every later
    lookup by that code find a used invite. *)
Lemma find_after_replace :
  forall (P : Invite.t -> bool) (i i' : Invite.t) (rows : list Invite.t),
    find P rows = Some i ->
    P i' = true ->
    Invite.ID i' = Invite.ID i ->
    find P (map (fun x => if N.eqb (Invite.ID x) (Invite.ID i') then i' else x) rows)
    = Some i'.
Proof.
  intros P i i' rows. induction rows as [| x rest IH]; intros Hf HP Hid.
  - discriminate Hf.
  - cbn [find] in Hf. cbn [map find].
    destruct (N.eqb (Invite.ID x) (Invite.ID i')) eqn:Ex.
    + now rewrite HP.
    + destruct (P x) eqn:Px.
      * injection Hf as ->. rewrite Hid, N.eqb_refl in Ex. discriminate Ex.
      * now apply IH.
Qed.

Lemma Save_Invite_consumes : forall (code : string) (i : Invite.t) (w : World),
  fails w OpSaveInvite = false ->
  find (fun x => live (Invite.DeletedAt x) && (Invite.Code x =? code))
       (invites (db w)) = Some i ->
  exists w',
    Save_Invite (Invite.with_Used true i) w = (Ok tt, w') /\
    fails w' = fails w /\
    users (db w') = users (db w) /\
    find (fun x => live (Invite.DeletedAt x) && (Invite.Code x =? code))
         (invites (db w'))
    = Some (Invite.with_UpdatedAt (now w) (Invite.with_Used true i)).
Proof.
  intros code i w Hf Hfind.
  unfold Save_Invite, bind, time_Now. cbn [fails tick db]. rewrite Hf.
  eexists. split; [reflexivity |]. cbn [fails with_db db users invites].
  split; [reflexivity |]. split; [reflexivity |].
  destruct (find_some _ _ Hfind) as [Hin HP].
  assert (Hex : existsb (fun x => N.eqb (Invite.ID x)
                                        (Invite.ID (Invite.with_Used true i)))
                        (invites (db w)) = true).
  { apply existsb_exists. exists i. split; [assumption |]. apply N.eqb_refl. }
  rewrite Hex.
  apply (find_after_replace _ i
           (Invite.with_UpdatedAt (now w) (Invite.with_Used true i))).
  - assumption.
  - exact HP.
  - reflexivity.
Qed.

Lemma used_invite_never_valid : forall (i : Invite.t) (w : World),
  Invite.Used i = true -> fst (IsValid i w) = false.
Proof.
  intros i w H. rewrite IsValid_run. now rewrite H.
Qed.

Lemma Update_must_change_password_run : forall user v w,
  exists w',
    Update_must_change_password user v w =
      (if fails w OpUpdateMustChangePassword then Err ErrDatabase else Ok tt, w') /\
    fails w' = fails w /\
    invites (db w') = invites (db w) /\
    reads w' = S (reads w) /\ clock w' = clock w /\ jwtSecret w' = jwtSecret w.
Proof.
  intros user v w. unfold Update_must_change_password, bind, time_Now.
  cbn [fails tick]. destruct (fails w OpUpdateMustChangePassword);
    eexists; (split; [reflexivity | repeat split]).
Qed.

(** A submission that gets as far as [Create]: the form parses, the invite
    is found and valid, the three form checks pass, the username lookup
    finds nobody and the password hashes. *)
Section Registration.

Variable sign : string -> Claims.t -> result string.
Variable hash : string -> result string.
Variable cfg : Config.t.
Variable rw : ResponseWriter.
Variable r : Request.
Variable w : World.
Variable form : list (string * string).
Variable invite : Invite.t.
Variable hashed : string.

Local Abbreviation code := (FormValue form "code").
Local Abbreviation username := (FormValue form "username").
Local Abbreviation password := (FormValue form "password").
Local Abbreviation confirmPassword := (FormValue form "confirm_password").
Local Abbreviation new_user :=
  (User.mk 0%N zeroTime zeroTime None username EmptyString hashed
           (Invite.Role invite) false).

Hypothesis form_parsed : ParseForm r = Ok form.
Hypothesis invite_found : First_Invite_by_code code w = (Ok invite, w).
Hypothesis invite_valid : fst (IsValid invite w) = true.
Hypothesis username_long : (3 <= String.length username)%nat.
Hypothesis passwords_match : password = confirmPassword.
Hypothesis password_long : (5 <= String.length password)%nat.
Hypothesis username_free :
  forall u, fst (First_User_by_username username (tick w)) <> Ok u.
Hypothesis password_hashed : hash password = Ok hashed.

Lemma Register_reaches_Create :
  Register sign hash cfg rw r w =
  (created <- Create_User new_user ;;
   match created with
   | Err _ =>
       ret (Responded (http_Redirect rw
         ("/register?code=" ++ code ++ "&error=Failed+to+create+account")
         StatusSeeOther))
   | Ok user =>
       _ <- Update_must_change_password user false ;;
       _ <- Save_Invite (Invite.with_Used true invite) ;;
       generated <- GenerateToken sign user (Config.JWTExpiration cfg) ;;
       match generated with
       | Err _ => ret (Responded (http_Redirect rw "/login" StatusSeeOther))
       | Ok token =>
           ret (Responded
                  (http_Redirect (http_SetCookie rw (session_cookie cfg token))
                                 "/dashboard" StatusSeeOther))
       end
   end) (tick w).
Proof.
  unfold Register. rewrite form_parsed.
  unfold bind at 1. rewrite invite_found.
  unfold bind at 1.
  destruct (IsValid_valid invite w invite_valid) as [Hrun _]. rewrite Hrun.
  cbn [negb].
  apply Nat.ltb_ge in username_long. rewrite username_long.
  apply string_eqb_true in passwords_match. rewrite passwords_match. cbn [negb].
  apply Nat.ltb_ge in password_long. rewrite password_long.
  unfold bind at 1.
  pose proof (First_User_by_username_world username (tick w)) as Hw.
  destruct (First_User_by_username username (tick w)) as [[u | e] w1] eqn:E.
  - exfalso. apply (username_free u). reflexivity.
  - cbn [snd] in Hw. subst w1. rewrite password_hashed. reflexivity.
Qed.

Lemma invite_row_found :
  find (fun x => live (Invite.DeletedAt x) && (Invite.Code x =? code))
       (invites (db w)) = Some invite.
Proof.
  unfold First_Invite_by_code in invite_found.
  destruct (fails w OpFirstInviteByCode); [discriminate |].
  destruct (find _ _) as [i |]; [| discriminate].
  now injection invite_found as ->.
Qed.

Lemma invite_unused : Invite.Used invite = false.
Proof.
  exact (proj2 (IsValid_valid invite w invite_valid)).
Qed.

(** C7: when the invite passes validation and [Create] of the new account
    returns an error, the handler answers the failure redirect and the
    database is as it was: the same lookup finds the same invite, still
    unused. *)
Theorem Register_create_failure_keeps_invite :
  forall (e : error) (w' : World),
    Create_User new_user (tick w) = (Err e, w') ->
    Register sign hash cfg rw r w =
      (Responded (http_Redirect rw
         ("/register?code=" ++ code ++ "&error=Failed+to+create+account")
         StatusSeeOther), w') /\
    db w' = db w /\
    First_Invite_by_code code w' = (Ok invite, w') /\
    Invite.Used invite = false.
Proof.
  intros e w' Hc. rewrite Register_reaches_Create.
  unfold bind at 1. rewrite Hc. split; [reflexivity |].
  apply Create_User_Err in Hc. subst w'. split; [reflexivity |].
  split; [| exact invite_unused].
  pose proof invite_row_found as Hrow.
  unfold First_Invite_by_code in *. cbn [fails tick db].
  destruct (fails w OpFirstInviteByCode); [discriminate |].
  now rewrite Hrow.
Qed.

(** Once the account is created and the [Save] of the consumed invite goes
    through, the invite is stored with [Used] set (and the fourth clock
    reading of the request as [updated_at]), and every later lookup of the
    code finds that row. *)
Lemma Register_consumes_invite :
  forall (user : User.t) (w1 : World),
    Create_User new_user (tick w) = (Ok user, w1) ->
    fails w OpSaveInvite = false ->
    exists out w',
      Register sign hash cfg rw r w = (out, w') /\
      In (Invite.with_UpdatedAt (now (tick (tick (tick w))))
                                (Invite.with_Used true invite))
         (invites (db w')) /\
      (forall later : World,
         db later = db w' ->
         fails later OpFirstInviteByCode = false ->
         First_Invite_by_code code later =
         (Ok (Invite.with_UpdatedAt (now (tick (tick (tick w))))
                                    (Invite.with_Used true invite)), later)) /\
      forall (later : World) (i : Invite.t),
        db later = db w' ->
        fst (First_Invite_by_code code later) = Ok i ->
        Invite.Used i = true /\ fst (IsValid i later) = false.
Proof.
  intros user w1 Hc Hsave. rewrite Register_reaches_Create.
  unfold bind at 1. rewrite Hc.
  apply Create_User_Ok in Hc. destruct Hc as [_ [_ Hw1]].
  destruct (Update_must_change_password_run user false w1)
    as [w2 [Hu [Hf2 [Hi2 [Hr2 [Hc2 _]]]]]].
  assert (Hnow : now w2 = now (tick (tick (tick w)))).
  { unfold now. rewrite Hr2, Hc2, Hw1. reflexivity. }
  unfold bind at 1. rewrite Hu.
  assert (Hrow : find (fun x => live (Invite.DeletedAt x) && (Invite.Code x =? code))
                      (invites (db w2)) = Some invite).
  { rewrite Hi2, Hw1. exact invite_row_found. }
  assert (Hf : fails w2 OpSaveInvite = false).
  { rewrite Hf2, Hw1. exact Hsave. }
  destruct (Save_Invite_consumes code invite w2 Hf Hrow) as [w3 [Hs [_ [_ Hfind]]]].
  unfold bind at 1. rewrite Hs.
  unfold bind at 1. rewrite GenerateToken_run.
  exists (match sign (jwtSecret w3)
                 (Claims.mk (User.ID user) (User.Username user) (User.Role user)
                    (Some (NewNumericDate
                             (time_Add (now w3) (Config.JWTExpiration cfg))))
                    None (Some (NewNumericDate (now (tick w3))))) with
          | Ok token =>
              Responded (http_Redirect (http_SetCookie rw (session_cookie cfg token))
                                       "/dashboard" StatusSeeOther)
          | Err _ => Responded (http_Redirect rw "/login" StatusSeeOther)
          end), (tick (tick w3)).
  rewrite Hnow in Hfind.
  split; [now destruct (sign _ _) |]. cbn [tick db]. split; [| split].
  - exact (proj1 (find_some _ _ Hfind)).
  - intros later Hdb Hfl. unfold First_Invite_by_code.
    now rewrite Hfl, Hdb, Hfind.
  - intros later i Hdb Hlook.
    unfold First_Invite_by_code in Hlook. rewrite Hdb, Hfind in Hlook.
    destruct (fails later OpFirstInviteByCode); [discriminate Hlook |].
    cbn [fst] in Hlook. injection Hlook as <-.
    split; [reflexivity |]. now apply used_invite_never_valid.
Qed.

(** When the follow-up [Update] goes through, the account that [Register]
    created is stored with [must_change_password] cleared. *)
Lemma Register_clears_flag_when_update_succeeds :
  forall (user : User.t) (w1 : World),
    Create_User new_user (tick w) = (Ok user, w1) ->
    fails w OpUpdateMustChangePassword = false ->
    forall (later : World) (u : User.t),
      users (db later) = users (db (snd (Register sign hash cfg rw r w))) ->
      fst (First_User_by_ID (User.ID user) later) = Ok u ->
      User.MustChangePassword u = false.
Proof.
  intros user w1 Hc Hupd later u Hdb Hlook.
  rewrite Register_reaches_Create in Hdb.
  unfold bind at 1 in Hdb. rewrite Hc in Hdb.
  apply Create_User_Ok in Hc. destruct Hc as [_ [_ Hw1]].
  unfold bind at 1 in Hdb.
  unfold Update_must_change_password, bind, time_Now in Hdb.
  assert (Hf1 : fails w1 OpUpdateMustChangePassword = false) by now rewrite Hw1.
  cbn [tick fails] in Hdb. rewrite Hf1 in Hdb.
  unfold Save_Invite, GenerateToken, bind, time_Now, get_jwtSecret, ret in Hdb.
  cbn [tick fails db with_db] in Hdb.
  destruct (fails w1 OpSaveInvite);
    destruct (sign _ _); cbn [snd db users with_db tick] in Hdb;
    unfold First_User_by_ID in Hlook; rewrite Hdb in Hlook;
    (destruct (fails later OpFirstUserByID); [discriminate Hlook |]);
    (destruct (find _ _) as [x |] eqn:Ef; [| discriminate Hlook]);
    cbn [fst] in Hlook; injection Hlook as <-;
    apply find_some in Ef; destruct Ef as [Hin HP];
    apply in_map_iff in Hin; destruct Hin as [y [Hy _]]; subst x;
    apply andb_prop in HP; destruct HP as [Hlive Hid];
    (destruct (N.eqb (User.ID y) (User.ID user) && live (User.DeletedAt y)) eqn:Ey;
     [reflexivity | rewrite Hlive, Hid in Ey; discriminate Ey]).
Qed.

End Registration.

(** C2: an invite is valid exactly when it is unused and the clock reads
    strictly before its expiry; and once a registration has created the
    account and the [Save] of the consumed invite has gone through, the
    invite is stored with [Used] set, every later lookup of that code
    returns that row, and it validates to false whatever the clock reads. *)
Theorem invite_valid_until_consumed :
  (forall (i : Invite.t) (w : World),
     fst (IsValid i w) = true <->
     Invite.Used i = false /\ (now w < Invite.ExpiresAt i)%Z) /\
  (forall (sign : string -> Claims.t -> result string)
          (hash : string -> result string) (cfg : Config.t)
          (rw : ResponseWriter) (r : Request) (w : World)
          (form : list (string * string)) (invite : Invite.t) (hashed : string)
          (user : User.t) (w1 : World),
     ParseForm r = Ok form ->
     First_Invite_by_code (FormValue form "code") w = (Ok invite, w) ->
     fst (IsValid invite w) = true ->
     (3 <= String.length (FormValue form "username"))%nat ->
     FormValue form "password" = FormValue form "confirm_password" ->
     (5 <= String.length (FormValue form "password"))%nat ->
     (forall u, fst (First_User_by_username (FormValue form "username") (tick w))
                <> Ok u) ->
     hash (FormValue form "password") = Ok hashed ->
     Create_User
       (User.mk 0%N zeroTime zeroTime None (FormValue form "username") EmptyString
                hashed (Invite.Role invite) false) (tick w) = (Ok user, w1) ->
     fails w OpSaveInvite = false ->
     exists out w',
       Register sign hash cfg rw r w = (out, w') /\
       In (Invite.with_UpdatedAt (now (tick (tick (tick w))))
                                 (Invite.with_Used true invite))
          (invites (db w')) /\
       (forall later : World,
          db later = db w' ->
          fails later OpFirstInviteByCode = false ->
          First_Invite_by_code (FormValue form "code") later =
          (Ok (Invite.with_UpdatedAt (now (tick (tick (tick w))))
                                     (Invite.with_Used true invite)), later)) /\
       forall (later : World) (i : Invite.t),
         db later = db w' ->
         fst (First_Invite_by_code (FormValue form "code") later) = Ok i ->
         Invite.Used i = true /\ fst (IsValid i later) = false).
Proof.
  split.
  - intros i w. rewrite IsValid_run. unfold time_Before.
    destruct (Invite.Used i); cbn [fst].
    + split; [discriminate | intros [H _]; discriminate H].
    + rewrite Z.ltb_lt. split; [intros H; now split | intros [_ H]; exact H].
  - intros sign hash cfg rw r w form invite hashed user w1
           Hform Hfound Hvalid Hu Hp Hl Hfree Hhash Hcreate Hsave.
    exact (Register_consumes_invite sign hash cfg rw r w form invite hashed
             Hform Hfound Hvalid Hu Hp Hl Hfree Hhash user w1 Hcreate Hsave).
Qed.

Lemma invite_valid_until_consumed_witness :
  fst (IsValid invite0 (invite_world no_faults)) = true /\
  In (Invite.with_UpdatedAt (3 * Second) (Invite.with_Used true invite0))
     (invites (db (snd (Register Toy.SignedString Toy.GenerateFromPassword
                                 short_config emptyRW register_request
                                 (invite_world no_faults))))) /\
  First_Invite_by_code "c0de"
    (snd (Register Toy.SignedString Toy.GenerateFromPassword short_config emptyRW
                   register_request (invite_world no_faults))) =
  (Ok (Invite.with_UpdatedAt (3 * Second) (Invite.with_Used true invite0)),
   snd (Register Toy.SignedString Toy.GenerateFromPassword short_config emptyRW
                 register_request (invite_world no_faults))) /\
  fst (IsValid (Invite.with_UpdatedAt (3 * Second) (Invite.with_Used true invite0))
               (snd (Register Toy.SignedString Toy.GenerateFromPassword short_config
                              emptyRW register_request (invite_world no_faults))))
  = false.
Proof.
  destruct (proj2 invite_valid_until_consumed
              Toy.SignedString Toy.GenerateFromPassword short_config emptyRW
              register_request (invite_world no_faults) registration_form invite0
              "$toy$hunter2" dave_created
              (with_db (mkDB [admin0; dave_created] [invite0] [])
                       (tick (tick (invite_world no_faults))))
              eq_refl eq_refl ltac:(vm_compute; reflexivity) ltac:(vm_compute; lia)
              eq_refl ltac:(vm_compute; lia)
              ltac:(intros u; vm_compute; discriminate) eq_refl
              ltac:(vm_compute; reflexivity) eq_refl)
    as [out [w' [Hrun [Hin [Hfound Hused]]]]].
  rewrite Hrun. cbn [snd].
  assert (Hw' : w' = snd (Register Toy.SignedString Toy.GenerateFromPassword
                                   short_config emptyRW register_request
                                   (invite_world no_faults)))
    by now rewrite Hrun.
  assert (Hf : fails w' OpFirstInviteByCode = false)
    by (rewrite Hw'; vm_compute; reflexivity).
  split; [| split; [| split]].
  - apply (proj1 invite_valid_until_consumed). split; [reflexivity |].
    vm_compute. reflexivity.
  - exact Hin.
  - exact (Hfound w' eq_refl Hf).
  - apply (Hused w' _ eq_refl). now rewrite (Hfound w' eq_refl Hf).
Defined.

Lemma Register_create_failure_keeps_invite_witness :
  Register Toy.SignedString Toy.GenerateFromPassword reference_config emptyRW
           register_request (invite_world only_create_fails) =
    (Responded (http_Redirect emptyRW
       "/register?code=c0de&error=Failed+to+create+account" StatusSeeOther),
     tick (tick (invite_world only_create_fails))) /\
  db (tick (tick (invite_world only_create_fails))) = db (invite_world only_create_fails) /\
  First_Invite_by_code "c0de" (tick (tick (invite_world only_create_fails))) =
    (Ok invite0, tick (tick (invite_world only_create_fails))) /\
  Invite.Used invite0 = false.
Proof.
  apply (Register_create_failure_keeps_invite
           Toy.SignedString Toy.GenerateFromPassword reference_config emptyRW
           register_request (invite_world only_create_fails) registration_form
           invite0 "$toy$hunter2"
           ltac:(reflexivity) ltac:(reflexivity) ltac:(vm_compute; reflexivity)
           ltac:(vm_compute; lia) ltac:(reflexivity) ltac:(vm_compute; lia)
           ltac:(intros u; vm_compute; discriminate) ltac:(reflexivity)
           ErrDatabase (tick (tick (invite_world only_create_fails)))).
  vm_compute. reflexivity.
Defined.

(** C10: with the sample invite and form, when the driver fails the
    follow-up [Update] (whose error the handler does not look at), the
    registration still answers the session redirect and the new account is
    stored with [must_change_password] set. *)
Theorem Register_leaves_flag_set_when_update_fails :
  let run := Register Toy.SignedString Toy.GenerateFromPassword reference_config
                      emptyRW register_request (invite_world only_update_fails) in
  Outcome_Status (fst run) = Some StatusSeeOther /\
  Outcome_Location (fst run) = Some "/dashboard" /\
  fst (First_User_by_ID 2 (snd run)) = Ok dave_created /\
  User.Username dave_created = "dave" /\
  User.MustChangePassword dave_created = true.
Proof.
  cbv zeta. repeat split; vm_compute; reflexivity.
Qed.

(** A submission whose invite does not validate (used, or expired) is
    answered 400 and changes nothing in the database. *)
Lemma Register_rejects_invalid_invite :
  forall (sign : string -> Claims.t -> result string)
         (hash : string -> result string) (cfg : Config.t)
         (rw : ResponseWriter) (r : Request) (w : World)
         (form : list (string * string)) (invite : Invite.t),
    ParseForm r = Ok form ->
    First_Invite_by_code (FormValue form "code") w = (Ok invite, w) ->
    fst (IsValid invite w) = false ->
    Register sign hash cfg rw r w =
    (Responded (http_Error rw "Invite link has expired or already been used"
                           StatusBadRequest), snd (IsValid invite w)).
Proof.
  intros sign hash cfg rw r w form invite Hform Hfound Hvalid.
  unfold Register. rewrite Hform. unfold bind at 1. rewrite Hfound.
  unfold bind at 1. rewrite (IsValid_invalid invite w Hvalid). reflexivity.
Qed.

(** ** User deletion *)

Lemma filter_map_untouched :
  forall (A : Type) (p : A -> bool) (f : A -> A) (l : list A),
    (forall x, p (f x) = p x) ->
    (forall x, p x = true -> f x = x) ->
    filter p (map f l) = filter p l.
Proof.
  intros A p f l Hp Hf. induction l as [| x rest IH]; [reflexivity |].
  cbn [map filter]. rewrite Hp. destruct (p x) eqn:E.
  - rewrite (Hf x E), IH. reflexivity.
  - exact IH.
Qed.

Lemma Delete_OvertimeEntries_of_keeps_others : forall (id own : N) (w : World),
  id <> own ->
  let w' := snd (Delete_OvertimeEntries_of id w) in
  users (db w') = users (db w) /\
  filter (fun e => N.eqb (OvertimeEntry.UserID e) own) (overtime_entries (db w')) =
  filter (fun e => N.eqb (OvertimeEntry.UserID e) own) (overtime_entries (db w)).
Proof.
  intros id own w Hne. unfold Delete_OvertimeEntries_of, bind, time_Now.
  cbn [tick fails]. destruct (fails w OpDeleteOvertimeEntries); cbn.
  - split; reflexivity.
  - split; [reflexivity |]. apply filter_map_untouched.
    + intros x. now destruct (N.eqb (OvertimeEntry.UserID x) id
                               && live (OvertimeEntry.DeletedAt x)).
    + intros x Hx. apply N.eqb_eq in Hx.
      assert (E : N.eqb (OvertimeEntry.UserID x) id = false).
      { apply N.eqb_neq. congruence. }
      now rewrite E.
Qed.

Lemma Delete_User_keeps_others : forall (id own : N) (w : World),
  id <> own ->
  let w' := snd (Delete_User id w) in
  overtime_entries (db w') = overtime_entries (db w) /\
  filter (fun u => N.eqb (User.ID u) own) (users (db w')) =
  filter (fun u => N.eqb (User.ID u) own) (users (db w)).
Proof.
  intros id own w Hne. unfold Delete_User, bind, time_Now.
  cbn [tick fails]. destruct (fails w OpDeleteUser); cbn.
  - split; reflexivity.
  - split; [reflexivity |]. apply filter_map_untouched.
    + intros x. now destruct (N.eqb (User.ID x) id && live (User.DeletedAt x)).
    + intros x Hx. apply N.eqb_eq in Hx.
      assert (E : N.eqb (User.ID x) id = false).
      { apply N.eqb_neq. congruence. }
      now rewrite E.
Qed.

(** C9: when the submitted id is the acting admin's own id, [DeleteUser]
    answers the "cannot delete your own account" redirect and leaves the
    world, hence every user row and every overtime entry, as it was; and
    whatever is submitted, the rows and the entries of the acting user come
    out of the operation unchanged. *)
Theorem DeleteUser_never_deletes_self :
  forall (rw : ResponseWriter) (r : Request) (w : World) (user : User.t),
    GetUserFromContext r = Some user ->
    (IsAdmin user = true ->
     forall form,
       ParseForm r = Ok form ->
       ParseUint10 (FormValue form "id") 32 = Ok (User.ID user) ->
       DeleteUser rw r w =
       (Responded (http_Redirect rw "/users?error=Cannot+delete+your+own+account"
                                 StatusSeeOther), w)) /\
    (filter (fun u => N.eqb (User.ID u) (User.ID user))
            (users (db (snd (DeleteUser rw r w)))) =
     filter (fun u => N.eqb (User.ID u) (User.ID user)) (users (db w)) /\
     filter (fun e => N.eqb (OvertimeEntry.UserID e) (User.ID user))
            (overtime_entries (db (snd (DeleteUser rw r w)))) =
     filter (fun e => N.eqb (OvertimeEntry.UserID e) (User.ID user))
            (overtime_entries (db w))).
Proof.
  intros rw r w user Hget. split.
  - intros Hadmin form Hform Hid. unfold DeleteUser.
    rewrite Hget, Hadmin, Hform, Hid, N.eqb_refl. reflexivity.
  - remember (snd (DeleteUser rw r w)) as w' eqn:Hw'.
    unfold DeleteUser in Hw'. rewrite Hget in Hw'.
    destruct (IsAdmin user); cbn [negb] in Hw'; [| subst w'; split; reflexivity].
    destruct (ParseForm r) as [form | e]; [| subst w'; split; reflexivity].
    destruct (ParseUint10 (FormValue form "id") 32) as [id | e];
      [| subst w'; split; reflexivity].
    destruct (N.eqb id (User.ID user)) eqn:E; [subst w'; split; reflexivity |].
    apply N.eqb_neq in E.
    pose proof (Delete_OvertimeEntries_of_keeps_others id (User.ID user) w E)
      as [Hu1 He1].
    unfold bind at 1 in Hw'.
    destruct (Delete_OvertimeEntries_of id w) as [[[] | e] w1]; cbn [snd] in Hu1, He1.
    + pose proof (Delete_User_keeps_others id (User.ID user) w1 E) as [He2 Hu2].
      unfold bind at 1 in Hw'.
      destruct (Delete_User id w1) as [[[] | e] w2]; cbn [snd] in He2, Hu2;
        unfold ret in Hw'; cbn [snd] in Hw'; subst w';
        rewrite Hu2, He2, Hu1, He1; split; reflexivity.
    + unfold ret in Hw'. cbn [snd] in Hw'. subst w'.
      rewrite Hu1, He1. split; reflexivity.
Qed.

Lemma DeleteUser_never_deletes_self_witness :
  DeleteUser emptyRW delete_self_request sample_world =
  (Responded (http_Redirect emptyRW "/users?error=Cannot+delete+your+own+account"
                            StatusSeeOther), sample_world).
Proof.
  apply (proj1 (DeleteUser_never_deletes_self emptyRW delete_self_request
                  sample_world admin0 eq_refl) eq_refl [("id", "1")]).
  - reflexivity.
  - reflexivity.
Defined.

(** * Further properties of the code *)

(** ** Token service and gates *)

Lemma ValidateToken_world : forall parse token w,
  snd (ValidateToken parse token w) = w \/
  snd (ValidateToken parse token w) = tick w.
Proof.
  intros parse token w.
  unfold ValidateToken, bind, get_jwtSecret, jwt_ParseWithClaims.
  destruct (parse (jwtSecret w) token) as [c | e]; [| now left].
  right. unfold bind, jwt_Validate, bind, time_Now, ret. cbn.
  destruct (negb _); [reflexivity |]. destruct (negb _); reflexivity.
Qed.

Lemma First_User_by_ID_world : forall id w, snd (First_User_by_ID id w) = w.
Proof.
  intros id w. unfold First_User_by_ID.
  destruct (fails w OpFirstUserByID); [reflexivity |].
  now destruct (find _ _).
Qed.

Lemma RequireRole_loop_keeps_db :
  forall user roles (next : Handler) rw r w,
    (forall rw r w, db (snd (next rw r w)) = db w) ->
    db (snd (RequireRole_loop user roles next rw r w)) = db w.
Proof.
  intros user roles next rw r w Hnext.
  induction roles as [| role rest IH]; cbn [RequireRole_loop].
  - reflexivity.
  - destruct (User.Role user =? role); [apply Hnext | exact IH].
Qed.

(** No gate writes to the database: when the business handler leaves the
    database alone, so does the whole role-gated route, whatever the
    request. *)
Theorem gates_never_write_database :
  forall (parse : string -> string -> result Claims.t) (roles : list Role)
         (h : Handler),
    (forall rw r w, db (snd (h rw r w)) = db w) ->
    forall rw r w,
      db (snd (role_gated_route parse roles h rw r w)) = db w.
Proof.
  intros parse roles h Hh rw r w. unfold role_gated_route, AuthMiddleware.
  destruct (request_token r =? EmptyString); [reflexivity |].
  unfold bind at 1.
  pose proof (ValidateToken_world parse (request_token r) w) as Hw.
  destruct (ValidateToken parse (request_token r) w) as [[claims | e] w1];
    cbn [snd] in Hw.
  - unfold bind at 1.
    pose proof (First_User_by_ID_world (Claims.UserID claims) w1) as Hw2.
    assert (Hdb : db w1 = db w) by (destruct Hw as [-> | ->]; reflexivity).
    destruct (First_User_by_ID (Claims.UserID claims) w1) as [[user | e] w2];
      cbn [snd] in Hw2; subst w2.
    + unfold RequirePasswordChange. cbn [GetUserFromContext WithUser ctx_user URL_Path].
      rewrite <- Hdb.
      destruct (User.MustChangePassword user);
        [destruct (URL_Path r =? "/change-password"); [| reflexivity] |];
        unfold RequireRole; cbn [GetUserFromContext ctx_user];
        now apply RequireRole_loop_keeps_db.
    + unfold ret. cbn [snd]. exact Hdb.
  - unfold ret. cbn [snd]. destruct Hw as [-> | ->]; reflexivity.
Qed.

Lemma gates_never_write_database_witness :
  db (snd (role_gated_route Toy.parse_verified [RoleAdmin] ok_handler emptyRW
             (request_with_cookie "/invites" (token_for admin0 5 0)) sample_world))
  = db sample_world.
Proof.
  apply (gates_never_write_database Toy.parse_verified [RoleAdmin] ok_handler).
  intros rw r w. reflexivity.
Defined.

(** A request that is authenticated, passes the password gate and whose
    live role is in the allow-list reaches the business handler, with the
    database record of the token's subject in its context. *)
Theorem role_gated_route_admits :
  forall (parse : string -> string -> result Claims.t) (roles : list Role)
         (h : Handler) rw r w claims w1 user w2,
    request_token r <> EmptyString ->
    ValidateToken parse (request_token r) w = (Ok claims, w1) ->
    First_User_by_ID (Claims.UserID claims) w1 = (Ok user, w2) ->
    User.MustChangePassword user = false \/ URL_Path r = "/change-password" ->
    In (User.Role user) roles ->
    role_gated_route parse roles h rw r w = h rw (WithUser r user) w2.
Proof.
  intros parse roles h rw r w claims w1 user w2 Ht Hv Hu Hpw Hrole.
  unfold role_gated_route.
  rewrite (AuthMiddleware_authenticated parse _ rw r w claims w1 user w2 Ht Hv Hu).
  rewrite (RequirePasswordChange_pass _ rw (WithUser r user) user eq_refl Hpw).
  unfold RequireRole. cbn [GetUserFromContext WithUser ctx_user].
  now rewrite RequireRole_loop_allowed.
Qed.

Lemma role_gated_route_admits_witness :
  role_gated_route Toy.parse_verified [RoleAdmin; RoleHR] ok_handler emptyRW
    (request_with_cookie "/change-password" (token_for admin0 5 0)) sample_world =
  ok_handler emptyRW
    (WithUser (request_with_cookie "/change-password" (token_for admin0 5 0)) admin0)
    (tick sample_world).
Proof.
  apply (role_gated_route_admits Toy.parse_verified [RoleAdmin; RoleHR] ok_handler
           emptyRW (request_with_cookie "/change-password" (token_for admin0 5 0))
           sample_world (Claims.mk 1 "admin" RoleAdmin (Some 5) None (Some 0))
           (tick sample_world) admin0 (tick sample_world)).
  - vm_compute. discriminate.
  - vm_compute. reflexivity.
  - vm_compute. reflexivity.
  - right. reflexivity.
  - left. reflexivity.
Defined.

(** What happens to a token that has run out: at any clock reading at or
    after the expiry written into it, [ValidateToken] answers
    [ErrTokenExpired], and [AuthMiddleware] clears the cookie and redirects
    to [/login] without consulting the database or the next handler. *)
Theorem expired_token_is_cleared :
  forall (sign : string -> Claims.t -> result string)
         (parse : string -> string -> result Claims.t),
    (forall key c s, sign key c = Ok s -> parse key s = Ok c) ->
    forall (user : User.t) (expiration : Duration) (w w1 w2 : World)
           (token : string) (next : Handler) rw r,
      GenerateToken sign user expiration w = (Ok token, w1) ->
      jwtSecret w2 = jwtSecret w ->
      (NumericDate_Time (NewNumericDate (time_Add (now w) expiration)) <= now w2)%Z ->
      request_token r = token ->
      token <> EmptyString ->
      ValidateToken parse token w2 = (Err ErrTokenExpired, tick w2) /\
      AuthMiddleware parse next rw r w2 =
      (Responded (http_Redirect (http_SetCookie rw clear_token_cookie)
                                "/login" StatusSeeOther), tick w2).
Proof.
  intros sign parse Hlaw user expiration w w1 w2 token next rw r
         Hgen Hsecret Hnow Hreq Hne.
  rewrite GenerateToken_run in Hgen. injection Hgen as Hsig _.
  apply Hlaw in Hsig. rewrite <- Hsecret in Hsig.
  assert (Hv : ValidateToken parse token w2 = (Err ErrTokenExpired, tick w2)).
  { unfold ValidateToken, bind, get_jwtSecret, jwt_ParseWithClaims.
    rewrite Hsig. unfold bind. rewrite jwt_Validate_run by reflexivity.
    cbn [Claims.ExpiresAt]. unfold time_Before.
    apply Z.ltb_ge in Hnow. rewrite Hnow. reflexivity. }
  split; [exact Hv |].
  rewrite AuthMiddleware_token by (rewrite Hreq; exact Hne).
  unfold bind at 1. rewrite Hreq, Hv. reflexivity.
Qed.

Lemma expired_token_is_cleared_witness :
  ValidateToken Toy.parse_verified (token_for bob 2 1) (tick (tick ticking_world)) =
    (Err ErrTokenExpired, tick (tick (tick ticking_world))) /\
  AuthMiddleware Toy.parse_verified ok_handler emptyRW
    (request_with_cookie "/dashboard" (token_for bob 2 1))
    (tick (tick ticking_world)) =
  (Responded (http_Redirect (http_SetCookie emptyRW clear_token_cookie)
                            "/login" StatusSeeOther),
   tick (tick (tick ticking_world))).
Proof.
  apply (expired_token_is_cleared Toy.SignedString Toy.parse_verified
           Toy_parse_signed bob (2 * Second) ticking_world
           (tick (tick ticking_world)) (tick (tick ticking_world))
           (token_for bob 2 1) ok_handler emptyRW
           (request_with_cookie "/dashboard" (token_for bob 2 1))).
  - vm_compute. reflexivity.
  - reflexivity.
  - vm_compute. discriminate.
  - vm_compute. reflexivity.
  - vm_compute. discriminate.
Defined.

Lemma Toy_decode_signed : forall (key : string) (c : Claims.t) (s : string),
  Toy.SignedString key c = Ok s -> Toy.decode s = Some (key, c).
Proof.
  intros key c s H. unfold Toy.SignedString in H. injection H as <-.
  unfold Toy.decode.
  rewrite Toy_dec_enc_str, Toy_dec_enc_nat, !Toy_dec_enc_str, !Toy_dec_enc_date.
  rewrite <- (append_nil_r (Toy.enc_date (Claims.IssuedAt c))).
  rewrite Toy_dec_enc_date. rewrite N2Nat.id. now destruct c.
Qed.

Lemma Toy_parse_other_key : forall (key key' : string) (c : Claims.t) (s : string),
  Toy.SignedString key c = Ok s -> key' <> key ->
  exists e, Toy.parse_verified key' s = Err e.
Proof.
  intros key key' c s H Hne. unfold Toy.parse_verified.
  rewrite (Toy_decode_signed key c s H).
  assert (E : (key =? key') = false) by (apply string_eqb_false; congruence).
  rewrite E. now exists ErrTokenRejected.
Qed.

(** [SetJWTSecret] decides the key of both directions: a token is signed
    under the secret last set, and once another secret is set a token
    signed earlier is turned down, before the clock is even read. *)
Theorem SetJWTSecret_governs_tokens :
  forall (sign : string -> Claims.t -> result string)
         (parse : string -> string -> result Claims.t),
    (forall key key' c s, sign key c = Ok s -> key' <> key ->
                          exists e, parse key' s = Err e) ->
    forall (user : User.t) (expiration : Duration) (w w1 : World)
           (secret secret' token : string),
      GenerateToken sign user expiration (snd (SetJWTSecret secret w)) = (Ok token, w1) ->
      secret' <> secret ->
      (exists claims, sign secret claims = Ok token /\
                      Claims.UserID claims = User.ID user) /\
      (forall w2, exists e,
         ValidateToken parse token (snd (SetJWTSecret secret' w2)) =
         (Err e, snd (SetJWTSecret secret' w2))).
Proof.
  intros sign parse Hlaw user expiration w w1 secret secret' token Hgen Hne.
  rewrite GenerateToken_run in Hgen. injection Hgen as Hsig _.
  cbn [SetJWTSecret snd jwtSecret] in Hsig. split.
  - eexists. split; [exact Hsig | reflexivity].
  - intros w2. destruct (Hlaw _ _ _ _ Hsig Hne) as [e He]. exists e.
    unfold ValidateToken, bind, get_jwtSecret, jwt_ParseWithClaims.
    cbn [SetJWTSecret snd jwtSecret]. rewrite He. reflexivity.
Qed.

Lemma SetJWTSecret_governs_tokens_witness :
  (exists claims, Toy.SignedString "k" claims = Ok (token_for bob 2 1) /\
                  Claims.UserID claims = User.ID bob) /\
  (forall w2, exists e,
     ValidateToken Toy.parse_verified (token_for bob 2 1)
                   (snd (SetJWTSecret "other" w2)) =
     (Err e, snd (SetJWTSecret "other" w2))).
Proof.
  apply (SetJWTSecret_governs_tokens Toy.SignedString Toy.parse_verified
           Toy_parse_other_key bob (2 * Second) ticking_world
           (tick (tick ticking_world)) "k" "other" (token_for bob 2 1)).
  - vm_compute. reflexivity.
  - discriminate.
Defined.

(** ** Permission policy and configuration *)

(** The permissions are layered: whoever may create invites may also
    export, view everything and manage anybody's overtime; viewing
    everything and exporting go together and belong to Admin and HR; an HR
    user or an Employee may not create invites and manages exactly their
    own overtime; an Employee may not export. *)
Theorem permission_layers : forall (u : User.t) (id : N),
  (CanCreateInvites u = true ->
   CanExport u = true /\ CanViewAllOvertime u = true /\
   CanManageOvertimeFor u id = true) /\
  CanViewAllOvertime u = CanExport u /\
  (CanExport u = true <-> User.Role u = RoleAdmin \/ User.Role u = RoleHR) /\
  (IsHR u = true \/ IsEmployee u = true ->
   CanCreateInvites u = false /\
   (CanManageOvertimeFor u id = true <-> User.ID u = id)) /\
  (IsEmployee u = true -> CanExport u = false).
Proof.
  intros u id.
  unfold CanCreateInvites, CanExport, CanViewAllOvertime, CanManageOvertimeFor,
    IsAdmin, IsHR, IsEmployee.
  split; [| split; [| split; [| split]]].
  - intros H. rewrite H. repeat split.
  - reflexivity.
  - rewrite orb_true_iff, !string_eqb_true. reflexivity.
  - intros [H | H]; apply string_eqb_true in H; rewrite H; cbn;
      (split; [reflexivity | apply N.eqb_eq]).
  - intros H. apply string_eqb_true in H. rewrite H. reflexivity.
Qed.

Lemma permission_layers_witness :
  (CanExport admin0 = true /\ CanViewAllOvertime admin0 = true /\
   CanManageOvertimeFor admin0 3 = true) /\
  (CanCreateInvites carol = false /\
   (CanManageOvertimeFor carol 3 = true <-> User.ID carol = 3%N)) /\
  CanExport carol = false.
Proof.
  split; [| split].
  - apply (proj1 (permission_layers admin0 3)). reflexivity.
  - apply (proj1 (proj2 (proj2 (proj2 (permission_layers carol 3))))).
    right. reflexivity.
  - apply (proj2 (proj2 (proj2 (proj2 (permission_layers carol 3))))).
    reflexivity.
Defined.

(** [Load] fixes the two durations whatever the environment holds (so the
    session cookie lives 86400 seconds), and a variable that is unset or set
    to the empty string falls back to the built-in value: the signing secret
    is never empty, and is the well-known default unless [JWT_SECRET] is
    set to something else. *)
Theorem Load_durations_and_fallbacks : forall env : string -> string,
  Config.JWTExpiration (Load env) = (24 * Hour)%Z /\
  Config.InviteExpiration (Load env) = (7 * 24 * Hour)%Z /\
  (forall token, Cookie.MaxAge (session_cookie (Load env) token) = 86400%Z) /\
  Config.JWTSecret (Load env) <> EmptyString /\
  (Config.JWTSecret (Load env) = "your-super-secret-key-change-in-production" <->
   env "JWT_SECRET" = EmptyString \/
   env "JWT_SECRET" = "your-super-secret-key-change-in-production") /\
  (env "JWT_SECRET" <> EmptyString -> Config.JWTSecret (Load env) = env "JWT_SECRET").
Proof.
  intros env. unfold Load, getEnv. cbn [Config.JWTExpiration Config.InviteExpiration
    Config.JWTSecret session_cookie Cookie.MaxAge].
  split; [reflexivity |]. split; [reflexivity |]. split; [reflexivity |].
  destruct (env "JWT_SECRET" =? EmptyString) eqn:E; cbn [negb].
  - apply string_eqb_true in E. split; [discriminate |]. split.
    + split; [now left | reflexivity].
    + intros H. contradiction.
  - apply string_eqb_false in E. split; [exact E |]. split.
    + split; [now right | intros [H | H]; [contradiction | exact H]].
    + reflexivity.
Qed.

Lemma Load_durations_and_fallbacks_witness :
  Config.JWTSecret (Load (fun k => if k =? "JWT_SECRET" then "s3" else EmptyString))
  = "s3".
Proof.
  apply (proj2 (proj2 (proj2 (proj2 (proj2
           (Load_durations_and_fallbacks
              (fun k => if k =? "JWT_SECRET" then "s3" else EmptyString))))))).
  vm_compute. discriminate.
Defined.

(** ** Invite codes *)

Lemma hex_byte_roundtrip : forall v : Byte.byte,
  is_lower_hex (hex_digit (N.shiftr (Byte.to_N v) 4)) = true /\
  is_lower_hex (hex_digit (N.land (Byte.to_N v) 15)) = true /\
  hex_DecodeString
    (String (hex_digit (N.shiftr (Byte.to_N v) 4))
            (String (hex_digit (N.land (Byte.to_N v) 15)) EmptyString)) = Some [v].
Proof.
  intros v. destruct v; vm_compute; repeat split.
Qed.

Lemma hex_encode_shape : forall src : list Byte.byte,
  String.length (hex_EncodeToString src) = (2 * List.length src)%nat /\
  string_forallb is_lower_hex (hex_EncodeToString src) = true /\
  hex_DecodeString (hex_EncodeToString src) = Some src.
Proof.
  induction src as [| v rest [IHl [IHh IHd]]].
  - repeat split.
  - destruct (hex_byte_roundtrip v) as [H1 [H2 H3]].
    cbn [hex_EncodeToString String.length List.length string_forallb].
    split; [lia |]. split.
    + now rewrite H1, H2, IHh.
    + cbn [hex_DecodeString] in *.
      destruct (fromHexChar (hex_digit (N.shiftr (Byte.to_N v) 4))) as [hi |];
        [| discriminate H3].
      destruct (fromHexChar (hex_digit (N.land (Byte.to_N v) 15))) as [lo |];
        [| discriminate H3].
      rewrite IHd.
      destruct (Byte.of_N (N.lor (N.shiftl hi 4) lo)) as [v' |]; [| discriminate H3].
      injection H3 as ->. reflexivity.
Qed.

(** [GenerateInviteCode] hands back the error of the random source, and
    otherwise a code of 64 lowercase hexadecimal digits (the width of the
    [code] column) that decodes back to the 32 random bytes, so that
    different bytes give different codes. *)
Theorem GenerateInviteCode_shape :
  forall (rand : nat -> result (list Byte.byte)),
    (forall e, rand 32%nat = Err e -> GenerateInviteCode rand = Err e) /\
    (forall bytes,
       rand 32%nat = Ok bytes -> List.length bytes = 32%nat ->
       exists code,
         GenerateInviteCode rand = Ok code /\
         String.length code = 64%nat /\
         string_forallb is_lower_hex code = true /\
         hex_DecodeString code = Some bytes).
Proof.
  intros rand. unfold GenerateInviteCode. split.
  - intros e H. now rewrite H.
  - intros bytes H Hlen. rewrite H. eexists. split; [reflexivity |].
    destruct (hex_encode_shape bytes) as [Hl [Hh Hd]].
    rewrite Hl, Hlen. repeat split; assumption.
Qed.

Lemma GenerateInviteCode_shape_witness :
  exists code,
    GenerateInviteCode fixed_entropy = Ok code /\
    String.length code = 64%nat /\
    string_forallb is_lower_hex code = true /\
    hex_DecodeString code = Some (List.repeat Byte.x2a 32).
Proof.
  apply (proj2 (GenerateInviteCode_shape fixed_entropy) (List.repeat Byte.x2a 32)).
  - reflexivity.
  - reflexivity.
Defined.

(** ** Login and logout *)

(** [Login] reads the database and never writes it: neither the tables nor
    the signing secret change, whatever is submitted. *)
Theorem Login_never_writes :
  forall (sign : string -> Claims.t -> result string)
         (compare : string -> string -> result unit)
         (cfg : Config.t) rw r w,
    db (snd (Login sign compare cfg rw r w)) = db w /\
    jwtSecret (snd (Login sign compare cfg rw r w)) = jwtSecret w.
Proof.
  intros sign compare cfg rw r w. unfold Login.
  destruct (ParseForm r) as [form | e]; [| split; reflexivity].
  unfold bind at 1. unfold bind at 2.
  pose proof (First_User_by_username_world (FormValue form "username") w) as Hw.
  destruct (First_User_by_username (FormValue form "username") w) as [[user | e] w1];
    cbn [snd] in Hw; subst w1; [| split; reflexivity].
  destruct (compare (User.PasswordHash user) (FormValue form "password"));
    [| split; reflexivity].
  unfold bind. rewrite GenerateToken_run.
  destruct (sign _ _); [destruct (User.MustChangePassword user) |]; split; reflexivity.
Qed.

(** A wrong username and a wrong password are answered alike: when no live
    user of the submitted name has a hash the password matches, [Login]
    redirects to the same "Invalid credentials" page, sets no cookie and
    leaves the world as it was. *)
Theorem Login_invalid_credentials_uniform :
  forall (sign : string -> Claims.t -> result string)
         (compare : string -> string -> result unit)
         (cfg : Config.t) rw r w form,
    ParseForm r = Ok form ->
    (forall u, fst (First_User_by_username (FormValue form "username") w) = Ok u ->
               exists e, compare (User.PasswordHash u) (FormValue form "password")
                         = Err e) ->
    Login sign compare cfg rw r w =
    (Responded (http_Redirect rw "/login?error=Invalid+credentials" StatusSeeOther), w).
Proof.
  intros sign compare cfg rw r w form Hform Hbad. unfold Login. rewrite Hform.
  unfold bind at 1.
  pose proof (First_User_by_username_world (FormValue form "username") w) as Hw.
  destruct (First_User_by_username (FormValue form "username") w) as [[user | e] w1];
    cbn [snd] in Hw; subst w1; [| reflexivity].
  destruct (Hbad user eq_refl) as [e He]. now rewrite He.
Qed.

Lemma Login_invalid_credentials_uniform_witness :
  Login Toy.SignedString Toy_CompareHashAndPassword reference_config emptyRW
        login_request_wrong_password sample_world =
  (Responded (http_Redirect emptyRW "/login?error=Invalid+credentials" StatusSeeOther),
   sample_world) /\
  Login Toy.SignedString Toy_CompareHashAndPassword reference_config emptyRW
        login_request_unknown_user sample_world =
  (Responded (http_Redirect emptyRW "/login?error=Invalid+credentials" StatusSeeOther),
   sample_world).
Proof.
  split.
  - apply (Login_invalid_credentials_uniform Toy.SignedString
             Toy_CompareHashAndPassword reference_config emptyRW
             login_request_wrong_password sample_world
             [("username", "bob"); ("password", "wrong")] eq_refl).
    intros u Hu. vm_compute in Hu. injection Hu as <-. exists ErrHash. reflexivity.
  - apply (Login_invalid_credentials_uniform Toy.SignedString
             Toy_CompareHashAndPassword reference_config emptyRW
             login_request_unknown_user sample_world
             [("username", "nobody"); ("password", "hunter2")] eq_refl).
    intros u Hu. vm_compute in Hu. discriminate Hu.
Defined.

Lemma ValidateToken_accepts :
  forall (parse : string -> string -> result Claims.t) token w c e,
    parse (jwtSecret w) token = Ok c ->
    Claims.NotBefore c = None ->
    Claims.ExpiresAt c = Some e ->
    (now w < NumericDate_Time e)%Z ->
    ValidateToken parse token w = (Ok c, tick w).
Proof.
  intros parse token w c e Hp Hn He Hnow.
  unfold ValidateToken, bind, get_jwtSecret, jwt_ParseWithClaims.
  rewrite Hp. unfold bind. rewrite jwt_Validate_run by assumption.
  rewrite He. unfold time_Before. apply Z.ltb_lt in Hnow. now rewrite Hnow.
Qed.

(** Logging in and coming back: when the credentials match, [Login] sets
    the session cookie and redirects to [/change-password] or [/dashboard]
    according to the flag; and a later request that presents that cookie's
    token, before it expires and under the same secret, passes
    [AuthMiddleware] with the current database record of that user in its
    context. *)
Theorem Login_then_authenticated :
  forall (sign : string -> Claims.t -> result string)
         (parse : string -> string -> result Claims.t)
         (compare : string -> string -> result unit),
    (forall key c s, sign key c = Ok s -> parse key s = Ok c) ->
    forall (cfg : Config.t) rw r w form user token w1,
      ParseForm r = Ok form ->
      First_User_by_username (FormValue form "username") w = (Ok user, w) ->
      compare (User.PasswordHash user) (FormValue form "password") = Ok tt ->
      GenerateToken sign user (Config.JWTExpiration cfg) w = (Ok token, w1) ->
      token <> EmptyString ->
      Login sign compare cfg rw r w =
      (Responded
         (http_Redirect (http_SetCookie rw (session_cookie cfg token))
                        (if User.MustChangePassword user
                         then "/change-password" else "/dashboard")
                        StatusSeeOther), w1) /\
      (forall (next : Handler) rw' r' w2 user',
         request_token r' = token ->
         jwtSecret w2 = jwtSecret w ->
         (now w2 < NumericDate_Time
                     (NewNumericDate (time_Add (now w) (Config.JWTExpiration cfg))))%Z ->
         First_User_by_ID (User.ID user) (tick w2) = (Ok user', tick w2) ->
         AuthMiddleware parse next rw' r' w2 = next rw' (WithUser r' user') (tick w2)).
Proof.
  intros sign parse compare Hlaw cfg rw r w form user token w1
         Hform Hlook Hcmp Hgen Hne.
  split.
  - unfold Login. rewrite Hform. unfold bind at 1. rewrite Hlook, Hcmp.
    unfold bind. rewrite Hgen. now destruct (User.MustChangePassword user).
  - intros next rw' r' w2 user' Hreq Hsecret Hnow Hfound.
    rewrite GenerateToken_run in Hgen. injection Hgen as Hsig _.
    apply Hlaw in Hsig. rewrite <- Hsecret in Hsig.
    pose proof (ValidateToken_accepts parse token w2 _ _ Hsig eq_refl eq_refl Hnow)
      as Hv.
    rewrite <- Hreq in Hv, Hne.
    exact (AuthMiddleware_authenticated parse next rw' r' w2 _ (tick w2) user'
             (tick w2) Hne Hv Hfound).
Qed.

Lemma Login_then_authenticated_witness :
  Login Toy.SignedString Toy_CompareHashAndPassword short_config emptyRW
        login_request sample_world =
  (Responded
     (http_Redirect
        (http_SetCookie emptyRW (session_cookie short_config (token_for bob 5 0)))
        "/change-password" StatusSeeOther), tick (tick sample_world)) /\
  AuthMiddleware Toy.parse_verified ok_handler emptyRW
    (request_with_cookie "/dashboard" (token_for bob 5 0)) sample_world =
  ok_handler emptyRW
    (WithUser (request_with_cookie "/dashboard" (token_for bob 5 0)) bob)
    (tick sample_world).
Proof.
  destruct (Login_then_authenticated Toy.SignedString Toy.parse_verified
              Toy_CompareHashAndPassword Toy_parse_signed short_config emptyRW
              login_request sample_world login_form bob (token_for bob 5 0)
              (tick (tick sample_world)))
    as [H1 H2].
  - reflexivity.
  - vm_compute. reflexivity.
  - vm_compute. reflexivity.
  - vm_compute. reflexivity.
  - vm_compute. discriminate.
  - split; [exact H1 |].
    apply (H2 ok_handler emptyRW
              (request_with_cookie "/dashboard" (token_for bob 5 0))
              sample_world bob).
    + vm_compute. reflexivity.
    + reflexivity.
    + vm_compute. reflexivity.
    + vm_compute. reflexivity.
Defined.

(** [Logout] answers with the same cookie-clearing redirect to [/login]
    that a rejected token gets, touches nothing, and a client that sends
    back the cookie it was handed (empty value, no Authorization header) is
    treated as carrying no token at all. *)
Theorem Logout_clears_session :
  forall rw r w,
    exists c,
      Logout rw r w =
        (Responded (http_Redirect (http_SetCookie rw c) "/login" StatusSeeOther), w) /\
      c = clear_token_cookie /\
      (Cookie.MaxAge c < 0)%Z /\
      forall (parse : string -> string -> result Claims.t) (next : Handler)
             path rw' w',
        AuthMiddleware parse next rw'
          (mkRequest path [(Cookie.Name c, Cookie.Value c)] [] (Ok []) None) w' =
        (Responded (http_Redirect rw' "/login" StatusSeeOther), w').
Proof.
  intros rw r w. exists clear_token_cookie. repeat split.
Qed.

(** ** Changing the password *)

Lemma Save_User_result : forall drv u w,
  (exists e, Save_User drv u w = (Err e, tick w)) \/
  (Save_User drv u w =
   (Ok tt,
    with_db (mkDB (if existsb (fun x => N.eqb (User.ID x) (User.ID u)) (users (db w))
                   then map (fun x => if N.eqb (User.ID x) (User.ID u)
                                      then User_with_UpdatedAt (now w) u else x)
                            (users (db w))
                   else (users (db w) ++ [User_with_UpdatedAt (now w) u])%list)
                  (invites (db w)) (overtime_entries (db w))) (tick w))).
Proof.
  intros drv u w. unfold Save_User, bind, time_Now. cbn [tick db].
  destruct (drv OpSaveUser); [left; eexists; reflexivity |].
  destruct (existsb _ (users (db w))); [left; eexists; reflexivity |].
  right. reflexivity.
Qed.

Lemma saved_rows_others : forall (u u' : User.t) (rows : list User.t),
  User.ID u' = User.ID u ->
  filter (fun x => negb (N.eqb (User.ID x) (User.ID u)))
         (if existsb (fun y => N.eqb (User.ID y) (User.ID u)) rows
          then map (fun y => if N.eqb (User.ID y) (User.ID u) then u' else y) rows
          else (rows ++ [u'])%list) =
  filter (fun x => negb (N.eqb (User.ID x) (User.ID u))) rows.
Proof.
  intros u u' rows Hid. destruct (existsb _ rows).
  - induction rows as [| y rest IH]; [reflexivity |]. cbn [map filter].
    destruct (N.eqb (User.ID y) (User.ID u)) eqn:Ey.
    + rewrite Hid, N.eqb_refl. cbn [negb]. exact IH.
    + rewrite Ey. cbn [negb]. now rewrite IH.
  - rewrite filter_app. cbn [filter]. rewrite Hid, N.eqb_refl. cbn [negb].
    apply app_nil_r.
Qed.

Lemma find_user_after_replace :
  forall (P : User.t -> bool) (u u' : User.t) (rows : list User.t),
    find P rows = Some u ->
    P u' = true ->
    User.ID u' = User.ID u ->
    find P (map (fun x => if N.eqb (User.ID x) (User.ID u) then u' else x) rows)
    = Some u'.
Proof.
  intros P u u' rows. induction rows as [| x rest IH]; intros Hf HP Hid.
  - discriminate Hf.
  - cbn [find] in Hf. cbn [map find].
    destruct (N.eqb (User.ID x) (User.ID u)) eqn:Ex.
    + now rewrite HP.
    + destruct (P x) eqn:Px.
      * injection Hf as ->. rewrite N.eqb_refl in Ex. discriminate Ex.
      * now apply IH.
Qed.

(** A successful password change is stored.  The acting user is the live
    row [AuthMiddleware] loaded; once [Save] has gone through, the row with
    the new hash, with [must_change_password] cleared and with the clock
    reading of the [Save] as [updated_at] is in the users table, every later
    lookup of the user's id returns it, and the password gate lets it
    through on every path. *)
Theorem ChangePassword_clears_flag :
  forall (sign : string -> Claims.t -> result string)
         (hash : string -> result string)
         (compare : string -> string -> result unit)
         (drv : Driver) (cfg : Config.t) rw r w user form hashed w1,
    GetUserFromContext r = Some user ->
    First_User_by_ID (User.ID user) w = (Ok user, w) ->
    ParseForm r = Ok form ->
    compare (User.PasswordHash user) (FormValue form "current_password") = Ok tt ->
    FormValue form "new_password" = FormValue form "confirm_password" ->
    (5 <= String.length (FormValue form "new_password"))%nat ->
    hash (FormValue form "new_password") = Ok hashed ->
    Save_User drv (with_password hashed user) w = (Ok tt, w1) ->
    exists out w',
      ChangePassword sign hash compare drv cfg rw r w = (out, w') /\
      Outcome_Status out = Some StatusSeeOther /\
      In (User_with_UpdatedAt (now w) (with_password hashed user))
         (users (db w')) /\
      (forall later : World,
         users (db later) = users (db w') ->
         fails later OpFirstUserByID = false ->
         First_User_by_ID (User.ID user) later =
         (Ok (User_with_UpdatedAt (now w) (with_password hashed user)), later)) /\
      forall (later : World) (u : User.t),
        users (db later) = users (db w') ->
        fst (First_User_by_ID (User.ID user) later) = Ok u ->
        User.PasswordHash u = hashed /\
        User.MustChangePassword u = false /\
        forall (next : Handler) rw' r',
          RequirePasswordChange next rw' (WithUser r' u) = next rw' (WithUser r' u).
Proof.
  intros sign hash compare drv cfg rw r w user form hashed w1
         Hget Hlive Hform Hcmp Hconf Hlen Hhash Hsave.
  unfold ChangePassword. rewrite Hget, Hform, Hcmp.
  apply string_eqb_true in Hconf. rewrite Hconf. cbn [negb].
  apply Nat.ltb_ge in Hlen. rewrite Hlen, Hhash.
  unfold bind at 1. rewrite Hsave. unfold bind at 1. rewrite GenerateToken_run.
  exists (match sign (jwtSecret w1)
                 (Claims.mk (User.ID (with_password hashed user))
                    (User.Username (with_password hashed user))
                    (User.Role (with_password hashed user))
                    (Some (NewNumericDate
                             (time_Add (now w1) (Config.JWTExpiration cfg))))
                    None (Some (NewNumericDate (now (tick w1))))) with
          | Ok token =>
              Responded (http_Redirect (http_SetCookie rw (session_cookie cfg token))
                                       "/dashboard" StatusSeeOther)
          | Err _ => Responded (http_Redirect rw "/login" StatusSeeOther)
          end), (tick (tick w1)).
  split; [now destruct (sign _ _) |]. split; [now destruct (sign _ _) |].
  (* the row the lookup of the acting user returned *)
  assert (Hrow : find (fun x => live (User.DeletedAt x)
                                && N.eqb (User.ID x) (User.ID user))
                      (users (db w)) = Some user).
  { unfold First_User_by_ID in Hlive.
    destruct (fails w OpFirstUserByID); [discriminate Hlive |].
    destruct (find _ _) as [x |]; [| discriminate Hlive].
    now injection Hlive as ->. }
  destruct (find_some _ _ Hrow) as [Hin HP].
  assert (Hex : existsb (fun x => N.eqb (User.ID x) (User.ID user))
                        (users (db w)) = true).
  { apply existsb_exists. exists user. split; [exact Hin | apply N.eqb_refl]. }
  (* the row [Save] leaves under that id *)
  assert (Hfind : find (fun x => live (User.DeletedAt x)
                                 && N.eqb (User.ID x) (User.ID user))
                       (users (db (tick (tick w1))))
                  = Some (User_with_UpdatedAt (now w) (with_password hashed user))).
  { destruct (Save_User_result drv (with_password hashed user) w) as [[e He] | Hok];
      [rewrite He in Hsave; discriminate Hsave |].
    rewrite Hok in Hsave. injection Hsave as <-.
    cbn [tick with_db db users]. rewrite Hex.
    apply (find_user_after_replace _ user
             (User_with_UpdatedAt (now w) (with_password hashed user))).
    - exact Hrow.
    - exact HP.
    - reflexivity. }
  split; [exact (proj1 (find_some _ _ Hfind)) |]. split.
  - intros later Hdb Hfl. unfold First_User_by_ID.
    now rewrite Hfl, Hdb, Hfind.
  - intros later u Hdb Hlook.
    unfold First_User_by_ID in Hlook. rewrite Hdb, Hfind in Hlook.
    destruct (fails later OpFirstUserByID); [discriminate Hlook |].
    cbn [fst] in Hlook. injection Hlook as <-.
    split; [reflexivity |]. split; [reflexivity |].
    intros next rw' r'. unfold RequirePasswordChange. reflexivity.
Qed.

Lemma ChangePassword_clears_flag_witness :
  Outcome_Status
    (fst (ChangePassword Toy.SignedString Toy.GenerateFromPassword
                         Toy_CompareHashAndPassword healthy short_config emptyRW
                         change_password_request sample_world))
  = Some StatusSeeOther /\
  In (User_with_UpdatedAt (now sample_world)
                          (with_password "$toy$correct horse" bob))
     (users (db (snd (ChangePassword Toy.SignedString Toy.GenerateFromPassword
                                     Toy_CompareHashAndPassword healthy short_config
                                     emptyRW change_password_request sample_world)))) /\
  First_User_by_ID (User.ID bob)
    (snd (ChangePassword Toy.SignedString Toy.GenerateFromPassword
                         Toy_CompareHashAndPassword healthy short_config emptyRW
                         change_password_request sample_world)) =
  (Ok (User_with_UpdatedAt (now sample_world)
                           (with_password "$toy$correct horse" bob)),
   snd (ChangePassword Toy.SignedString Toy.GenerateFromPassword
                       Toy_CompareHashAndPassword healthy short_config emptyRW
                       change_password_request sample_world)) /\
  User.MustChangePassword
    (User_with_UpdatedAt (now sample_world)
                         (with_password "$toy$correct horse" bob)) = false.
Proof.
  destruct (ChangePassword_clears_flag Toy.SignedString Toy.GenerateFromPassword
              Toy_CompareHashAndPassword healthy short_config emptyRW
              change_password_request sample_world bob change_password_form
              "$toy$correct horse"
              (snd (Save_User healthy (with_password "$toy$correct horse" bob)
                              sample_world))
              eq_refl ltac:(vm_compute; reflexivity) eq_refl
              ltac:(vm_compute; reflexivity) eq_refl ltac:(vm_compute; lia)
              ltac:(vm_compute; reflexivity) ltac:(vm_compute; reflexivity))
    as [out [w' [Hrun [Hstatus [Hin [Hfound Hgate]]]]]].
  rewrite Hrun. cbn [fst snd].
  assert (Hw' : w' = snd (ChangePassword Toy.SignedString Toy.GenerateFromPassword
                                         Toy_CompareHashAndPassword healthy
                                         short_config emptyRW
                                         change_password_request sample_world))
    by now rewrite Hrun.
  assert (Hf : fails w' OpFirstUserByID = false)
    by (rewrite Hw'; vm_compute; reflexivity).
  split; [exact Hstatus |]. split; [exact Hin |].
  split; [exact (Hfound w' eq_refl Hf) |].
  apply (Hgate w' _ eq_refl). now rewrite (Hfound w' eq_refl Hf).
Defined.

(** The reach of [ChangePassword]: it never touches invites or overtime
    entries, never changes a user row other than the acting user's, and
    changes nothing at all when the current password does not verify, the
    confirmation differs or the new password is shorter than five bytes. *)
Theorem ChangePassword_scope :
  forall (sign : string -> Claims.t -> result string)
         (hash : string -> result string)
         (compare : string -> string -> result unit)
         (drv : Driver) (cfg : Config.t) rw r w,
    invites (db (snd (ChangePassword sign hash compare drv cfg rw r w)))
      = invites (db w) /\
    overtime_entries (db (snd (ChangePassword sign hash compare drv cfg rw r w)))
      = overtime_entries (db w) /\
    (forall user,
       GetUserFromContext r = Some user ->
       filter (fun x => negb (N.eqb (User.ID x) (User.ID user)))
              (users (db (snd (ChangePassword sign hash compare drv cfg rw r w)))) =
       filter (fun x => negb (N.eqb (User.ID x) (User.ID user))) (users (db w))) /\
    (forall user form,
       GetUserFromContext r = Some user ->
       ParseForm r = Ok form ->
       compare (User.PasswordHash user) (FormValue form "current_password") <> Ok tt \/
       FormValue form "new_password" <> FormValue form "confirm_password" \/
       (String.length (FormValue form "new_password") < 5)%nat ->
       db (snd (ChangePassword sign hash compare drv cfg rw r w)) = db w).
Proof.
  intros sign hash compare drv cfg rw r w.
  remember (snd (ChangePassword sign hash compare drv cfg rw r w)) as w' eqn:Hw'.
  unfold ChangePassword in Hw'.
  destruct (GetUserFromContext r) as [user |] eqn:Hget;
    [| subst w'; repeat split; intros; discriminate].
  destruct (ParseForm r) as [form | e] eqn:Hform;
    [| subst w'; repeat split; intros; discriminate].
  assert (Hsame : w' = w ->
    invites (db w') = invites (db w) /\
    overtime_entries (db w') = overtime_entries (db w) /\
    (forall user0, Some user = Some user0 ->
       filter (fun x => negb (N.eqb (User.ID x) (User.ID user0))) (users (db w')) =
       filter (fun x => negb (N.eqb (User.ID x) (User.ID user0))) (users (db w))) /\
    (forall user0 form0, Some user = Some user0 -> Ok form = Ok form0 ->
       compare (User.PasswordHash user0) (FormValue form0 "current_password") <> Ok tt \/
       FormValue form0 "new_password" <> FormValue form0 "confirm_password" \/
       (String.length (FormValue form0 "new_password") < 5)%nat ->
       db w' = db w)).
  { intros ->. repeat split. }
  destruct (compare (User.PasswordHash user) (FormValue form "current_password"))
    as [[] | e] eqn:Hcmp; [| apply Hsame; now subst w'].
  destruct (FormValue form "new_password" =? FormValue form "confirm_password")
    eqn:Hconf; cbn [negb] in Hw'; [| apply Hsame; now subst w'].
  destruct (Nat.ltb (String.length (FormValue form "new_password")) 5) eqn:Hlen;
    [apply Hsame; now subst w' |].
  assert (Hno : forall user0 form0, Some user = Some user0 -> Ok form = Ok form0 ->
       compare (User.PasswordHash user0) (FormValue form0 "current_password") <> Ok tt \/
       FormValue form0 "new_password" <> FormValue form0 "confirm_password" \/
       (String.length (FormValue form0 "new_password") < 5)%nat ->
       db w' = db w).
  { intros user0 form0 Hu Hf Hbad. injection Hu as <-. injection Hf as <-.
    apply string_eqb_true in Hconf. apply Nat.ltb_ge in Hlen.
    destruct Hbad as [Hbad | [Hbad | Hbad]]; [congruence | contradiction | lia]. }
  destruct (hash (FormValue form "new_password")) as [hashed | e];
    [| apply Hsame; now subst w'].
  unfold bind at 1 in Hw'.
  destruct (Save_User_result drv (with_password hashed user) w) as [[e He] | Hok].
  - rewrite He in Hw'. unfold ret in Hw'. cbn [snd] in Hw'.
    split; [now subst w' |]. split; [now subst w' |].
    split; [intros; now subst w' | exact Hno].
  - rewrite Hok in Hw'. unfold bind at 1 in Hw'. rewrite GenerateToken_run in Hw'.
    assert (Hw2 : w' = tick (tick (with_db
              (mkDB (if existsb (fun x => N.eqb (User.ID x)
                                           (User.ID (with_password hashed user)))
                                (users (db w))
                     then map (fun x => if N.eqb (User.ID x)
                                              (User.ID (with_password hashed user))
                                        then User_with_UpdatedAt (now w)
                                               (with_password hashed user) else x)
                              (users (db w))
                     else (users (db w) ++
                           [User_with_UpdatedAt (now w) (with_password hashed user)])%list)
                    (invites (db w)) (overtime_entries (db w))) (tick w)))).
    { rewrite Hw'. now destruct (sign _ _). }
    clear Hw'. split; [now rewrite Hw2 |]. split; [now rewrite Hw2 |].
    split; [| exact Hno].
    intros user0 Hu. injection Hu as <-. rewrite Hw2. cbn [tick with_db db users].
    apply (saved_rows_others (with_password hashed user)). reflexivity.
Qed.

Lemma ChangePassword_scope_witness :
  db (snd (ChangePassword Toy.SignedString Toy.GenerateFromPassword
             Toy_CompareHashAndPassword healthy short_config emptyRW
             change_password_wrong_current sample_world)) = db sample_world.
Proof.
  apply (proj2 (proj2 (proj2
           (ChangePassword_scope Toy.SignedString Toy.GenerateFromPassword
              Toy_CompareHashAndPassword healthy short_config emptyRW
              change_password_wrong_current sample_world)))
         bob
         [("current_password", "guess"); ("new_password", "correct horse");
          ("confirm_password", "correct horse")] eq_refl eq_refl).
  left. vm_compute. discriminate.
Defined.

(** ** Creating invites *)

Lemma Create_Invite_result : forall drv i w,
  (exists e, Create_Invite drv i w = (Err e, tick w)) \/
  (existsb (fun x => Invite.Code x =? Invite.Code i) (invites (db w)) = false /\
   Create_Invite drv i w =
   (Ok (Invite.mk (next_invite_id (invites (db w)))
          (if Z.eqb (Invite.CreatedAt i) zeroTime then now w else Invite.CreatedAt i)
          (if Z.eqb (Invite.UpdatedAt i) zeroTime then now w else Invite.UpdatedAt i)
          (Invite.DeletedAt i) (Invite.Code i) (Invite.FullName i) (Invite.Role i)
          (gorm_default false (Invite.Used i)) (Invite.CreatedBy i)
          (Invite.ExpiresAt i) (Invite.TeamID i) (Invite.ProjectID i)),
    with_db (mkDB (users (db w))
               (invites (db w) ++
                [Invite.mk (next_invite_id (invites (db w)))
                   (if Z.eqb (Invite.CreatedAt i) zeroTime then now w
                    else Invite.CreatedAt i)
                   (if Z.eqb (Invite.UpdatedAt i) zeroTime then now w
                    else Invite.UpdatedAt i)
                   (Invite.DeletedAt i) (Invite.Code i) (Invite.FullName i)
                   (Invite.Role i) (gorm_default false (Invite.Used i))
                   (Invite.CreatedBy i) (Invite.ExpiresAt i) (Invite.TeamID i)
                   (Invite.ProjectID i)])%list
               (overtime_entries (db w))) (tick w))).
Proof.
  intros drv i w. unfold Create_Invite, bind, time_Now. cbn [tick db].
  destruct (drv OpCreateInvite); [left; eexists; reflexivity |].
  destruct (existsb _ (invites (db w))); [left; eexists; reflexivity |].
  right. split; reflexivity.
Qed.

Lemma invite_role_of_closed : forall s role,
  invite_role_of s = Some role ->
  role = RoleEmployee \/ role = RoleHR \/ role = RoleAdmin.
Proof.
  intros s role. unfold invite_role_of.
  destruct (s =? "EMPLOYEE"); [intros H; injection H as <-; now left |].
  destruct (s =? "HR"); [intros H; injection H as <-; right; now left |].
  destruct (s =? "ADMIN"); [intros H; injection H as <-; right; now right |].
  discriminate.
Qed.

Lemma optional_id_bounds : forall s n,
  optional_id s = Some n -> (0 < n < 2 ^ 32)%N.
Proof.
  intros s n. unfold optional_id.
  destruct (negb (s =? EmptyString)); [| discriminate].
  destruct (ParseUint10 s 32) as [m | e] eqn:E; [| discriminate].
  destruct (N.ltb 0 m) eqn:Hm; [| discriminate].
  intros H. injection H as <-. apply N.ltb_lt in Hm. split; [exact Hm |].
  unfold ParseUint10 in E. destruct s as [| c s]; [discriminate E |].
  assert (Hloop : forall t acc k, ParseUint_loop (2 ^ 32 - 1) t acc = Ok k ->
                                  (acc <= 2 ^ 32 - 1 -> k <= 2 ^ 32 - 1)%N).
  { induction t as [| c' t IH]; intros acc k Hk Hacc; cbn [ParseUint_loop] in Hk.
    - now injection Hk as <-.
    - destruct (digit_of c'); [| discriminate Hk].
      destruct (N.ltb (2 ^ 32 - 1) (acc * 10 + n)) eqn:Hr; [discriminate Hk |].
      apply N.ltb_ge in Hr. exact (IH _ _ Hk Hr). }
  assert (Hk : (m <= 2 ^ 32 - 1)%N).
  { apply (Hloop _ _ _ E). vm_compute. discriminate. }
  assert (H32 : (2 ^ 32 = 4294967296)%N) by reflexivity.
  rewrite H32 in *. lia.
Qed.

(** [CreateInvite] leaves users and overtime entries alone and adds at most
    one invite, and only for an acting admin: the invite it adds is unused
    and live, names the admin as creator, carries a non-empty full name and
    one of the three role constants, expires [InviteExpiration] after the
    clock reading taken, and its team and project, when set, are positive
    32-bit numbers. *)
Theorem CreateInvite_adds_well_formed_invite :
  forall (rand : nat -> result (list Byte.byte)) (drv : Driver) (cfg : Config.t)
         rw r w,
    users (db (snd (CreateInvite rand drv cfg rw r w))) = users (db w) /\
    overtime_entries (db (snd (CreateInvite rand drv cfg rw r w)))
      = overtime_entries (db w) /\
    (invites (db (snd (CreateInvite rand drv cfg rw r w))) = invites (db w) \/
     exists user i,
       invites (db (snd (CreateInvite rand drv cfg rw r w)))
         = (invites (db w) ++ [i])%list /\
       GetUserFromContext r = Some user /\ IsAdmin user = true /\
       Invite.CreatedBy i = User.ID user /\
       Invite.Used i = false /\ Invite.DeletedAt i = None /\
       Invite.FullName i <> EmptyString /\
       (Invite.Role i = RoleEmployee \/ Invite.Role i = RoleHR \/
        Invite.Role i = RoleAdmin) /\
       Invite.ExpiresAt i = time_Add (now w) (Config.InviteExpiration cfg) /\
       (forall n, Invite.TeamID i = Some n -> (0 < n < 2 ^ 32)%N) /\
       (forall n, Invite.ProjectID i = Some n -> (0 < n < 2 ^ 32)%N)).
Proof.
  intros rand drv cfg rw r w.
  remember (snd (CreateInvite rand drv cfg rw r w)) as w' eqn:Hw'.
  unfold CreateInvite in Hw'.
  assert (Hsame : w' = w \/ w' = tick w \/ w' = tick (tick w) ->
    users (db w') = users (db w) /\
    overtime_entries (db w') = overtime_entries (db w) /\
    (invites (db w') = invites (db w) \/
     exists user i,
       invites (db w') = (invites (db w) ++ [i])%list /\
       GetUserFromContext r = Some user /\ IsAdmin user = true /\
       Invite.CreatedBy i = User.ID user /\
       Invite.Used i = false /\ Invite.DeletedAt i = None /\
       Invite.FullName i <> EmptyString /\
       (Invite.Role i = RoleEmployee \/ Invite.Role i = RoleHR \/
        Invite.Role i = RoleAdmin) /\
       Invite.ExpiresAt i = time_Add (now w) (Config.InviteExpiration cfg) /\
       (forall n, Invite.TeamID i = Some n -> (0 < n < 2 ^ 32)%N) /\
       (forall n, Invite.ProjectID i = Some n -> (0 < n < 2 ^ 32)%N))).
  { intros [-> | [-> | ->]]; (split; [reflexivity |]); (split; [reflexivity |]);
      left; reflexivity. }
  destruct (GetUserFromContext r) as [user |] eqn:Hget;
    [| apply Hsame; left; now subst w'].
  unfold CanCreateInvites in Hw'.
  destruct (IsAdmin user) eqn:Hadmin; cbn [negb] in Hw';
    [| apply Hsame; left; now subst w'].
  destruct (ParseForm r) as [form | e]; [| apply Hsame; left; now subst w'].
  destruct (FormValue form "full_name" =? EmptyString) eqn:Hname;
    [apply Hsame; left; now subst w' |].
  destruct (invite_role_of (FormValue form "role")) as [role |] eqn:Hrole;
    [| apply Hsame; left; now subst w'].
  destruct (GenerateInviteCode rand) as [code | e];
    [| apply Hsame; left; now subst w'].
  unfold bind at 1 in Hw'. unfold time_Now at 1 in Hw'. unfold bind at 1 in Hw'.
  match type of Hw' with
  | context [Create_Invite drv ?i (tick w)] =>
      destruct (Create_Invite_result drv i (tick w)) as [[e He] | [_ Hok]]
  end.
  - rewrite He in Hw'. apply Hsame. right. right. now subst w'.
  - rewrite Hok in Hw'. unfold ret in Hw'. cbn [snd] in Hw'. subst w'.
    cbn [with_db db users invites overtime_entries tick].
    split; [reflexivity |]. split; [reflexivity |]. right.
    exists user. eexists. split; [reflexivity |].
    cbn [Invite.CreatedBy Invite.Used Invite.DeletedAt Invite.FullName Invite.Role
           Invite.ExpiresAt Invite.TeamID Invite.ProjectID gorm_default].
    split; [reflexivity |]. split; [exact Hadmin |]. split; [reflexivity |].
    split; [reflexivity |]. split; [reflexivity |].
    split; [now apply string_eqb_false |].
    split; [exact (invite_role_of_closed _ _ Hrole) |].
    split; [reflexivity |].
    split; intros n Hn; exact (optional_id_bounds _ _ Hn).
Qed.

Lemma CreateInvite_adds_well_formed_invite_witness :
  users (db (snd (CreateInvite fixed_entropy healthy reference_config emptyRW
                    create_invite_request sample_world))) = users (db sample_world).
Proof.
  apply (proj1 (CreateInvite_adds_well_formed_invite fixed_entropy healthy
                  reference_config emptyRW create_invite_request sample_world)).
Defined.

Lemma find_app_last : forall (A : Type) (P : A -> bool) (l : list A) (y : A),
  (forall x, In x l -> P x = false) -> P y = true ->
  find P (l ++ [y])%list = Some y.
Proof.
  intros A P l y Hl Hy. induction l as [| x rest IH]; cbn [app find].
  - now rewrite Hy.
  - rewrite (Hl x (or_introl eq_refl)). apply IH.
    intros z Hz. apply Hl. now right.
Qed.

(** From creation to expiry: when [CreateInvite] reports success, the new
    invite is found under its code from then on, it validates exactly while
    the clock reads before the creation reading plus [InviteExpiration], and
    a registration submitted with that code at or after that instant is
    answered 400, although the invite is still unused. *)
Theorem CreateInvite_valid_until_expiry :
  forall (rand : nat -> result (list Byte.byte)) (drv : Driver) (cfg : Config.t)
         rw r w,
    fst (CreateInvite rand drv cfg rw r w) =
      Responded (http_Redirect rw "/invites?success=Invite+created+successfully"
                               StatusSeeOther) ->
    exists i,
      invites (db (snd (CreateInvite rand drv cfg rw r w)))
        = (invites (db w) ++ [i])%list /\
      Invite.Used i = false /\
      forall later,
        invites (db later) = invites (db (snd (CreateInvite rand drv cfg rw r w))) ->
        fails later OpFirstInviteByCode = false ->
        First_Invite_by_code (Invite.Code i) later = (Ok i, later) /\
        (fst (IsValid i later) = true <->
         (now later < time_Add (now w) (Config.InviteExpiration cfg))%Z) /\
        (forall sign hash cfg' rw2 r2 form2,
           ParseForm r2 = Ok form2 ->
           FormValue form2 "code" = Invite.Code i ->
           (time_Add (now w) (Config.InviteExpiration cfg) <= now later)%Z ->
           Register sign hash cfg' rw2 r2 later =
           (Responded (http_Error rw2 "Invite link has expired or already been used"
                                  StatusBadRequest), tick later)).
Proof.
  intros rand drv cfg rw r w Hout.
  remember (CreateInvite rand drv cfg rw r w) as run eqn:Hrun.
  unfold CreateInvite in Hrun.
  destruct (GetUserFromContext r) as [user |]; [| subst run; discriminate Hout].
  destruct (negb (CanCreateInvites user)); [subst run; discriminate Hout |].
  destruct (ParseForm r) as [form | e]; [| subst run; discriminate Hout].
  destruct (FormValue form "full_name" =? EmptyString);
    [subst run; discriminate Hout |].
  destruct (invite_role_of (FormValue form "role")) as [role |];
    [| subst run; discriminate Hout].
  destruct (GenerateInviteCode rand) as [code | e]; [| subst run; discriminate Hout].
  unfold bind at 1 in Hrun. unfold time_Now at 1 in Hrun. unfold bind at 1 in Hrun.
  match type of Hrun with
  | context [Create_Invite drv ?i (tick w)] =>
      destruct (Create_Invite_result drv i (tick w)) as [[e He] | [Hfresh Hok]]
  end.
  - rewrite He in Hrun. subst run. discriminate Hout.
  - rewrite Hok in Hrun. unfold ret in Hrun. subst run.
    cbn [snd with_db db invites tick].
    eexists. split; [reflexivity |]. split; [reflexivity |].
    intros later Hdb Hf.
    cbn [Invite.Code Invite.ExpiresAt Invite.Used gorm_default].
    assert (Hlook : First_Invite_by_code code later =
                    (Ok (Invite.mk (next_invite_id (invites (db w)))
                           (now (tick w)) (now (tick w)) None code
                           (FormValue form "full_name") role false (User.ID user)
                           (time_Add (now w) (Config.InviteExpiration cfg))
                           (optional_id (FormValue form "team_id"))
                           (optional_id (FormValue form "project_id"))), later)).
    { unfold First_Invite_by_code. rewrite Hf, Hdb.
      rewrite find_app_last; [reflexivity | | ].
      - intros x Hx. cbn [Invite.Code] in Hfresh.
        assert (Hc : (Invite.Code x =? code) = false).
        { destruct (Invite.Code x =? code) eqn:E; [| reflexivity].
          exfalso. assert (Ht : existsb (fun y => Invite.Code y =? code)
                                        (invites (db w)) = true).
          { apply existsb_exists. exists x. now split. }
          cbn [tick db] in Hfresh. rewrite Ht in Hfresh. discriminate Hfresh. }
        rewrite Hc. apply andb_false_r.
      - cbn [Invite.DeletedAt Invite.Code live]. now rewrite String.eqb_refl. }
    split; [exact Hlook |]. split.
    + rewrite IsValid_run. cbn [fst Invite.Used Invite.ExpiresAt negb andb].
      unfold time_Before. apply Z.ltb_lt.
    + intros sign hash cfg' rw2 r2 form2 Hform2 Hcode2 Hlate.
      rewrite <- Hcode2 in Hlook.
      rewrite (Register_rejects_invalid_invite sign hash cfg' rw2 r2 later form2 _
                 Hform2 Hlook).
      * rewrite IsValid_run. reflexivity.
      * rewrite IsValid_run. cbn [fst Invite.Used Invite.ExpiresAt negb andb].
        unfold time_Before. now apply Z.ltb_ge.
Qed.

Lemma CreateInvite_valid_until_expiry_witness :
  exists i,
    invites (db (snd (CreateInvite fixed_entropy healthy reference_config emptyRW
                        create_invite_request sample_world)))
      = (invites (db sample_world) ++ [i])%list /\
    Invite.Used i = false.
Proof.
  destruct (CreateInvite_valid_until_expiry fixed_entropy healthy reference_config
              emptyRW create_invite_request sample_world eq_refl)
    as [i [H1 [H2 _]]].
  exists i. split; [exact H1 | exact H2].
Defined.

(** ** Deleting overtime entries *)

Lemma find_map_none : forall (A : Type) (P : A -> bool) (f : A -> A) (l : list A),
  (forall x, P (f x) = false) -> find P (map f l) = None.
Proof.
  intros A P f l H. induction l as [| x rest IH]; [reflexivity |].
  cbn [map find]. now rewrite H.
Qed.

Lemma NoDup_map_eq : forall (A B : Type) (f : A -> B) (l : list A) (a b : A),
  NoDup (map f l) -> In a l -> In b l -> f a = f b -> a = b.
Proof.
  intros A B f l a b. induction l as [| x rest IH]; intros Hnd Ha Hb Hf.
  - destruct Ha.
  - cbn [map] in Hnd. apply NoDup_cons_iff in Hnd. destruct Hnd as [Hnot Hnd].
    destruct Ha as [-> | Ha]; destruct Hb as [-> | Hb].
    + reflexivity.
    + exfalso. apply Hnot. rewrite Hf. now apply in_map.
    + exfalso. apply Hnot. rewrite <- Hf. now apply in_map.
    + now apply IH.
Qed.

Lemma First_OvertimeEntry_by_ID_found : forall drv id w entry w1,
  First_OvertimeEntry_by_ID drv id w = (Ok entry, w1) ->
  w1 = w /\ In entry (overtime_entries (db w)) /\
  OvertimeEntry.ID entry = id /\ OvertimeEntry.DeletedAt entry = None.
Proof.
  intros drv id w entry w1. unfold First_OvertimeEntry_by_ID.
  destruct (drv OpFirstOvertimeEntryByID); [discriminate |].
  destruct (find _ _) as [e |] eqn:Ef; [| discriminate].
  intros H. injection H as <- <-. apply find_some in Ef. destruct Ef as [Hin HP].
  apply andb_prop in HP. destruct HP as [Hl Hid]. apply N.eqb_eq in Hid.
  repeat split; try assumption. now destruct (OvertimeEntry.DeletedAt e).
Qed.

Lemma Delete_OvertimeEntry_result : forall drv entry w,
  (exists e, Delete_OvertimeEntry drv entry w = (Err e, tick w)) \/
  Delete_OvertimeEntry drv entry w =
  (Ok tt,
   with_db (mkDB (users (db w)) (invites (db w))
              (map (fun e => if N.eqb (OvertimeEntry.ID e) (OvertimeEntry.ID entry)
                                && live (OvertimeEntry.DeletedAt e)
                             then OvertimeEntry.with_DeletedAt (Some (now w)) e
                             else e)
                   (overtime_entries (db w)))) (tick w)).
Proof.
  intros drv entry w. unfold Delete_OvertimeEntry, bind, time_Now. cbn [tick db].
  destruct (drv OpDeleteOvertimeEntry); [left; eexists; reflexivity |].
  destruct (N.eqb (OvertimeEntry.ID entry) 0); [left; eexists; reflexivity |].
  right. reflexivity.
Qed.

(** Row-level authorization of [DeleteEntry]: an actor who is not an admin
    and does not own the entry is answered 403 and nothing changes. *)
Theorem DeleteEntry_forbidden_for_others :
  forall (drv : Driver) rw r w user form id entry,
    GetUserFromContext r = Some user ->
    ParseForm r = Ok form ->
    ParseUint10 (FormValue form "id") 32 = Ok id ->
    First_OvertimeEntry_by_ID drv id w = (Ok entry, w) ->
    IsAdmin user = false ->
    OvertimeEntry.UserID entry <> User.ID user ->
    DeleteEntry drv rw r w = (Responded (http_Error rw "Forbidden" StatusForbidden), w).
Proof.
  intros drv rw r w user form id entry Hget Hform Hid Hfound Hadmin Hown.
  unfold DeleteEntry. rewrite Hget, Hform, Hid. unfold bind at 1. rewrite Hfound.
  unfold CanManageOvertimeFor. rewrite Hadmin.
  assert (E : N.eqb (User.ID user) (OvertimeEntry.UserID entry) = false).
  { apply N.eqb_neq. congruence. }
  now rewrite E.
Qed.

Lemma DeleteEntry_forbidden_for_others_witness :
  DeleteEntry healthy emptyRW (delete_entry_request bob "2") entries_world =
  (Responded (http_Error emptyRW "Forbidden" StatusForbidden), entries_world).
Proof.
  apply (DeleteEntry_forbidden_for_others healthy emptyRW
           (delete_entry_request bob "2") entries_world bob [("id", "2")] 2
           entry_of_carol).
  - reflexivity.
  - reflexivity.
  - reflexivity.
  - reflexivity.
  - reflexivity.
  - vm_compute. discriminate.
Defined.

(** What [DeleteEntry] can reach: it never touches users or invites, and,
    entry ids being unique, every entry the actor may not manage is still
    there, unchanged, afterwards. *)
Theorem DeleteEntry_spares_unmanageable :
  forall (drv : Driver) rw r w,
    NoDup (map OvertimeEntry.ID (overtime_entries (db w))) ->
    users (db (snd (DeleteEntry drv rw r w))) = users (db w) /\
    invites (db (snd (DeleteEntry drv rw r w))) = invites (db w) /\
    forall user e,
      GetUserFromContext r = Some user ->
      In e (overtime_entries (db w)) ->
      CanManageOvertimeFor user (OvertimeEntry.UserID e) = false ->
      In e (overtime_entries (db (snd (DeleteEntry drv rw r w)))).
Proof.
  intros drv rw r w Hnd.
  remember (snd (DeleteEntry drv rw r w)) as w' eqn:Hw'.
  unfold DeleteEntry in Hw'.
  assert (Hsame : w' = w \/ w' = tick w ->
    users (db w') = users (db w) /\ invites (db w') = invites (db w) /\
    forall user e, GetUserFromContext r = Some user ->
      In e (overtime_entries (db w)) ->
      CanManageOvertimeFor user (OvertimeEntry.UserID e) = false ->
      In e (overtime_entries (db w'))).
  { intros [-> | ->]; repeat split; intros; assumption. }
  destruct (GetUserFromContext r) as [user |] eqn:Hget;
    [| apply Hsame; left; now subst w'].
  destruct (ParseForm r) as [form | e]; [| apply Hsame; left; now subst w'].
  destruct (ParseUint10 (FormValue form "id") 32) as [id | e];
    [| apply Hsame; left; now subst w'].
  unfold bind at 1 in Hw'.
  destruct (First_OvertimeEntry_by_ID drv id w) as [[entry | e] w1] eqn:Hfound.
  - apply First_OvertimeEntry_by_ID_found in Hfound.
    destruct Hfound as [-> [Hin [Hid Hlive]]].
    destruct (CanManageOvertimeFor user (OvertimeEntry.UserID entry)) eqn:Hcan;
      cbn [negb] in Hw'; [| apply Hsame; left; now subst w'].
    unfold bind at 1 in Hw'.
    destruct (Delete_OvertimeEntry_result drv entry w) as [[e He] | Hok].
    + rewrite He in Hw'. apply Hsame. right. now subst w'.
    + rewrite Hok in Hw'. unfold ret in Hw'. cbn [snd] in Hw'. subst w'.
      cbn [with_db db users invites overtime_entries tick].
      split; [reflexivity |]. split; [reflexivity |].
      intros user0 e Hu He Hno. injection Hu as <-.
      apply in_map_iff. exists e. split; [| exact He].
      destruct (N.eqb (OvertimeEntry.ID e) (OvertimeEntry.ID entry)) eqn:E;
        [| reflexivity].
      apply N.eqb_eq in E.
      assert (e = entry) by (apply (NoDup_map_eq _ _ _ _ _ _ Hnd He Hin E)).
      subst e. rewrite Hcan in Hno. discriminate Hno.
  - assert (w1 = w).
    { unfold First_OvertimeEntry_by_ID in Hfound.
      destruct (drv OpFirstOvertimeEntryByID); [now injection Hfound |].
      destruct (find _ _); now injection Hfound. }
    subst w1. apply Hsame. left. now subst w'.
Qed.

Lemma DeleteEntry_spares_unmanageable_witness :
  In entry_of_carol
     (overtime_entries
        (db (snd (DeleteEntry healthy emptyRW (delete_entry_request bob "1")
                              entries_world)))).
Proof.
  apply (proj2 (proj2 (DeleteEntry_spares_unmanageable healthy emptyRW
                         (delete_entry_request bob "1") entries_world
                         ltac:(vm_compute; repeat constructor;
                               intros H; cbn in H; intuition discriminate)))
           bob entry_of_carol).
  - reflexivity.
  - right. left. reflexivity.
  - reflexivity.
Defined.

(** Delete, then look up: when [DeleteEntry] reports success for the
    submitted id, no later lookup of that id finds a live entry. *)
Theorem DeleteEntry_then_not_found :
  forall (drv : Driver) rw r w form id,
    ParseForm r = Ok form ->
    ParseUint10 (FormValue form "id") 32 = Ok id ->
    fst (DeleteEntry drv rw r w) =
      Responded (http_Redirect rw "/dashboard?success=Overtime+entry+deleted"
                               StatusSeeOther) ->
    forall (drv' : Driver) later,
      overtime_entries (db later) = overtime_entries (db (snd (DeleteEntry drv rw r w))) ->
      drv' OpFirstOvertimeEntryByID = false ->
      First_OvertimeEntry_by_ID drv' id later = (Err ErrRecordNotFound, later).
Proof.
  intros drv rw r w form id Hform Hid Hout drv' later Hdb Hdrv.
  remember (DeleteEntry drv rw r w) as run eqn:Hrun.
  unfold DeleteEntry in Hrun. rewrite Hform, Hid in Hrun.
  destruct (GetUserFromContext r) as [user |]; [| subst run; discriminate Hout].
  unfold bind at 1 in Hrun.
  destruct (First_OvertimeEntry_by_ID drv id w) as [[entry | e] w1] eqn:Hfound;
    [| subst run; discriminate Hout].
  apply First_OvertimeEntry_by_ID_found in Hfound.
  destruct Hfound as [-> [Hin [Hide Hlive]]].
  destruct (negb (CanManageOvertimeFor user (OvertimeEntry.UserID entry)));
    [subst run; discriminate Hout |].
  unfold bind at 1 in Hrun.
  destruct (Delete_OvertimeEntry_result drv entry w) as [[e He] | Hok].
  - rewrite He in Hrun. subst run. discriminate Hout.
  - rewrite Hok in Hrun. unfold ret in Hrun. subst run.
    cbn [snd with_db db overtime_entries] in Hdb.
    unfold First_OvertimeEntry_by_ID. rewrite Hdrv, Hdb, Hide.
    rewrite find_map_none; [reflexivity |].
    intros x.
    destruct (N.eqb (OvertimeEntry.ID x) id && live (OvertimeEntry.DeletedAt x)) eqn:E.
    + reflexivity.
    + rewrite andb_comm. exact E.
Qed.

Lemma DeleteEntry_then_not_found_witness :
  First_OvertimeEntry_by_ID healthy 1
    (snd (DeleteEntry healthy emptyRW (delete_entry_request bob "1") entries_world)) =
  (Err ErrRecordNotFound,
   snd (DeleteEntry healthy emptyRW (delete_entry_request bob "1") entries_world)).
Proof.
  apply (DeleteEntry_then_not_found healthy emptyRW (delete_entry_request bob "1")
           entries_world [("id", "1")] 1 eq_refl eq_refl eq_refl healthy _ eq_refl
           eq_refl).
Defined.

(** ** Deleting users *)

Lemma Delete_OvertimeEntries_of_result : forall id w,
  Delete_OvertimeEntries_of id w =
  if fails w OpDeleteOvertimeEntries then (Err ErrDatabase, tick w)
  else
    (Ok tt,
     with_db (mkDB (users (db w)) (invites (db w))
                (map (fun e => if N.eqb (OvertimeEntry.UserID e) id
                                  && live (OvertimeEntry.DeletedAt e)
                               then OvertimeEntry.with_DeletedAt (Some (now w)) e
                               else e)
                     (overtime_entries (db w)))) (tick w)).
Proof.
  intros id w. unfold Delete_OvertimeEntries_of, bind, time_Now. cbn [tick db fails].
  now destruct (fails w OpDeleteOvertimeEntries).
Qed.

Lemma Delete_User_result : forall id w,
  Delete_User id w =
  if fails w OpDeleteUser then (Err ErrDatabase, tick w)
  else
    (Ok tt,
     with_db (mkDB (map (fun x => if N.eqb (User.ID x) id && live (User.DeletedAt x)
                                  then User.mk (User.ID x) (User.CreatedAt x)
                                         (User.UpdatedAt x) (Some (now w))
                                         (User.Username x) (User.FullName x)
                                         (User.PasswordHash x) (User.Role x)
                                         (User.MustChangePassword x)
                                  else x)
                        (users (db w)))
                (invites (db w)) (overtime_entries (db w))) (tick w)).
Proof.
  intros id w. unfold Delete_User, bind, time_Now. cbn [tick db fails].
  now destruct (fails w OpDeleteUser).
Qed.

(** A deleted account is locked out: when [DeleteUser] reports success for
    the submitted id, from then on no lookup of that id finds a live user,
    none of that user's overtime entries is live, and a request whose token
    verifies to that id is redirected to [/login] by [AuthMiddleware], even
    though the token itself is still valid. *)
Theorem DeleteUser_locks_account_out :
  forall rw r w form id,
    ParseForm r = Ok form ->
    ParseUint10 (FormValue form "id") 32 = Ok id ->
    fst (DeleteUser rw r w) =
      Responded (http_Redirect rw "/users?success=User+deleted+successfully"
                               StatusSeeOther) ->
    forall later,
      users (db later) = users (db (snd (DeleteUser rw r w))) ->
      overtime_entries (db later) = overtime_entries (db (snd (DeleteUser rw r w))) ->
      (forall u, fst (First_User_by_ID id later) <> Ok u) /\
      (forall e, In e (overtime_entries (db later)) ->
                 OvertimeEntry.UserID e = id -> OvertimeEntry.DeletedAt e <> None) /\
      (forall (parse : string -> string -> result Claims.t) (next : Handler)
              rw' r' w0 claims,
         request_token r' <> EmptyString ->
         ValidateToken parse (request_token r') w0 = (Ok claims, later) ->
         Claims.UserID claims = id ->
         AuthMiddleware parse next rw' r' w0 =
         (Responded (http_Redirect rw' "/login" StatusSeeOther), later)).
Proof.
  intros rw r w form id Hform Hid Hout later Hu He.
  remember (DeleteUser rw r w) as run eqn:Hrun.
  unfold DeleteUser in Hrun. rewrite Hform, Hid in Hrun.
  destruct (GetUserFromContext r) as [user |]; [| subst run; discriminate Hout].
  destruct (negb (IsAdmin user)); [subst run; discriminate Hout |].
  destruct (N.eqb id (User.ID user)); [subst run; discriminate Hout |].
  unfold bind at 1 in Hrun. rewrite Delete_OvertimeEntries_of_result in Hrun.
  destruct (fails w OpDeleteOvertimeEntries); [subst run; discriminate Hout |].
  unfold bind at 1 in Hrun. rewrite Delete_User_result in Hrun.
  cbn [with_db fails tick] in Hrun.
  destruct (fails w OpDeleteUser); [subst run; discriminate Hout |].
  unfold ret in Hrun. subst run.
  cbn [snd with_db db users overtime_entries tick] in Hu, He.
  assert (Hnone : forall u, fst (First_User_by_ID id later) <> Ok u).
  { intros u. unfold First_User_by_ID.
    destruct (fails later OpFirstUserByID); [discriminate |].
    rewrite Hu, find_map_none; [discriminate |].
    intros x. destruct (N.eqb (User.ID x) id && live (User.DeletedAt x)) eqn:E.
    - reflexivity.
    - rewrite andb_comm. exact E. }
  split; [exact Hnone |]. split.
  - intros e Hin Hown. rewrite He in Hin. apply in_map_iff in Hin.
    destruct Hin as [y [Hy _]].
    destruct (N.eqb (OvertimeEntry.UserID y) id && live (OvertimeEntry.DeletedAt y))
      eqn:E.
    + subst e. discriminate.
    + subst e. intros Hd. rewrite Hd in E. apply N.eqb_eq in Hown.
      rewrite Hown in E. discriminate E.
  - intros parse next rw' r' w0 claims Ht Hv Hc.
    rewrite AuthMiddleware_token by assumption.
    unfold bind at 1. rewrite Hv. unfold bind at 1. rewrite Hc.
    pose proof (First_User_by_ID_world id later) as Hw.
    destruct (First_User_by_ID id later) as [[u | e] w1] eqn:Hf; cbn [snd] in Hw;
      subst w1.
    + exfalso. apply (Hnone u). reflexivity.
    + reflexivity.
Qed.

Lemma DeleteUser_locks_account_out_witness :
  (forall u,
     fst (First_User_by_ID 2
            (snd (DeleteUser emptyRW (delete_user_request "2") entries_world)))
     <> Ok u) /\
  (forall e,
     In e (overtime_entries
             (db (snd (DeleteUser emptyRW (delete_user_request "2") entries_world)))) ->
     OvertimeEntry.UserID e = 2%N -> OvertimeEntry.DeletedAt e <> None).
Proof.
  destruct (DeleteUser_locks_account_out emptyRW (delete_user_request "2")
              entries_world [("id", "2")] 2 eq_refl eq_refl eq_refl
              (snd (DeleteUser emptyRW (delete_user_request "2") entries_world))
              eq_refl eq_refl) as [H1 [H2 _]].
  split; [exact H1 | exact H2].
Defined.

(** Entries first: when the statement that deletes the overtime entries
    fails, [DeleteUser] stops and the database is as it was, the user
    included; and when the statement that deletes the user fails, no user
    row changes. *)
Theorem DeleteUser_stops_at_first_failure :
  forall rw r w,
    (fails w OpDeleteOvertimeEntries = true ->
     db (snd (DeleteUser rw r w)) = db w) /\
    (fails w OpDeleteUser = true ->
     users (db (snd (DeleteUser rw r w))) = users (db w)).
Proof.
  intros rw r w.
  remember (snd (DeleteUser rw r w)) as w' eqn:Hw'.
  unfold DeleteUser in Hw'.
  assert (Hsame : w' = w ->
    (fails w OpDeleteOvertimeEntries = true -> db w' = db w) /\
    (fails w OpDeleteUser = true -> users (db w') = users (db w))).
  { intros ->. split; reflexivity. }
  destruct (GetUserFromContext r) as [user |]; [| apply Hsame; now subst w'].
  destruct (negb (IsAdmin user)); [apply Hsame; now subst w' |].
  destruct (ParseForm r) as [form | e]; [| apply Hsame; now subst w'].
  destruct (ParseUint10 (FormValue form "id") 32) as [id | e];
    [| apply Hsame; now subst w'].
  destruct (N.eqb id (User.ID user)); [apply Hsame; now subst w' |].
  unfold bind at 1 in Hw'. rewrite Delete_OvertimeEntries_of_result in Hw'.
  destruct (fails w OpDeleteOvertimeEntries).
  - unfold ret in Hw'. cbn [snd] in Hw'. subst w'. split; reflexivity.
  - unfold bind at 1 in Hw'. rewrite Delete_User_result in Hw'.
    cbn [with_db fails tick] in Hw'.
    destruct (fails w OpDeleteUser); unfold ret in Hw'; cbn [snd] in Hw'; subst w'.
    + split; [discriminate | reflexivity].
    + split; discriminate.
Qed.

Lemma DeleteUser_stops_at_first_failure_witness :
  db (snd (DeleteUser emptyRW (delete_user_request "2")
             (mkWorld entries_db "k" (fun _ => 0) 0%nat only_entries_delete_fails)))
  = entries_db.
Proof.
  apply (proj1 (DeleteUser_stops_at_first_failure emptyRW (delete_user_request "2")
                  (mkWorld entries_db "k" (fun _ => 0) 0%nat
                           only_entries_delete_fails))).
  reflexivity.
Defined.

(** ** Seeding the default admin *)

Lemma Count_Users_by_username_run : forall drv name w,
  Count_Users_by_username drv name w =
  (if drv OpCountUsersByUsername then Err ErrDatabase
   else Ok (N.of_nat (List.length
              (filter (fun u => live (User.DeletedAt u) && (User.Username u =? name))
                      (users (db w))))), w).
Proof.
  intros drv name w. unfold Count_Users_by_username.
  now destruct (drv OpCountUsersByUsername).
Qed.

(** Seeding twice is seeding once: after a run of [seedDefaultAdmin] that
    returned no error, a further run (whose count goes through) returns no
    error either and changes nothing. *)
Theorem seedDefaultAdmin_idempotent :
  forall (hash : string -> result string) (drv : Driver) (w w1 : World),
    drv OpCountUsersByUsername = false ->
    seedDefaultAdmin hash drv w = (Ok tt, w1) ->
    seedDefaultAdmin hash drv w1 = (Ok tt, w1).
Proof.
  intros hash drv w w1 Hdrv Hrun.
  unfold seedDefaultAdmin in *. unfold bind at 1 in Hrun. unfold bind at 1.
  rewrite Count_Users_by_username_run, Hdrv in *.
  destruct (N.ltb 0 (N.of_nat (List.length
              (filter (fun u => live (User.DeletedAt u) && (User.Username u =? "admin"))
                      (users (db w)))))) eqn:Hcount.
  - unfold ret in Hrun. injection Hrun as <-. now rewrite Hcount.
  - destruct (hash "admin") as [hashed | e]; [| discriminate Hrun].
    unfold bind at 1 in Hrun.
    destruct (Create_User _ w) as [[row | e] w2] eqn:Hc; [| discriminate Hrun].
    unfold ret in Hrun. injection Hrun as <-.
    apply Create_User_Ok in Hc. destruct Hc as [_ [Hrow ->]].
    cbn [with_db db users]. rewrite filter_app, length_app.
    cbn [filter]. rewrite Hrow.
    cbn [User.DeletedAt User.Username live andb String.eqb Ascii.eqb Bool.eqb].
    cbn [List.length].
    assert (Hpos : N.ltb 0 (N.of_nat (List.length
              (filter (fun u => live (User.DeletedAt u) && (User.Username u =? "admin"))
                      (users (db w))) + 1)) = true).
    { apply N.ltb_lt. lia. }
    rewrite Hpos. reflexivity.
Qed.

Lemma seedDefaultAdmin_idempotent_witness :
  seedDefaultAdmin Toy.GenerateFromPassword healthy
    (snd (seedDefaultAdmin Toy.GenerateFromPassword healthy fresh_world)) =
  (Ok tt, snd (seedDefaultAdmin Toy.GenerateFromPassword healthy fresh_world)).
Proof.
  apply (seedDefaultAdmin_idempotent Toy.GenerateFromPassword healthy fresh_world).
  - reflexivity.
  - vm_compute. reflexivity.
Defined.

(** The first seeding: on a database that has no user named [admin], with
    the hash and the insert going through, [seedDefaultAdmin] stores an
    account that later lookups of [admin] find, with role ADMIN, the hash of
    the default password and [must_change_password] set, so that its first
    successful login is sent to [/change-password]. *)
Theorem seedDefaultAdmin_first_run :
  forall (hash : string -> result string) (drv : Driver) (w : World) (hashed : string),
    existsb (fun x => User.Username x =? "admin") (users (db w)) = false ->
    fails w OpCreateUser = false ->
    hash "admin" = Ok hashed ->
    exists w1 u,
      seedDefaultAdmin hash drv w = (Ok tt, w1) /\
      User.Role u = RoleAdmin /\ User.MustChangePassword u = true /\
      User.PasswordHash u = hashed /\
      forall later,
        users (db later) = users (db w1) ->
        fails later OpFirstUserByUsername = false ->
        First_User_by_username "admin" later = (Ok u, later) /\
        forall (sign : string -> Claims.t -> result string)
               (compare : string -> string -> result unit)
               (cfg : Config.t) rw r form token w2,
          ParseForm r = Ok form ->
          FormValue form "username" = "admin" ->
          compare hashed (FormValue form "password") = Ok tt ->
          GenerateToken sign u (Config.JWTExpiration cfg) later = (Ok token, w2) ->
          Login sign compare cfg rw r later =
          (Responded (http_Redirect (http_SetCookie rw (session_cookie cfg token))
                                    "/change-password" StatusSeeOther), w2).
Proof.
  intros hash drv w hashed Hnone Hfail Hhash.
  assert (Hzero : filter (fun u => live (User.DeletedAt u) && (User.Username u =? "admin"))
                         (users (db w)) = []).
  { induction (users (db w)) as [| x rest IH]; [reflexivity |].
    cbn [existsb] in Hnone. apply orb_false_elim in Hnone. destruct Hnone as [Hx Hr].
    cbn [filter]. rewrite Hx, andb_false_r. now apply IH. }
  unfold seedDefaultAdmin. unfold bind at 1.
  rewrite Count_Users_by_username_run, Hzero.
  assert (Hlt : N.ltb 0 (match (if drv OpCountUsersByUsername
                                then Err ErrDatabase
                                else Ok (N.of_nat (@List.length User.t []))) with
                         | Ok n => n | Err _ => 0%N end) = false).
  { now destruct (drv OpCountUsersByUsername). }
  rewrite Hlt, Hhash. unfold bind at 1.
  unfold Create_User, bind, time_Now. cbn [tick fails db].
  rewrite Hfail. cbn [User.Username]. rewrite Hnone. unfold ret.
  eexists.
  exists (User.mk (next_user_id (users (db w))) (now w) (now w) None "admin"
                  "Administrator" hashed RoleAdmin true).
  split; [reflexivity |].
  cbn [User.Role User.MustChangePassword User.PasswordHash gorm_default].
  split; [reflexivity |]. split; [reflexivity |]. split; [reflexivity |].
  intros later Hdb Hf. cbn [with_db db users] in Hdb.
  assert (Hlook : First_User_by_username "admin" later =
                  (Ok (User.mk (next_user_id (users (db w)))
                         (now w) (now w) None "admin" "Administrator" hashed
                         RoleAdmin true), later)).
  { unfold First_User_by_username. rewrite Hf, Hdb.
    rewrite find_app_last; [reflexivity | | reflexivity].
    intros x Hx.
    assert (Hn : (User.Username x =? "admin") = false).
    { destruct (User.Username x =? "admin") eqn:E; [| reflexivity].
      exfalso. assert (Ht : existsb (fun y => User.Username y =? "admin")
                                    (users (db w)) = true).
      { apply existsb_exists. exists x. now split. }
      rewrite Ht in Hnone. discriminate Hnone. }
    rewrite Hn. apply andb_false_r. }
  split; [exact Hlook |].
  intros sign compare cfg rw r form token w2 Hform Hname Hcmp Hgen.
  unfold Login. rewrite Hform, Hname. unfold bind at 1. rewrite Hlook.
  cbn [User.PasswordHash]. rewrite Hcmp. unfold bind. rewrite Hgen. reflexivity.
Qed.

Lemma seedDefaultAdmin_first_run_witness :
  exists w1 u,
    seedDefaultAdmin Toy.GenerateFromPassword healthy fresh_world = (Ok tt, w1) /\
    User.Role u = RoleAdmin /\ User.MustChangePassword u = true /\
    User.PasswordHash u = "$toy$admin".
Proof.
  destruct (seedDefaultAdmin_first_run Toy.GenerateFromPassword healthy fresh_world
              "$toy$admin" eq_refl eq_refl eq_refl)
    as [w1 [u [H1 [H2 [H3 [H4 _]]]]]].
  exists w1, u. repeat split; assumption.
Defined.

(** The unique index on [username] also holds soft-deleted rows: once the
    only account named [admin] has been soft-deleted, the count sees no
    live admin, the insert is refused, and [seedDefaultAdmin] returns the
    error, leaving the database as it was. *)
Theorem seedDefaultAdmin_after_admin_deleted :
  forall (hash : string -> result string) (drv : Driver) (w : World) (hashed : string),
    filter (fun u => live (User.DeletedAt u) && (User.Username u =? "admin"))
           (users (db w)) = [] ->
    existsb (fun x => User.Username x =? "admin") (users (db w)) = true ->
    fails w OpCreateUser = false ->
    hash "admin" = Ok hashed ->
    seedDefaultAdmin hash drv w = (Err ErrDuplicatedKey, tick w) /\
    db (tick w) = db w.
Proof.
  intros hash drv w hashed Hzero Hsome Hfail Hhash.
  split; [| reflexivity].
  unfold seedDefaultAdmin. unfold bind at 1.
  rewrite Count_Users_by_username_run, Hzero.
  assert (Hlt : N.ltb 0 (match (if drv OpCountUsersByUsername
                                then Err ErrDatabase
                                else Ok (N.of_nat (@List.length User.t []))) with
                         | Ok n => n | Err _ => 0%N end) = false).
  { now destruct (drv OpCountUsersByUsername). }
  rewrite Hlt, Hhash. unfold bind at 1.
  unfold Create_User, bind, time_Now. cbn [tick fails db].
  rewrite Hfail. cbn [User.Username]. rewrite Hsome. reflexivity.
Qed.

Lemma seedDefaultAdmin_after_admin_deleted_witness :
  seedDefaultAdmin Toy.GenerateFromPassword healthy deleted_admin_world =
    (Err ErrDuplicatedKey, tick deleted_admin_world) /\
  db (tick deleted_admin_world) = db deleted_admin_world.
Proof.
  apply (seedDefaultAdmin_after_admin_deleted Toy.GenerateFromPassword healthy
           deleted_admin_world "$toy$admin").
  - reflexivity.
  - reflexivity.
  - reflexivity.
  - reflexivity.
Defined.

(** ** More on registration *)

Lemma next_user_id_fresh : forall (l : list User.t) (x : User.t),
  In x l -> (User.ID x < next_user_id l)%N.
Proof.
  unfold next_user_id. induction l as [| y rest IH]; intros x Hin; [destruct Hin |].
  cbn [fold_right]. destruct Hin as [-> | Hin].
  - lia.
  - specialize (IH x Hin). lia.
Qed.

Lemma Update_must_change_password_result : forall user v w,
  Update_must_change_password user v w =
  if fails w OpUpdateMustChangePassword then (Err ErrDatabase, tick w)
  else
    (Ok tt,
     with_db (mkDB (map (fun x => if N.eqb (User.ID x) (User.ID user)
                                     && live (User.DeletedAt x)
                                  then User.mk (User.ID x) (User.CreatedAt x) (now w)
                                         (User.DeletedAt x) (User.Username x)
                                         (User.FullName x) (User.PasswordHash x)
                                         (User.Role x) v
                                  else x)
                        (users (db w)))
                (invites (db w)) (overtime_entries (db w))) (tick w)).
Proof.
  intros user v w. unfold Update_must_change_password, bind, time_Now.
  cbn [tick db fails]. now destruct (fails w OpUpdateMustChangePassword).
Qed.

Lemma Save_Invite_users : forall i w,
  users (db (snd (Save_Invite i w))) = users (db w) /\
  overtime_entries (db (snd (Save_Invite i w))) = overtime_entries (db w).
Proof.
  intros i w. unfold Save_Invite, bind, time_Now. cbn [tick db fails].
  destruct (fails w OpSaveInvite); split; reflexivity.
Qed.

(** The user rows [Register] leaves behind: either the ones it found, or
    those plus one new row, up to the flag and timestamp that the follow-up
    update rewrites. *)
Lemma Register_users_cases :
  forall (sign : string -> Claims.t -> result string)
         (hash : string -> result string) (cfg : Config.t) rw r w,
    users (db (snd (Register sign hash cfg rw r w))) = users (db w) \/
    exists row,
      User.ID row = next_user_id (users (db w)) /\
      existsb (fun x => User.Username x =? User.Username row) (users (db w)) = false /\
      map User.ID (users (db (snd (Register sign hash cfg rw r w))))
        = map User.ID (users (db w) ++ [row])%list /\
      map User.Username (users (db (snd (Register sign hash cfg rw r w))))
        = map User.Username (users (db w) ++ [row])%list.
Proof.
  intros sign hash cfg rw r w.
  remember (snd (Register sign hash cfg rw r w)) as w' eqn:Hw'.
  unfold Register in Hw'.
  destruct (ParseForm r) as [form | e0]; [| left; now subst w'].
  unfold bind at 1 in Hw'.
  pose proof (First_Invite_by_code_world (FormValue form "code") w) as Hw1.
  destruct (First_Invite_by_code (FormValue form "code") w) as [[invite | e1] w1];
    cbn [snd] in Hw1; subst w1; [| left; now subst w'].
  unfold bind at 1 in Hw'. rewrite IsValid_run in Hw'.
  destruct (Invite.Used invite); [left; now subst w' |].
  destruct (time_Before (now w) (Invite.ExpiresAt invite)); cbn [negb] in Hw';
    [| left; now subst w'].
  destruct (Nat.ltb (String.length (FormValue form "username")) 3);
    [left; now subst w' |].
  destruct (negb (FormValue form "password" =? FormValue form "confirm_password"));
    [left; now subst w' |].
  destruct (Nat.ltb (String.length (FormValue form "password")) 5);
    [left; now subst w' |].
  unfold bind at 1 in Hw'.
  pose proof (First_User_by_username_world (FormValue form "username") (tick w)) as Hw2.
  destruct (First_User_by_username (FormValue form "username") (tick w))
    as [[existing | e2] w2]; cbn [snd] in Hw2; subst w2; [left; now subst w' |].
  destruct (hash (FormValue form "password")) as [hashed | e3]; [| left; now subst w'].
  unfold bind at 1 in Hw'.
  destruct (Create_User _ (tick w)) as [[user | e4] w3] eqn:Hc.
  - pose proof Hc as Hc'. apply Create_User_Ok in Hc'.
    destruct Hc' as [Hf [Hrow Hw3]].
    assert (Hfresh : existsb (fun x => User.Username x =? User.Username user)
                             (users (db w)) = false).
    { unfold Create_User, bind, time_Now in Hc. cbn [tick fails db] in Hc.
      cbn [tick fails] in Hf. rewrite Hf in Hc. cbn [User.Username] in Hc.
      rewrite Hrow. cbn [User.Username].
      destruct (existsb _ (users (db w))); [discriminate Hc | reflexivity]. }
    right. exists user. split; [now rewrite Hrow |]. split; [exact Hfresh |].
    unfold bind at 1 in Hw'. rewrite Update_must_change_password_result in Hw'.
    assert (Hmap : forall (t : Time) (l : list User.t),
      map User.ID (map (fun x => if N.eqb (User.ID x) (User.ID user)
                                    && live (User.DeletedAt x)
                                 then User.mk (User.ID x) (User.CreatedAt x) t
                                        (User.DeletedAt x) (User.Username x)
                                        (User.FullName x) (User.PasswordHash x)
                                        (User.Role x) false
                                 else x) l) = map User.ID l /\
      map User.Username (map (fun x => if N.eqb (User.ID x) (User.ID user)
                                          && live (User.DeletedAt x)
                                       then User.mk (User.ID x) (User.CreatedAt x) t
                                              (User.DeletedAt x) (User.Username x)
                                              (User.FullName x) (User.PasswordHash x)
                                              (User.Role x) false
                                       else x) l) = map User.Username l).
    { intros t l. rewrite !map_map. split; apply map_ext; intros x;
        now destruct (N.eqb (User.ID x) (User.ID user) && live (User.DeletedAt x)). }
    destruct (fails w3 OpUpdateMustChangePassword).
    + unfold bind at 1 in Hw'.
      pose proof (Save_Invite_users (Invite.with_Used true invite) (tick w3)) as [Hs _].
      destruct (Save_Invite (Invite.with_Used true invite) (tick w3)) as [s w4].
      cbn [snd] in Hs. unfold bind at 1 in Hw'. rewrite GenerateToken_run in Hw'.
      assert (Hu : users (db w') = users (db w4))
        by (rewrite Hw'; now destruct (sign _ _)).
      rewrite Hu, Hs, Hw3. cbn [tick with_db db users]. split; reflexivity.
    + unfold bind at 1 in Hw'.
      match type of Hw' with
      | context [Save_Invite ?i ?wx] =>
          pose proof (Save_Invite_users i wx) as [Hs _];
          destruct (Save_Invite i wx) as [s w4]
      end.
      cbn [snd] in Hs. unfold bind at 1 in Hw'. rewrite GenerateToken_run in Hw'.
      assert (Hu : users (db w') = users (db w4))
        by (rewrite Hw'; now destruct (sign _ _)).
      rewrite Hu, Hs. cbn [tick with_db db users].
      destruct (Hmap (now w3) (users (db w3))) as [H1 H2].
      rewrite H1, H2, Hw3. cbn [tick with_db db users]. split; reflexivity.
  - left. apply Create_User_Err in Hc. subst w3. now subst w'.
Qed.

Lemma NoDup_snoc : forall (A : Type) (l : list A) (a : A),
  NoDup l -> ~ In a l -> NoDup (l ++ [a])%list.
Proof.
  intros A l a Hnd Hnot. induction l as [| x rest IH]; cbn [app].
  - constructor; [intros [] | constructor].
  - apply NoDup_cons_iff in Hnd. destruct Hnd as [Hx Hnd]. constructor.
    + intros Hin. apply in_app_or in Hin. destruct Hin as [Hin | [Hin | []]].
      * contradiction.
      * apply Hnot. left. now symmetry.
    + apply IH; [assumption |]. intros Hin. apply Hnot. now right.
Qed.

(** [Register] keeps the users table well-formed: if ids and usernames were
    unique before, they are unique afterwards, whatever is submitted and
    whichever statements fail. *)
Theorem Register_keeps_users_unique :
  forall (sign : string -> Claims.t -> result string)
         (hash : string -> result string) (cfg : Config.t) rw r w,
    NoDup (map User.ID (users (db w))) ->
    NoDup (map User.Username (users (db w))) ->
    NoDup (map User.ID (users (db (snd (Register sign hash cfg rw r w))))) /\
    NoDup (map User.Username (users (db (snd (Register sign hash cfg rw r w))))).
Proof.
  intros sign hash cfg rw r w Hid Hname.
  destruct (Register_users_cases sign hash cfg rw r w)
    as [-> | [row [Hrid [Hfresh [-> ->]]]]]; [now split |].
  rewrite !map_app. cbn [map]. split; apply NoDup_snoc; try assumption.
  - intros Hin. apply in_map_iff in Hin. destruct Hin as [x [Hx Hin]].
    pose proof (next_user_id_fresh _ _ Hin). lia.
  - intros Hin. apply in_map_iff in Hin. destruct Hin as [x [Hx Hin]].
    assert (Ht : existsb (fun y => User.Username y =? User.Username row)
                         (users (db w)) = true).
    { apply existsb_exists. exists x. split; [assumption |]. now apply string_eqb_true. }
    rewrite Ht in Hfresh. discriminate Hfresh.
Qed.

Lemma Register_keeps_users_unique_witness :
  NoDup (map User.ID
           (users (db (snd (Register Toy.SignedString Toy.GenerateFromPassword
                              short_config emptyRW register_request
                              (invite_world no_faults)))))) /\
  NoDup (map User.Username
           (users (db (snd (Register Toy.SignedString Toy.GenerateFromPassword
                              short_config emptyRW register_request
                              (invite_world no_faults)))))).
Proof.
  apply (Register_keeps_users_unique Toy.SignedString Toy.GenerateFromPassword
           short_config emptyRW register_request (invite_world no_faults)).
  - vm_compute. repeat constructor. intros [].
  - vm_compute. repeat constructor. intros [].
Defined.

(** [Register] turns away a code it does not find, a used invite and an
    invite whose expiry the clock has reached: the answer is 400, no account
    is created and the database is as it was.  For a used invite the clock
    is not even read; for an unused one it is read once. *)
Theorem Register_rejects_unknown_used_or_expired :
  forall (sign : string -> Claims.t -> result string)
         (hash : string -> result string) (cfg : Config.t) rw r w form,
    ParseForm r = Ok form ->
    (forall e, First_Invite_by_code (FormValue form "code") w = (Err e, w) ->
       Register sign hash cfg rw r w =
       (Responded (http_Error rw "Invalid invite link" StatusBadRequest), w)) /\
    (forall invite,
       First_Invite_by_code (FormValue form "code") w = (Ok invite, w) ->
       Invite.Used invite = true ->
       Register sign hash cfg rw r w =
       (Responded (http_Error rw "Invite link has expired or already been used"
                              StatusBadRequest), w)) /\
    (forall invite,
       First_Invite_by_code (FormValue form "code") w = (Ok invite, w) ->
       Invite.Used invite = false ->
       (Invite.ExpiresAt invite <= now w)%Z ->
       Register sign hash cfg rw r w =
       (Responded (http_Error rw "Invite link has expired or already been used"
                              StatusBadRequest), tick w) /\
       db (tick w) = db w).
Proof.
  intros sign hash cfg rw r w form Hform. split; [| split].
  - intros e He. unfold Register. rewrite Hform. unfold bind at 1. now rewrite He.
  - intros invite Hfound Hused.
    rewrite (Register_rejects_invalid_invite sign hash cfg rw r w form invite
               Hform Hfound).
    + rewrite IsValid_run, Hused. reflexivity.
    + rewrite IsValid_run, Hused. reflexivity.
  - intros invite Hfound Hused Hlate. split; [| reflexivity].
    rewrite (Register_rejects_invalid_invite sign hash cfg rw r w form invite
               Hform Hfound).
    + rewrite IsValid_run, Hused. reflexivity.
    + rewrite IsValid_run, Hused. cbn [fst]. unfold time_Before.
      now apply Z.ltb_ge.
Qed.

Lemma Register_rejects_unknown_used_or_expired_witness :
  Register Toy.SignedString Toy.GenerateFromPassword short_config emptyRW
           register_unknown_code (invite_world no_faults) =
  (Responded (http_Error emptyRW "Invalid invite link" StatusBadRequest),
   invite_world no_faults) /\
  Register Toy.SignedString Toy.GenerateFromPassword short_config emptyRW
           register_request used_invite_world =
  (Responded (http_Error emptyRW "Invite link has expired or already been used"
                         StatusBadRequest), used_invite_world) /\
  Register Toy.SignedString Toy.GenerateFromPassword short_config emptyRW
           register_request eighth_day_world =
  (Responded (http_Error emptyRW "Invite link has expired or already been used"
                         StatusBadRequest), tick eighth_day_world).
Proof.
  split; [| split].
  - apply (proj1 (Register_rejects_unknown_used_or_expired Toy.SignedString
                    Toy.GenerateFromPassword short_config emptyRW
                    register_unknown_code (invite_world no_faults) _ eq_refl)
             ErrRecordNotFound).
    reflexivity.
  - apply (proj1 (proj2 (Register_rejects_unknown_used_or_expired Toy.SignedString
                           Toy.GenerateFromPassword short_config emptyRW
                           register_request used_invite_world _ eq_refl))
             (Invite.with_Used true invite0)).
    + reflexivity.
    + reflexivity.
  - apply (proj2 (proj2 (Register_rejects_unknown_used_or_expired Toy.SignedString
                           Toy.GenerateFromPassword short_config emptyRW
                           register_request eighth_day_world _ eq_refl))
             invite0).
    + reflexivity.
    + reflexivity.
    + vm_compute. discriminate.
Defined.

(** A submission with a valid invite but a bad form (username shorter than
    three bytes, passwords that differ, a password shorter than five bytes,
    or a username a live account holds) is sent back to the registration
    page with the code kept in the link; nothing is stored and no cookie is
    set. *)
Theorem Register_form_errors_keep_invite :
  forall (sign : string -> Claims.t -> result string)
         (hash : string -> result string) (cfg : Config.t) rw r w form invite,
    ParseForm r = Ok form ->
    First_Invite_by_code (FormValue form "code") w = (Ok invite, w) ->
    fst (IsValid invite w) = true ->
    (String.length (FormValue form "username") < 3)%nat \/
    FormValue form "password" <> FormValue form "confirm_password" \/
    (String.length (FormValue form "password") < 5)%nat \/
    (exists u, First_User_by_username (FormValue form "username") (tick w)
               = (Ok u, tick w)) ->
    exists msg,
      Register sign hash cfg rw r w =
      (Responded (http_Redirect rw
         ("/register?code=" ++ FormValue form "code" ++ "&error=" ++ msg)
         StatusSeeOther), tick w) /\
      db (tick w) = db w.
Proof.
  intros sign hash cfg rw r w form invite Hform Hfound Hvalid Hbad.
  unfold Register. rewrite Hform. unfold bind at 1. rewrite Hfound.
  unfold bind at 1. destruct (IsValid_valid invite w Hvalid) as [Hrun _].
  rewrite Hrun. cbn [negb].
  destruct (Nat.ltb (String.length (FormValue form "username")) 3) eqn:E1.
  { exists "Username+must+be+at+least+3+characters". split; reflexivity. }
  destruct (FormValue form "password" =? FormValue form "confirm_password") eqn:E2;
    cbn [negb].
  2:{ exists "Passwords+do+not+match". split; reflexivity. }
  destruct (Nat.ltb (String.length (FormValue form "password")) 5) eqn:E3.
  { exists "Password+must+be+at+least+5+characters". split; reflexivity. }
  apply Nat.ltb_ge in E1, E3. apply string_eqb_true in E2.
  destruct Hbad as [Hb | [Hb | [Hb | [u Hu]]]]; [lia | contradiction | lia |].
  unfold bind at 1. rewrite Hu.
  exists "Username+already+exists". split; reflexivity.
Qed.

Lemma Register_form_errors_keep_invite_witness :
  exists msg,
    Register Toy.SignedString Toy.GenerateFromPassword short_config emptyRW
             register_short_username (invite_world no_faults) =
    (Responded (http_Redirect emptyRW ("/register?code=" ++ "c0de" ++ "&error=" ++ msg)
                              StatusSeeOther), tick (invite_world no_faults)) /\
    db (tick (invite_world no_faults)) = db (invite_world no_faults).
Proof.
  apply (Register_form_errors_keep_invite Toy.SignedString Toy.GenerateFromPassword
           short_config emptyRW register_short_username (invite_world no_faults)
           _ invite0 eq_refl).
  - reflexivity.
  - vm_compute. reflexivity.
  - left. vm_compute. lia.
Defined.

(** The account a registration creates: its username is the submitted one,
    its password hash is what the hash function returned, and its role is
    the invite's role, which no form field can change; and every later
    lookup of the new id finds a row with those three values. *)
Theorem Register_creates_invited_account :
  forall (sign : string -> Claims.t -> result string)
         (hash : string -> result string) (cfg : Config.t)
         rw r w form invite hashed user w1,
    ParseForm r = Ok form ->
    First_Invite_by_code (FormValue form "code") w = (Ok invite, w) ->
    fst (IsValid invite w) = true ->
    (3 <= String.length (FormValue form "username"))%nat ->
    FormValue form "password" = FormValue form "confirm_password" ->
    (5 <= String.length (FormValue form "password"))%nat ->
    (forall u, fst (First_User_by_username (FormValue form "username") (tick w))
               <> Ok u) ->
    hash (FormValue form "password") = Ok hashed ->
    Create_User
      (User.mk 0%N zeroTime zeroTime None (FormValue form "username") EmptyString
               hashed (Invite.Role invite) false) (tick w) = (Ok user, w1) ->
    forall (later : World) (u : User.t),
      users (db later) = users (db (snd (Register sign hash cfg rw r w))) ->
      fst (First_User_by_ID (User.ID user) later) = Ok u ->
      User.Username u = FormValue form "username" /\
      User.PasswordHash u = hashed /\
      User.Role u = Invite.Role invite.
Proof.
  intros sign hash cfg rw r w form invite hashed user w1
         Hform Hfound Hvalid Hu Hp Hl Hfree Hhash Hcreate later u Hdb Hlook.
  rewrite (Register_reaches_Create sign hash cfg rw r w form invite hashed
             Hform Hfound Hvalid Hu Hp Hl Hfree Hhash) in Hdb.
  unfold bind at 1 in Hdb. rewrite Hcreate in Hdb.
  apply Create_User_Ok in Hcreate. destruct Hcreate as [_ [Hrow Hw1]].
  cbn [User.Username User.PasswordHash User.Role User.CreatedAt User.UpdatedAt
         User.DeletedAt User.FullName User.MustChangePassword tick db] in Hrow.
  unfold bind at 1 in Hdb. rewrite Update_must_change_password_result in Hdb.
  assert (Hin : exists y, In y (users (db w1)) /\
                  User.ID u = User.ID y /\ User.Username u = User.Username y /\
                  User.PasswordHash u = User.PasswordHash y /\
                  User.Role u = User.Role y /\ User.ID u = User.ID user).
  { unfold First_User_by_ID in Hlook.
    destruct (fails later OpFirstUserByID); [discriminate Hlook |].
    destruct (find _ _) as [x |] eqn:Ef; [| discriminate Hlook].
    cbn [fst] in Hlook. injection Hlook as Hxu. subst x.
    apply find_some in Ef. destruct Ef as [Hin HP].
    apply andb_prop in HP. destruct HP as [_ Hid]. apply N.eqb_eq in Hid.
    rewrite Hdb in Hin.
    destruct (fails w1 OpUpdateMustChangePassword).
    - unfold bind at 1 in Hin.
      pose proof (Save_Invite_users (Invite.with_Used true invite) (tick w1)) as [Hs _].
      destruct (Save_Invite (Invite.with_Used true invite) (tick w1)) as [s w4].
      cbn [snd] in Hs. unfold bind at 1 in Hin. rewrite GenerateToken_run in Hin.
      assert (Hin' : In u (users (db w4))) by (now destruct (sign _ _)).
      rewrite Hs in Hin'. cbn [tick db] in Hin'. exists u. repeat split; assumption.
    - unfold bind at 1 in Hin.
      match type of Hin with
      | context [Save_Invite ?i ?wx] =>
          pose proof (Save_Invite_users i wx) as [Hs _];
          destruct (Save_Invite i wx) as [s w4]
      end.
      cbn [snd] in Hs. unfold bind at 1 in Hin. rewrite GenerateToken_run in Hin.
      assert (Hin' : In u (users (db w4))) by (now destruct (sign _ _)).
      rewrite Hs in Hin'. cbn [tick with_db db users] in Hin'.
      apply in_map_iff in Hin'. destruct Hin' as [y [Hy Hiny]].
      exists y. split; [exact Hiny |].
      destruct (N.eqb (User.ID y) (User.ID user) && live (User.DeletedAt y));
        subst u; repeat split; assumption. }
  destruct Hin as [y [Hiny [Hid [Hn [Hh [Hr Hidu]]]]]].
  rewrite Hw1 in Hiny. cbn [with_db db users] in Hiny.
  apply in_app_or in Hiny. destruct Hiny as [Hold | [Hnew | []]].
  - exfalso. cbn [tick db] in Hold.
    pose proof (next_user_id_fresh _ _ Hold) as Hlt.
    rewrite <- Hid, Hidu, Hrow in Hlt. cbn [User.ID] in Hlt. lia.
  - rewrite Hn, Hh, Hr, <- Hnew, Hrow. repeat split.
Qed.

Lemma Register_creates_invited_account_witness :
  match fst (First_User_by_ID (User.ID dave_created)
               (snd (Register Toy.SignedString Toy.GenerateFromPassword short_config
                              emptyRW register_request (invite_world no_faults)))) with
  | Ok u =>
      User.Username u = "dave" /\ User.PasswordHash u = "$toy$hunter2" /\
      User.Role u = RoleEmployee
  | Err _ => False
  end.
Proof.
  destruct (fst (First_User_by_ID (User.ID dave_created)
                   (snd (Register Toy.SignedString Toy.GenerateFromPassword
                                  short_config emptyRW register_request
                                  (invite_world no_faults)))))
    as [u | e] eqn:E.
  - apply (Register_creates_invited_account Toy.SignedString
             Toy.GenerateFromPassword short_config emptyRW register_request
             (invite_world no_faults) registration_form invite0 "$toy$hunter2"
             dave_created
             (with_db (mkDB [admin0; dave_created] [invite0] [])
                      (tick (tick (invite_world no_faults))))
             eq_refl eq_refl ltac:(vm_compute; reflexivity) ltac:(vm_compute; lia)
             eq_refl ltac:(vm_compute; lia)
             ltac:(intros u0; vm_compute; discriminate) eq_refl
             ltac:(vm_compute; reflexivity)
             (snd (Register Toy.SignedString Toy.GenerateFromPassword short_config
                            emptyRW register_request (invite_world no_faults)))
             u eq_refl E).
  - vm_compute in E. discriminate E.
Defined.

(** One invite, one account: after a registration has consumed an invite
    (the [Save] went through), a second submission with the same code, by
    anyone and with any form, is answered 400 and leaves the world as it
    found it: nothing is stored and, the invite being used, the clock is not
    read. *)
Theorem Register_second_redemption_rejected :
  forall (sign : string -> Claims.t -> result string)
         (hash : string -> result string) (cfg : Config.t)
         rw r w form invite hashed user w1,
    ParseForm r = Ok form ->
    First_Invite_by_code (FormValue form "code") w = (Ok invite, w) ->
    fst (IsValid invite w) = true ->
    (3 <= String.length (FormValue form "username"))%nat ->
    FormValue form "password" = FormValue form "confirm_password" ->
    (5 <= String.length (FormValue form "password"))%nat ->
    (forall u, fst (First_User_by_username (FormValue form "username") (tick w))
               <> Ok u) ->
    hash (FormValue form "password") = Ok hashed ->
    Create_User
      (User.mk 0%N zeroTime zeroTime None (FormValue form "username") EmptyString
               hashed (Invite.Role invite) false) (tick w) = (Ok user, w1) ->
    fails w OpSaveInvite = false ->
    forall sign2 hash2 cfg2 rw2 r2 form2 later,
      db later = db (snd (Register sign hash cfg rw r w)) ->
      fails later OpFirstInviteByCode = false ->
      ParseForm r2 = Ok form2 ->
      FormValue form2 "code" = FormValue form "code" ->
      Register sign2 hash2 cfg2 rw2 r2 later =
      (Responded (http_Error rw2 "Invite link has expired or already been used"
                             StatusBadRequest), later).
Proof.
  intros sign hash cfg rw r w form invite hashed user w1
         Hform Hfound Hvalid Hu Hp Hl Hfree Hhash Hcreate Hsave
         sign2 hash2 cfg2 rw2 r2 form2 later Hdb Hf Hform2 Hcode.
  destruct (Register_consumes_invite sign hash cfg rw r w form invite hashed
              Hform Hfound Hvalid Hu Hp Hl Hfree Hhash user w1 Hcreate Hsave)
    as [out [w' [Hrun [_ [Hstored _]]]]].
  rewrite Hrun in Hdb. cbn [snd] in Hdb.
  pose proof (Hstored later Hdb Hf) as Hlook. rewrite <- Hcode in Hlook.
  rewrite (Register_rejects_invalid_invite sign2 hash2 cfg2 rw2 r2 later form2 _
             Hform2 Hlook).
  - rewrite IsValid_run. reflexivity.
  - rewrite IsValid_run. reflexivity.
Qed.

Lemma Register_second_redemption_rejected_witness :
  Register Toy.SignedString Toy.GenerateFromPassword short_config emptyRW
           register_request
           (snd (Register Toy.SignedString Toy.GenerateFromPassword short_config
                          emptyRW register_request (invite_world no_faults))) =
  (Responded (http_Error emptyRW "Invite link has expired or already been used"
                         StatusBadRequest),
   snd (Register Toy.SignedString Toy.GenerateFromPassword short_config
                 emptyRW register_request (invite_world no_faults))).
Proof.
  apply (Register_second_redemption_rejected Toy.SignedString
           Toy.GenerateFromPassword short_config emptyRW register_request
           (invite_world no_faults) registration_form invite0 "$toy$hunter2"
           dave_created
           (with_db (mkDB [admin0; dave_created] [invite0] [])
                    (tick (tick (invite_world no_faults))))
           eq_refl eq_refl ltac:(vm_compute; reflexivity) ltac:(vm_compute; lia)
           eq_refl ltac:(vm_compute; lia)
           ltac:(intros u; vm_compute; discriminate) eq_refl
           ltac:(vm_compute; reflexivity) eq_refl
           Toy.SignedString Toy.GenerateFromPassword short_config emptyRW
           register_request registration_form).
  - reflexivity.
  - reflexivity.
  - reflexivity.
  - reflexivity.
Defined.

(** ** The Bearer header *)

Lemma Split_space_nonempty : forall s, Split_space s <> [].
Proof.
  induction s as [| c s IH]; cbn [Split_space]; [discriminate |].
  destruct (Ascii.eqb c " "%char); [discriminate |].
  destruct (Split_space s); [contradiction | discriminate].
Qed.

Lemma Split_space_two : forall s a b,
  Split_space s = [a; b] -> s = a ++ String " "%char b.
Proof.
  induction s as [| c s IH]; intros a b H; cbn [Split_space] in H.
  - discriminate H.
  - destruct (Ascii.eqb c " "%char) eqn:Ec.
    + apply Ascii.eqb_eq in Ec. subst c. injection H as <- Hs.
      cbn [append]. f_equal.
      (* the rest splits into the single part [b] *)
      clear IH. revert b Hs. induction s as [| d s IHs]; intros b Hs;
        cbn [Split_space] in Hs.
      * now injection Hs as <-.
      * destruct (Ascii.eqb d " "%char);
          [injection Hs as _ Hs; now destruct (Split_space_nonempty s) |].
        destruct (Split_space s) as [| h t] eqn:Et;
          [now destruct (Split_space_nonempty s) |].
        injection Hs as <- ->. f_equal. now apply IHs.
    + destruct (Split_space s) as [| h t] eqn:Et; [discriminate H |].
      injection H as <- ->. cbn [append]. f_equal. now apply IH.
Qed.

(** When the token does not come from the cookie, it comes from a header
    of exactly the form [Bearer <token>]: the scheme spelled that way, one
    space, then the token; any other [Authorization] header leaves the
    request without a token. *)
Theorem bearer_header_exact_format : forall (r : Request) (t : string),
  Request_Cookie r "token" = None \/ Request_Cookie r "token" = Some EmptyString ->
  request_token r = t ->
  t <> EmptyString ->
  Header_Get r "Authorization" = "Bearer " ++ t.
Proof.
  intros r t Hc Ht Hne. unfold request_token in Ht.
  assert (Hc' : match Request_Cookie r "token" with
                | Some value => value | None => EmptyString end = EmptyString).
  { destruct Hc as [-> | ->]; reflexivity. }
  rewrite Hc' in Ht. cbn [String.eqb] in Ht.
  destruct (negb (Header_Get r "Authorization" =? EmptyString));
    [| now subst t].
  destruct (Split_space (Header_Get r "Authorization")) as [| p0 [| p1 [| p2 rest]]]
    eqn:Es; try (now subst t).
  destruct (p0 =? "Bearer") eqn:Ep; [| now subst t].
  apply string_eqb_true in Ep. subst p0 t.
  now apply Split_space_two in Es.
Qed.

Lemma bearer_header_exact_format_witness :
  Header_Get request_bearer_only "Authorization" = "Bearer " ++ "abc".
Proof.
  apply (bearer_header_exact_format request_bearer_only "abc").
  - left. reflexivity.
  - reflexivity.
  - discriminate.
Defined.
